(** * Schema path transformation: flattening and unflattening of nested blueprints

  A shallow embedding of [src/services/schema_converter.py] and of the
  document-level operations of [src/models/schema.py], together with the
  properties of the flatten / unflatten pair.

  Python values are modelled as follows.
  - A JSON value is a [json]; a [dict] is an association list in insertion
    order whose keys are pairwise distinct ([dict_set] keeps that invariant:
    it overwrites in place or appends at the end, as a Python dict does).
  - A call that can raise returns a [result]; the recursive flattener takes
    the remaining recursion depth of the interpreter as an argument and
    raises [RecursionError] when it is used up.
  - The two dicts that [_flatten_properties] mutates are threaded as a pair.
  - Values are modelled without sharing: the unflattener's in-place writes
    through its cursor are written back along the path it came by.  The
    two agree as long as no node that is written through is reachable from
    two places, as in a document read from JSON. *)

From Stdlib Require Import List String Ascii Bool Arith Lia ZArith.
Import ListNotations.
Local Open Scope string_scope.
Local Open Scope list_scope.

(** ** Python string operations used by the converter *)

Module PyStr.

(** [s.startswith(p)] *)
Definition startswith (p s : string) : bool := String.prefix p s.

(** [sub in s] for strings *)
Fixpoint contains (sub s : string) : bool :=
  startswith sub s ||
  match s with
  | EmptyString => false
  | String _ s' => contains sub s'
  end.

(** [s.replace(old, new)] for a non-empty [old]: occurrences are replaced
    from the left and do not overlap.  [skip] counts the characters of a
    matched occurrence that are still to be passed over. *)
Fixpoint replace_from (old new : string) (skip : nat) (s : string) : string :=
  match s with
  | EmptyString => EmptyString
  | String c s' =>
      match skip with
      | S k => replace_from old new k s'
      | O =>
          if startswith old s
          then new ++ replace_from old new (String.length old - 1) s'
          else String c (replace_from old new 0 s')
      end
  end.

Definition replace (old new s : string) : string := replace_from old new 0 s.

(** [s.split('.')] *)
Fixpoint split_dot (s : string) : list string :=
  match s with
  | EmptyString => [EmptyString]
  | String c s' =>
      if Ascii.eqb c "."%char then EmptyString :: split_dot s'
      else match split_dot s' with
           | h :: t => String c h :: t
           | [] => [String c EmptyString]
           end
  end.

End PyStr.

(** ** JSON values and Python dicts *)

#[warnings="-register-all"] Inductive json : Type :=
| JNull
| JBool (b : bool)
| JNum (n : Z)
| JStr (s : string)
| JArr (l : list json)
| JObj (d : list (string * json)).

Definition dict := list (string * json).

Inductive exn : Type :=
| KeyError | TypeError | AttributeError | RecursionError | ValidationError.

Inductive result (A : Type) : Type :=
| Ok (a : A)
| Raise (e : exn).
Arguments Ok {A} a.
Arguments Raise {A} e.

Definition bind {A B} (r : result A) (k : A -> result B) : result B :=
match r with
| Ok a => k a
| Raise e => Raise e
end.

Notation "x <- r ;; k" := (bind r (fun x => k))
(at level 61, r at next level, right associativity).

Section Dict.
Context {V : Type}.

(** [d.get(k)] as an option *)
Fixpoint dict_get (k : string) (d : list (string * V)) : option V :=
  match d with
  | [] => None
  | (k', v) :: d' => if String.eqb k k' then Some v else dict_get k d'
  end.

(** [k in d] *)
Definition dict_mem (k : string) (d : list (string * V)) : bool :=
  match dict_get k d with Some _ => true | None => false end.

(** [d[k] = v]: overwrite in place, or append *)
Fixpoint dict_set (k : string) (v : V) (d : list (string * V)) : list (string * V) :=
  match d with
  | [] => [(k, v)]
  | (k', v') :: d' =>
      if String.eqb k k' then (k', v) :: d' else (k', v') :: dict_set k v d'
  end.

(** [d[k]] *)
Definition dict_getitem (k : string) (d : list (string * V)) : result V :=
  match dict_get k d with Some v => Ok v | None => Raise KeyError end.

Definition keys (d : list (string * V)) : list string := map fst d.
End Dict.

(** [d.get(k, default)] *)
Definition dict_get_default (k : string) (default : json) (d : dict) : json :=
match dict_get k d with Some v => v | None => default end.

(** [v == "s"] for a string literal [s] *)
Definition json_is_str (s : string) (v : json) : bool :=
match v with JStr s' => String.eqb s' s | _ => false end.

(** [isinstance(v, dict)] *)
Definition is_dict (v : json) : bool :=
match v with JObj _ => true | _ => false end.

(** [v[k]] for a string key [k] on an arbitrary value *)
Definition py_getitem (k : string) (v : json) : result json :=
match v with
| JObj d => dict_getitem k d
| _ => Raise TypeError
end.

(** [v[k] = x] for a string key [k] on an arbitrary value *)
Definition py_setitem (k : string) (x : json) (v : json) : result json :=
match v with
| JObj d => Ok (JObj (dict_set k x d))
| _ => Raise TypeError
end.

(** [name in c] for a string [name] and an arbitrary container [c] *)
Definition py_in (name : string) (c : json) : result bool :=
match c with
| JObj d => Ok (dict_mem name d)
| JArr l => Ok (existsb (json_is_str name) l)
| JStr s => Ok (PyStr.contains name s)
| _ => Raise TypeError
end.

(** [v.items()]: only a dict has the method *)
Definition py_items (v : json) : result dict :=
match v with
| JObj d => Ok d
| _ => Raise AttributeError
end.

(** ** services/schema_converter.py: SchemaFlattener *)

Module SchemaFlattener.

(** The body of the loop of [_has_nested_properties] for one property:
    [true] when the loop returns [True] at this property. *)
Definition nested_property (prop_def : json) : bool :=
  match prop_def with
  | JObj d =>
      let prop_type := dict_get_default "type" (JStr "") d in
      if dict_mem "$ref" d then true
      else if json_is_str "object" prop_type && dict_mem "properties" d then true
      else if json_is_str "array" prop_type && dict_mem "items" d then
        match dict_get "items" d with
        | Some (JObj items_def) =>
            let items_type := dict_get_default "type" (JStr "") items_def in
            json_is_str "object" items_type && dict_mem "properties" items_def
        | _ => false
        end
      else false
  | _ => false
  end.

Fixpoint has_nested_items (items : dict) : bool :=
  match items with
  | [] => false
  | (_, prop_def) :: rest =>
      if nested_property prop_def then true else has_nested_items rest
  end.

Definition _has_nested_properties (properties : json) : result bool :=
  items <- py_items properties ;;
  Ok (has_nested_items items).

Definition is_nested_schema (schema : dict) : result bool :=
  match dict_get "properties" schema with
  | None => Ok false
  | Some properties => _has_nested_properties properties
  end.

(** The two dicts filled by [_flatten_properties]. *)
Definition acc : Type := dict * list (string * string).

Definition _build_nested_path (flat_path : string) : string := flat_path.

(** The terminal branches: record the node under the current path. *)
Definition add_leaf (current_path : string) (prop_def : json) (st : acc) : acc :=
  (dict_set current_path prop_def (fst st),
   dict_set current_path (_build_nested_path current_path) (snd st)).

(** [f"{prefix}.{prop_name}" if prefix else prop_name] *)
Definition join_path (prefix prop_name : string) : string :=
  match prefix with
  | EmptyString => prop_name
  | _ => prefix ++ "." ++ prop_name
  end.

(** The body of the [for] loop of [_flatten_properties] for one property;
    [definitions] is [self.definitions] and [recurse] the recursive call. *)
Definition flatten_property (recurse : json -> string -> acc -> result acc)
           (definitions : json) (prefix prop_name : string) (prop_def : json)
           (st : acc) : result acc :=
  match prop_def with
  | JObj d =>
      let current_path := join_path prefix prop_name in
      let prop_type := dict_get_default "type" (JStr "") d in
      match dict_get "$ref" d with
      | Some ref_path =>
          match ref_path with
          | JStr ref =>
              if PyStr.startswith "#/definitions/" ref then
                let def_name :=
                  PyStr.replace "%20" " " (PyStr.replace "#/definitions/" "" ref) in
                found <- py_in def_name definitions ;;
                if (found : bool) then
                  definition <- py_getitem def_name definitions ;;
                  match definition with
                  | JObj dd =>
                      match dict_get "properties" dd with
                      | Some sub => recurse sub current_path st
                      | None => Ok (add_leaf current_path prop_def st)
                      end
                  | _ => Ok (add_leaf current_path prop_def st)
                  end
                else Ok (add_leaf current_path prop_def st)
              else Ok (add_leaf current_path prop_def st)
          | _ => Raise AttributeError
          end
      | None =>
          if json_is_str "object" prop_type && dict_mem "properties" d then
            sub <- dict_getitem "properties" d ;;
            recurse sub current_path st
          else if json_is_str "array" prop_type && dict_mem "items" d then
            items_def <- dict_getitem "items" d ;;
            match items_def with
            | JObj it =>
                if json_is_str "object" (dict_get_default "type" JNull it)
                   && dict_mem "properties" it
                then
                  sub <- dict_getitem "properties" it ;;
                  recurse sub (current_path ++ "[*]")%string st
                else Ok (add_leaf current_path prop_def st)
            | _ => Ok (add_leaf current_path prop_def st)
            end
          else Ok (add_leaf current_path prop_def st)
      end
  | _ => Ok st
  end.

Fixpoint flatten_loop (recurse : json -> string -> acc -> result acc)
         (definitions : json) (prefix : string) (items : dict) (st : acc)
  : result acc :=
  match items with
  | [] => Ok st
  | (prop_name, prop_def) :: rest =>
      st' <- flatten_property recurse definitions prefix prop_name prop_def st ;;
      flatten_loop recurse definitions prefix rest st'
  end.

(** [_flatten_properties]; [depth] is the recursion depth still available. *)
Fixpoint _flatten_properties (depth : nat) (definitions : json)
         (properties : json) (prefix : string) (st : acc) : result acc :=
  match depth with
  | O => Raise RecursionError
  | S depth' =>
      items <- py_items properties ;;
      flatten_loop (_flatten_properties depth' definitions) definitions prefix items st
  end.

Definition flatten_schema (depth : nat) (nested_schema : dict)
  : result (dict * list (string * string)) :=
  nested <- is_nested_schema nested_schema ;;
  if (nested : bool) then
    let definitions := dict_get_default "definitions" (JObj []) nested_schema in
    st <-
      match dict_get "properties" nested_schema with
      | Some properties =>
          _flatten_properties depth definitions properties "" ([], [])
      | None => Ok ([], [])
      end ;;
    let flattened_schema := dict_set "properties" (JObj (fst st)) nested_schema in
    Ok (flattened_schema, snd st)
  else Ok (nested_schema, []).

End SchemaFlattener.

(** ** services/schema_converter.py: SchemaUnflattener *)

Module SchemaUnflattener.

(** One element of the list built by [_parse_flat_path]:
    [{"type": "property", "name": n}] or [{"type": "array", "name": n}]. *)
Inductive part : Type :=
| Property (name : string)
| Array (name : string).

Definition parse_segment (segment : string) : part :=
  if PyStr.contains "[*]" segment
  then Array (PyStr.replace "[*]" "" segment)
  else Property segment.

Definition _parse_flat_path (flat_path : string) : list part :=
  map parse_segment (PyStr.split_dot flat_path).

Definition is_nil {A} (l : list A) : bool :=
  match l with [] => true | _ => false end.

Definition object_node : json :=
  JObj [("type", JStr "object"); ("properties", JObj [])].

Definition array_node : json :=
  JObj [("type", JStr "array");
        ("items", JObj [("type", JStr "object"); ("properties", JObj [])])].

(** [if name not in level: level[name] = node] *)
Definition ensure (name : string) (node : json) (level : dict) : dict :=
  if dict_mem name level then level else dict_set name node level.

(** The loop of [_unflatten_property] from the cursor [current_level] on.
    The source moves the cursor into the structure and writes through it;
    here the rebuilt sub-mapping is returned and stored back under the key
    it was read from.  The two agree as long as every node written through
    is reachable from the structure under construction only: that is so
    for the nodes the loop creates itself, and fails for a node of the
    flat document that is stored as a leaf and later passed through by
    another path, when that node is also held elsewhere (by another flat
    entry or by the definitions).  A cursor that is not a dict makes the
    next membership test, subscript or assignment raise [TypeError]. *)
Fixpoint walk (path_parts : list part) (prop_def : json) (current_level : json)
  : result json :=
  match path_parts with
  | [] => Ok current_level
  | p :: rest =>
      match current_level with
      | JObj level =>
          let is_last := is_nil rest in
          match p with
          | Property prop_name =>
              if is_last then Ok (JObj (dict_set prop_name prop_def level))
              else
                let level := ensure prop_name object_node level in
                node <- dict_getitem prop_name level ;;
                sub <- py_getitem "properties" node ;;
                sub' <- walk rest prop_def sub ;;
                node' <- py_setitem "properties" sub' node ;;
                Ok (JObj (dict_set prop_name node' level))
          | Array prop_name =>
              let level := ensure prop_name array_node level in
              node <- dict_getitem prop_name level ;;
              if is_last then
                node' <- py_setitem "items" prop_def node ;;
                Ok (JObj (dict_set prop_name node' level))
              else
                items <- py_getitem "items" node ;;
                sub <- py_getitem "properties" items ;;
                sub' <- walk rest prop_def sub ;;
                items' <- py_setitem "properties" sub' items ;;
                node' <- py_setitem "items" items' node ;;
                Ok (JObj (dict_set prop_name node' level))
          end
      | _ => Raise TypeError
      end
  end.

Definition _unflatten_property (flat_path : string) (prop_def : json)
           (nested_properties : json) : result json :=
  walk (_parse_flat_path flat_path) prop_def nested_properties.

(** The [for] loop of [unflatten_schema]. *)
Fixpoint unflatten_items (items : dict) (nested_properties : json) : result json :=
  match items with
  | [] => Ok nested_properties
  | (flat_path, prop_def) :: rest =>
      nested_properties' <- _unflatten_property flat_path prop_def nested_properties ;;
      unflatten_items rest nested_properties'
  end.

Definition not_properties (kv : string * json) : bool :=
  negb (String.eqb (fst kv) "properties").

Definition unflatten_schema (flat_schema : dict) (path_mapping : list (string * string))
  : result dict :=
  match path_mapping with
  | [] => Ok flat_schema
  | _ :: _ =>
      let nested_schema := filter not_properties flat_schema in
      items <- py_items (dict_get_default "properties" (JObj []) flat_schema) ;;
      nested_properties <- unflatten_items items (JObj []) ;;
      Ok (dict_set "properties" nested_properties nested_schema)
  end.

End SchemaUnflattener.

(** ** models/schema.py *)

(** [class SchemaProperty(BaseModel)]: three required string fields.  The
  validation of the constructor follows pydantic: keyword arguments come
  from a mapping (unpacking anything else is a [TypeError]), each
  field must be present and a string, other keys are ignored. *)
Module SchemaProperty.

Record t : Type := mk {
  type : string;
  inferenceType : string;
  instruction : string
}.

Definition str_field (k : string) (kwargs : dict) : result string :=
  match dict_get k kwargs with
  | Some (JStr s) => Ok s
  | _ => Raise ValidationError
  end.

(** The constructor applied to the unpacked [prop_def]. *)
Definition init (prop_def : json) : result t :=
  match prop_def with
  | JObj kwargs =>
      ty <- str_field "type" kwargs ;;
      it <- str_field "inferenceType" kwargs ;;
      ins <- str_field "instruction" kwargs ;;
      Ok (mk ty it ins)
  | _ => Raise TypeError
  end.

Definition model_dump (p : t) : json :=
  JObj [("type", JStr (type p));
        ("inferenceType", JStr (inferenceType p));
        ("instruction", JStr (instruction p))].

End SchemaProperty.

Module Schema.

(** A value of the [properties] field ([Dict[str, Any]]): a
    [SchemaProperty] instance or a plain nested structure. *)
Inductive prop_value : Type :=
| Model (p : SchemaProperty.t)
| Raw (v : json).

Record t : Type := mk {
  schema : string;
  description : string;
  class_ : string;
  type : string;
  definitions : dict;
  properties : list (string * prop_value)
}.

Definition dump_value (v : prop_value) : json :=
  match v with
  | Model p => SchemaProperty.model_dump p
  | Raw j => j
  end.

(** [self.model_dump(by_alias=True)] *)
Definition model_dump (self : t) : dict :=
  [("$schema", JStr (schema self));
   ("description", JStr (description self));
   ("class", JStr (class_ self));
   ("type", JStr (type self));
   ("definitions", JObj (definitions self));
   ("properties", JObj (map (fun kv => (fst kv, dump_value (snd kv))) (properties self)))].

Definition opt_str (k default : string) (kwargs : dict) : result string :=
  match dict_get k kwargs with
  | None => Ok default
  | Some (JStr s) => Ok s
  | Some _ => Raise ValidationError
  end.

Definition opt_dict (k : string) (kwargs : dict) : result dict :=
  match dict_get k kwargs with
  | None => Ok []
  | Some (JObj d) => Ok d
  | Some _ => Raise ValidationError
  end.

(** The constructor applied to unpacked keyword arguments and an explicit
    [properties] argument: validation of the other fields. *)
Definition init (kwargs : dict) (props : list (string * prop_value)) : result t :=
  sc <- opt_str "$schema" "http://json-schema.org/draft-07/schema#" kwargs ;;
  de <- SchemaProperty.str_field "description" kwargs ;;
  cl <- SchemaProperty.str_field "class" kwargs ;;
  ty <- opt_str "type" "object" kwargs ;;
  df <- opt_dict "definitions" kwargs ;;
  Ok (mk sc de cl ty df props).

(** The constructor applied to the unpacked [nested_dict]. *)
Definition of_dict (d : dict) : result t :=
  match dict_get "properties" d with
  | Some (JObj props) =>
      init (filter SchemaUnflattener.not_properties d)
           (map (fun kv => (fst kv, Raw (snd kv))) props)
  | _ => Raise ValidationError
  end.

Definition is_nested (self : t) : result bool :=
  SchemaFlattener.is_nested_schema (model_dump self).

(** The loop of [flatten_for_optimization]: the fields converted so far and
    the names given to [logger.warning]. *)
Fixpoint convert_items (items : dict)
         (flattened_properties : list (string * prop_value)) (log : list string)
  : list (string * prop_value) * list string :=
  match items with
  | [] => (flattened_properties, log)
  | (field_name, prop_def) :: rest =>
      match SchemaProperty.init prop_def with
      | Ok p => convert_items rest (dict_set field_name (Model p) flattened_properties) log
      | Raise _ => convert_items rest flattened_properties (log ++ [field_name])
      end
  end.

(** [flatten_for_optimization]; the third component of the result lists the
    fields for which a warning was logged. *)
Definition flatten_for_optimization (depth : nat) (self : t)
  : result (t * list (string * string) * list string) :=
  let schema_dict := model_dump self in
  r <- SchemaFlattener.flatten_schema depth schema_dict ;;
  let '(flattened_dict, path_mapping) := r in
  items <- py_items (dict_get_default "properties" (JObj []) flattened_dict) ;;
  let '(flattened_properties, log) := convert_items items [] [] in
  flattened_schema <-
    init (filter SchemaUnflattener.not_properties flattened_dict) flattened_properties ;;
  Ok (flattened_schema, path_mapping, log).

(** [unflatten_from_optimization], with the unflattener it instantiates as
    an argument. *)
Definition unflatten_from_optimization_with
           (unflatten_schema : dict -> list (string * string) -> result dict)
           (self flat_schema : t) (path_mapping : list (string * string)) : result t :=
  match path_mapping with
  | [] => Ok flat_schema
  | _ :: _ =>
      let flat_dict := model_dump flat_schema in
      nested_dict <- unflatten_schema flat_dict path_mapping ;;
      of_dict nested_dict
  end.

Definition unflatten_from_optimization :=
  unflatten_from_optimization_with SchemaUnflattener.unflatten_schema.

Definition with_properties (self : t) (props : list (string * prop_value)) : t :=
  mk (schema self) (description self) (class_ self) (type self) (definitions self) props.

(** [update_instruction]: the assignment to [prop.instruction] or to
    [prop["instruction"]] is written back under the field's name. *)
Definition update_instruction (self : t) (field_name instruction : string) : t :=
  match dict_get field_name (properties self) with
  | Some (Model p) =>
      with_properties self
        (dict_set field_name
           (Model (SchemaProperty.mk (SchemaProperty.type p)
                                     (SchemaProperty.inferenceType p) instruction))
           (properties self))
  | Some (Raw (JObj d)) =>
      if dict_mem "instruction" d
      then with_properties self
             (dict_set field_name
                (Raw (JObj (dict_set "instruction" (JStr instruction) d)))
                (properties self))
      else self
  | _ => self
  end.

(** [all(key in prop_def for key in ["type", "inferenceType", "instruction"])] *)
Definition has_all_three (d : dict) : bool :=
  dict_mem "type" d && dict_mem "inferenceType" d && dict_mem "instruction" d.

(** The loop of [from_file] over [data["properties"].items()]. *)
Fixpoint load_properties (items : dict) (properties : list (string * prop_value))
  : result (list (string * prop_value)) :=
  match items with
  | [] => Ok properties
  | (field_name, prop_def) :: rest =>
      match prop_def with
      | JObj d =>
          if has_all_three d then
            p <- SchemaProperty.init prop_def ;;
            load_properties rest (dict_set field_name (Model p) properties)
          else load_properties rest (dict_set field_name (Raw prop_def) properties)
      | _ => load_properties rest (dict_set field_name (Raw prop_def) properties)
      end
  end.

(** [from_file] from the point where [json.load] has returned [data]. *)
Definition from_file (data : dict) : result t :=
  match dict_get "properties" data with
  | Some props =>
      items <- py_items props ;;
      properties <- load_properties items [] ;;
      init (filter SchemaUnflattener.not_properties data) properties
  | None => Raise ValidationError
  end.

(** [to_file] up to the point where [json.dump] is called: the dict that is
    written.  After [model_dump] no value has a [model_dump] attribute, so
    the loop copies the properties one by one. *)
Definition to_file (self : t) : dict :=
  let schema_dict := model_dump self in
  match dict_get "properties" schema_dict with
  | Some (JObj props) =>
      let properties :=
        fold_left (fun done kv => dict_set (fst kv) (snd kv) done) props [] in
      dict_set "properties" (JObj properties) schema_dict
  | _ => schema_dict
  end.

End Schema.

(** ** Nested shapes and flat paths

  The nested documents that the flattener decomposes, as a tree: a terminal
  node, an object node [{"type": "object", "properties": ...}] or an
  array-of-objects node
  [{"type": "array", "items": {"type": "object", "properties": ...}}].
  An intermediate node records whether its two keys are written in the
  order shown or swapped. *)

Module Nested.
Import SchemaFlattener SchemaUnflattener.

#[warnings="-register-all"] Inductive tree : Type :=
| Leaf (node : json)
| Object (swapped : bool) (props : list (string * tree))
| ArrayOf (swapped items_swapped : bool) (props : list (string * tree)).

Definition obj (props : dict) : json :=
  JObj [("type", JStr "object"); ("properties", JObj props)].

Definition arr (props : dict) : json :=
  JObj [("type", JStr "array"); ("items", obj props)].

Definition object_json (swapped : bool) (props : dict) : json :=
  if swapped then JObj [("properties", JObj props); ("type", JStr "object")]
  else obj props.

Definition array_json (swapped items_swapped : bool) (props : dict) : json :=
  if swapped
  then JObj [("items", object_json items_swapped props); ("type", JStr "array")]
  else JObj [("type", JStr "array"); ("items", object_json items_swapped props)].

(** The document that a tree stands for. *)
Fixpoint to_json (t : tree) : json :=
  match t with
  | Leaf node => node
  | Object s props => object_json s (map (fun '(k, t') => (k, to_json t')) props)
  | ArrayOf s si props => array_json s si (map (fun '(k, t') => (k, to_json t')) props)
  end.

Definition props_to_json (props : list (string * tree)) : dict :=
  map (fun '(k, t) => (k, to_json t)) props.

(** The same document with the keys of every intermediate node in the
    order in which the unflattener writes them. *)
Fixpoint rebuilt (t : tree) : json :=
  match t with
  | Leaf node => node
  | Object _ props => obj (map (fun '(k, t') => (k, rebuilt t')) props)
  | ArrayOf _ _ props => arr (map (fun '(k, t') => (k, rebuilt t')) props)
  end.

Definition props_rebuilt (props : list (string * tree)) : dict :=
  map (fun '(k, t) => (k, rebuilt t)) props.

(** No intermediate node has its keys swapped. *)
Fixpoint in_order (t : tree) : bool :=
  match t with
  | Leaf _ => true
  | Object s props => negb s && forallb (fun '(_, t') => in_order t') props
  | ArrayOf s si props =>
      negb s && negb si && forallb (fun '(_, t') => in_order t') props
  end.

Definition props_in_order (props : list (string * tree)) : bool :=
  forallb (fun '(_, t) => in_order t) props.

Definition node_props (t : tree) : option (list (string * tree)) :=
  match t with
  | Leaf _ => None
  | Object _ props | ArrayOf _ _ props => Some props
  end.

Fixpoint height (t : tree) : nat :=
  match t with
  | Leaf _ => 0
  | Object _ props | ArrayOf _ _ props =>
      S (fold_right (fun '(_, t') m => Nat.max (height t') m) 0 props)
  end.

Definition props_height (props : list (string * tree)) : nat :=
  fold_right (fun '(_, t) m => Nat.max (height t) m) 0 props.

(** A terminal node: a mapping in which the flattener finds nothing to
    descend into and no [$ref]. *)
Definition is_leaf (node : json) : bool :=
  is_dict node && negb (nested_property node).

(** A property name that survives the path grammar: not empty, without
    ['.'] and without ["[*]"]. *)
Definition good_name (name : string) : bool :=
  negb (String.eqb name "") && negb (PyStr.contains "." name)
  && negb (PyStr.contains "[*]" name).

Fixpoint distinct (l : list string) : bool :=
  match l with
  | [] => true
  | x :: r => negb (existsb (String.eqb x) r) && distinct r
  end.

(** Well-formed trees: terminal nodes are leaves, every object and item
    mapping is non-empty, names are good and pairwise distinct. *)
Fixpoint wf (t : tree) : bool :=
  match t with
  | Leaf node => is_leaf node
  | Object _ props | ArrayOf _ _ props =>
      negb (is_nil props) && distinct (keys props)
      && forallb (fun '(k, t') => good_name k && wf t') props
  end.

Definition wf_props (props : list (string * tree)) : bool :=
  distinct (keys props) && forallb (fun '(k, t) => good_name k && wf t) props.

(** The path segment under which a child is reached. *)
Definition part_of (name : string) (t : tree) : part :=
  match t with
  | ArrayOf _ _ _ => Array name
  | _ => Property name
  end.

Definition push (p : part) (e : list part * json) : list part * json :=
  (p :: fst e, snd e).

(** The terminal nodes below a tree with their paths, in traversal order. *)
Fixpoint leaves (t : tree) : list (list part * json) :=
  match t with
  | Leaf node => [([], node)]
  | Object _ props | ArrayOf _ _ props =>
      flat_map (fun '(k, t') => map (push (part_of k t')) (leaves t')) props
  end.

Definition props_leaves (props : list (string * tree)) : list (list part * json) :=
  flat_map (fun '(k, t) => map (push (part_of k t)) (leaves t)) props.

Definition part_name (p : part) : string :=
  match p with Property n | Array n => n end.

Definition segment (p : part) : string :=
  match p with
  | Property n => n
  | Array n => n ++ "[*]"
  end.

(** The flat path of a list of segments. *)
Fixpoint render (path : list part) : string :=
  match path with
  | [] => ""
  | [p] => segment p
  | p :: rest => segment p ++ "." ++ render rest
  end.

Definition part_eqb (p q : part) : bool :=
  match p, q with
  | Property a, Property b | Array a, Array b => String.eqb a b
  | _, _ => false
  end.

(** Two parsed paths can be laid out in one tree: they are equal, or they
    part ways at a position where their names differ. *)
Fixpoint compatible (p q : list part) : bool :=
  match p, q with
  | [], [] => true
  | a :: p', b :: q' =>
      if String.eqb (part_name a) (part_name b)
      then part_eqb a b && compatible p' q'
      else true
  | _, _ => false
  end.

(** The flattener's two dicts after recording [entries] in order. *)
Definition add_leaves (entries : dict) (st : acc) : acc :=
  fold_left (fun st e => add_leaf (fst e) (snd e) st) entries st.

(** The flat entries of a properties mapping walked under [prefix]. *)
Definition flat_entries (prefix : string) (props : list (string * tree)) : dict :=
  map (fun e => (join_path prefix (render (fst e)), snd e)) (props_leaves props).

(** The loop of [unflatten_schema] over paths that are already parsed. *)
Fixpoint unflatten_paths (entries : list (list part * json)) (level : json)
  : result json :=
  match entries with
  | [] => Ok level
  | (path, prop_def) :: rest =>
      level' <- walk path prop_def level ;;
      unflatten_paths rest level'
  end.

(** The intermediate node that [_unflatten_property] creates for a
    segment, around the properties mapping [x]. *)
Definition wrap (p : part) (x : json) : json :=
  match p with
  | Property _ => JObj [("type", JStr "object"); ("properties", x)]
  | Array _ =>
      JObj [("type", JStr "array");
            ("items", JObj [("type", JStr "object"); ("properties", x)])]
  end.

Definition good_path (path : list part) : bool :=
  negb (is_nil path) && forallb (fun p => good_name (part_name p)) path.

Fixpoint pairwise_compatible (paths : list (list part)) : bool :=
  match paths with
  | [] => true
  | p :: rest => forallb (compatible p) rest && pairwise_compatible rest
  end.

(** The continuations, below the segment [a], of the paths that go on
    after [a]. *)
Fixpoint tails (a : part) (paths : list (list part)) : list (list part) :=
  match paths with
  | [] => []
  | [] :: rest => tails a rest
  | (b :: r) :: rest =>
      if part_eqb a b && negb (is_nil r) then r :: tails a rest else tails a rest
  end.

(** A level of the structure under construction agrees with the paths laid
    out so far: its names come from them, a name written as a final array
    segment holds a mapping, and a name passed through holds the
    intermediate node of its segment over a level that agrees with the
    continuations. *)
#[warnings="-register-all"] Inductive shaped : json -> list (list part) -> Prop :=
| shaped_level (L : dict) (paths : list (list part)) :
    (forall k, In k (keys L) -> exists a r, In (a :: r) paths /\ part_name a = k) ->
    (forall n, In [Array n] paths -> exists d, dict_get n L = Some (JObj d)) ->
    (forall a r, In (a :: r) paths -> r <> [] ->
                 exists M, dict_get (part_name a) L = Some (wrap a M)
                           /\ shaped M (tails a paths)) ->
    shaped (JObj L) paths.

End Nested.

(** ** Nested-detection as the specification words it *)

Module Detection.

(** The top-level properties of a document: the entries of its
    [properties] mapping, none when it has no such mapping. *)
Definition top_level_properties (schema : dict) : dict :=
  match dict_get "properties" schema with
  | Some (JObj props) => props
  | _ => []
  end.

(** (a) a node carrying a [$ref] key *)
Definition has_ref (v : json) : Prop :=
  exists d, v = JObj d /\ dict_mem "$ref" d = true.

(** (b) [type == "object"] with a [properties] entry *)
Definition object_with_properties (v : json) : Prop :=
  exists d, v = JObj d /\ dict_get "type" d = Some (JStr "object")
            /\ dict_mem "properties" d = true.

(** (c) [type == "array"] whose [items] is itself (b) *)
Definition array_of_objects (v : json) : Prop :=
  exists d items, v = JObj d /\ dict_get "type" d = Some (JStr "array")
                  /\ dict_get "items" d = Some items
                  /\ object_with_properties items.

Definition eligible (v : json) : Prop :=
  has_ref v \/ object_with_properties v \/ array_of_objects v.

(** The same three cases when "with a properties sub-mapping" is read as
    "whose [properties] entry is a mapping". *)
Definition object_with_submapping (v : json) : Prop :=
  exists d sub, v = JObj d /\ dict_get "type" d = Some (JStr "object")
                /\ dict_get "properties" d = Some (JObj sub).

Definition array_of_submapping (v : json) : Prop :=
  exists d items, v = JObj d /\ dict_get "type" d = Some (JStr "array")
                  /\ dict_get "items" d = Some items
                  /\ object_with_submapping items.

Definition strictly_eligible (v : json) : Prop :=
  has_ref v \/ object_with_submapping v \/ array_of_submapping v.

(** Every [properties] entry of the node and of its [items] is a mapping. *)
Definition properties_are_mappings (v : json) : Prop :=
  forall d, v = JObj d ->
    (forall x, dict_get "properties" d = Some x -> is_dict x = true)
    /\ (forall it x, dict_get "items" d = Some (JObj it) ->
                     dict_get "properties" it = Some x -> is_dict x = true).

(** An object lacking [properties], or an array whose [items] (if any) is
    not an object with [properties]; neither carries a [$ref]. *)
Definition opaque (v : json) : Prop :=
  exists d, v = JObj d /\ dict_mem "$ref" d = false /\
    ((dict_get "type" d = Some (JStr "object") /\ dict_mem "properties" d = false) \/
     (dict_get "type" d = Some (JStr "array") /\
      forall items, dict_get "items" d = Some items -> ~ object_with_properties items)).





End Detection.

(** ** The round trip, and the documents used as examples *)

Module Laws.
Import SchemaFlattener SchemaUnflattener.

(** Values that Python's [==] identifies: the same value, or two dicts with
    the same keys, in whatever order, under which the values are in turn
    identified. *)
#[warnings="-register-all"] Inductive py_equal : json -> json -> Prop :=
| py_equal_same (v : json) : py_equal v v
| py_equal_dict (d1 d2 : dict) :
    (forall k, dict_get k d1 = None <-> dict_get k d2 = None) ->
    (forall k v1 v2, dict_get k d1 = Some v1 -> dict_get k d2 = Some v2 ->
                     py_equal v1 v2) ->
    py_equal (JObj d1) (JObj d2).

Definition dict_equal (d1 d2 : dict) : Prop := py_equal (JObj d1) (JObj d2).

(** Flattening [D] and unflattening the result gives [D] back. *)
Definition roundtrips (depth : nat) (D : dict) : Prop :=
  exists flat index R,
    flatten_schema depth D = Ok (flat, index)
    /\ unflatten_schema flat index = Ok R
    /\ dict_equal R D.

(** A flat leaf that the [SchemaProperty] constructor accepts. *)
Definition coercible (v : json) : bool :=
  match SchemaProperty.init v with Ok _ => true | Raise _ => false end.

(** The fields of a flat properties mapping that can be coerced, each as
    its [SchemaProperty], in order. *)
Definition well_formed_fields (items : dict) : list (string * Schema.prop_value) :=
  flat_map (fun '(name, v) =>
              match SchemaProperty.init v with
              | Ok p => [(name, Schema.Model p)]
              | Raise _ => []
              end) items.

(** The names of the fields that cannot, in order. *)
Definition malformed_fields (items : dict) : list string :=
  flat_map (fun '(name, v) =>
              match SchemaProperty.init v with
              | Ok _ => []
              | Raise _ => [name]
              end) items.

(** The [properties] of a schema as [model_dump] shows them. *)
Definition dumped_properties (s : Schema.t) : dict :=
  map (fun kv => (fst kv, Schema.dump_value (snd kv))) (Schema.properties s).

End Laws.

Module Examples.
Import Nested.

Definition field (instruction : string) : json :=
  JObj [("type", JStr "string"); ("inferenceType", JStr "explicit");
        ("instruction", JStr instruction)].

(** A property that refers to a definition with one field. *)
Definition ref_doc : dict :=
  [("class", JStr "invoice");
   ("definitions",
    JObj [("Address", JObj [("properties", JObj [("city", field "Extract city")])])]);
   ("properties", JObj [("billing", JObj [("$ref", JStr "#/definitions/Address")])])].

(** An object whose [properties] mapping is empty. *)
Definition empty_object_doc : dict :=
  [("class", JStr "invoice");
   ("properties", JObj [("customer", obj [])])].

(** A flat document in which one path is a proper prefix of another. *)
Definition prefix_doc : dict :=
  [("properties", JObj [("a", field "Extract a"); ("a.b", field "Extract b")])].

(** A flat document that uses one name as a property and as an array. *)
Definition mixed_doc : dict :=
  [("properties", JObj [("a.b", field "Extract b"); ("a[*].c", field "Extract c")])].

Definition order_props : list (string * tree) :=
  [("order",
    Object true
           [("customer",
             Object false
                    [("contacts",
                      ArrayOf false true [("value", Leaf (field "Extract value"))]);
                     ("name", Leaf (field "Extract name"))]);
            ("id", Leaf (field "Extract id"))]);
   ("total", Leaf (field "Extract total"))].

Definition order_doc : dict :=
  [("$schema", JStr "http://json-schema.org/draft-07/schema#");
   ("properties", JObj (props_to_json order_props));
   ("class", JStr "order")].

Definition array_doc : dict :=
  [("properties", JObj [("a", arr [("b", field "Extract b")])])].


(** A held document with one well-formed field, one field without
    [inferenceType] and one with an extra key. *)
Definition held : Schema.t :=
  Schema.mk "http://json-schema.org/draft-07/schema#" "An invoice" "invoice" "object" []
    [("customer",
      Schema.Raw (obj [("name", field "Extract name");
                       ("email", JObj [("type", JStr "string");
                                       ("instruction", JStr "Extract email")])]));
     ("total",
      Schema.Raw (JObj [("type", JStr "number"); ("inferenceType", JStr "explicit");
                        ("instruction", JStr "Extract total");
                        ("description", JStr "grand total")]))].

(** A flat document whose paths are compatible; two of them are not
    produced by the flattener (a final array segment, an empty segment). *)
Definition compatible_doc : dict :=
  [("class", JStr "order");
   ("properties",
    JObj [("order.lines[*].price", field "Extract price");
          ("order.lines[*].name", JStr "not a mapping");
          ("order.tags[*]", field "Extract tags");
          ("order..note", JNull);
          ("total", field "Extract total")])].

(** A schema as [from_file] builds it: a [SchemaProperty] and a nested
    structure. *)
Definition loaded : Schema.t :=
  Schema.mk "http://json-schema.org/draft-07/schema#" "An invoice" "invoice" "object" []
    [("total", Schema.Model (SchemaProperty.mk "number" "explicit" "Extract total"));
     ("customer", Schema.Raw (obj [("name", field "Extract name")]));
     ("pages", Schema.Raw (JNum 3))].

(** A held document one of whose properties has a [$ref] that is not a
    string. *)
Definition bad_ref : Schema.t :=
  Schema.mk "http://json-schema.org/draft-07/schema#" "An invoice" "invoice" "object" []
    [("total", Schema.Raw (field "Extract total"));
     ("billing", Schema.Raw (JObj [("$ref", JNum 5)]))].

(** A nested schema whose terminal nodes have exactly the three fields. *)
Definition nested_props : list (string * tree) :=
  [("customer",
    Object false
           [("contacts", ArrayOf true false [("value", Leaf (field "Extract value"))]);
            ("name", Leaf (field "Extract name"))]);
   ("total", Leaf (field "Extract total"))].

Definition nested_schema : Schema.t :=
  Schema.mk "http://json-schema.org/draft-07/schema#" "An order" "order" "object" []
    [("customer",
      Schema.Raw
        (obj [("contacts", JObj [("items", obj [("value", field "Extract value")]);
                                 ("type", JStr "array")]);
              ("name", field "Extract name")]));
     ("total", Schema.Model (SchemaProperty.mk "string" "explicit" "Extract total"))].

Definition flat_doc : dict :=
  [("description", JStr "invoice");
   ("properties",
    JObj [("total", field "Extract total");
          ("tags", JObj [("type", JStr "array");
                         ("items", JObj [("type", JStr "string")])]);
          ("meta", JObj [("type", JStr "object")])])].

End Examples.

(** ** Rewriting the terminal nodes of a tree *)

Module Rewrite.
Import SchemaUnflattener Nested.

(** The tree with every terminal node replaced by [g] of its flat path and
    itself; [prefix] is the path of the tree. *)
Fixpoint relabel_at (g : string -> json -> json) (prefix : list part) (t : tree) : tree :=
  match t with
  | Leaf node => Leaf (g (render prefix) node)
  | Object s props =>
      Object s (map (fun '(k, t') => (k, relabel_at g (prefix ++ [part_of k t']) t')) props)
  | ArrayOf s si props =>
      ArrayOf s si
        (map (fun '(k, t') => (k, relabel_at g (prefix ++ [part_of k t']) t')) props)
  end.

Definition relabel_props (g : string -> json -> json) (prefix : list part)
           (props : list (string * tree)) : list (string * tree) :=
  map (fun '(k, t) => (k, relabel_at g (prefix ++ [part_of k t]) t)) props.

(** The same rewriting applied to the entries of a flat properties mapping. *)
Definition relabel_flat (g : string -> json -> json) (items : dict) : dict :=
  map (fun kv => (fst kv, g (fst kv) (snd kv))) items.

(** The flat leaf [x] with its instruction replaced, as the optimizer does
    for the field named [field_name]. *)
Definition set_instruction (field_name instruction : string) (k : string) (x : json)
  : json :=
  if String.eqb k field_name then
    match x with
    | JObj d => JObj (dict_set "instruction" (JStr instruction) d)
    | _ => x
    end
  else x.

(** A property whose value is a mapping. *)
Definition is_mapping_entry (kv : string * json) : bool := is_dict (snd kv).

(** A node that the loop of [_flatten_properties] records as it is, wherever
    it stands. *)
Definition terminal (definitions prop_def : json) : Prop :=
  forall recurse prefix prop_name st,
    SchemaFlattener.flatten_property recurse definitions prefix prop_name prop_def st
    = Ok (SchemaFlattener.add_leaf (SchemaFlattener.join_path prefix prop_name) prop_def st).

End Rewrite.

(** * Properties *)

(** ** Dicts *)

Section DictFacts.
Context {V : Type}.
Implicit Types (d : list (string * V)) (k : string) (v : V).

Lemma dict_get_set_same k v d : dict_get k (dict_set k v d) = Some v.
Proof.
  induction d as [|[k' v'] d IH]; simpl.
  - now rewrite String.eqb_refl.
  - destruct (String.eqb k k') eqn:E; simpl; rewrite E; auto.
Qed.

Lemma dict_get_set_other k k' v d :
  k <> k' -> dict_get k (dict_set k' v d) = dict_get k d.
Proof.
  intros Hne. induction d as [|[k0 v0] d IH]; simpl.
  - apply String.eqb_neq in Hne. now rewrite Hne.
  - destruct (String.eqb k' k0) eqn:E; simpl.
    + apply String.eqb_eq in E; subst.
      apply String.eqb_neq in Hne. now rewrite Hne.
    + now rewrite IH.
Qed.

Lemma dict_set_fresh k v d : dict_get k d = None -> dict_set k v d = d ++ [(k, v)].
Proof.
  induction d as [|[k' v'] d IH]; simpl; intros H; auto.
  destruct (String.eqb k k'); [discriminate|]. now rewrite IH.
Qed.

Lemma dict_set_set k v v' d : dict_set k v (dict_set k v' d) = dict_set k v d.
Proof.
  induction d as [|[k0 v0] d IH]; simpl.
  - now rewrite String.eqb_refl.
  - destruct (String.eqb k k0) eqn:E; simpl; rewrite E; congruence.
Qed.

Lemma dict_set_same k v d : dict_get k d = Some v -> dict_set k v d = d.
Proof.
  induction d as [|[k0 v0] d IH]; simpl; [discriminate|].
  destruct (String.eqb k k0); intros H; [congruence|]. now rewrite IH.
Qed.

Lemma dict_set_app_last k v v0 d :
  dict_get k d = None -> dict_set k v (d ++ [(k, v0)]) = d ++ [(k, v)].
Proof.
  induction d as [|[k1 v1] d IH]; simpl.
  - now rewrite String.eqb_refl.
  - destruct (String.eqb k k1); intros H; [discriminate|]. now rewrite IH.
Qed.

Lemma dict_mem_get k d : dict_mem k d = true <-> exists v, dict_get k d = Some v.
Proof.
  unfold dict_mem. destruct (dict_get k d); split; eauto; try discriminate.
  intros [v H]; discriminate.
Qed.

Lemma dict_mem_false k d : dict_mem k d = false <-> dict_get k d = None.
Proof. unfold dict_mem. destruct (dict_get k d); split; congruence. Qed.

Lemma dict_get_app k d d' :
  dict_get k (d ++ d') = match dict_get k d with Some v => Some v | None => dict_get k d' end.
Proof.
  induction d as [|[k0 v0] d IH]; simpl; auto. destruct (String.eqb k k0); auto.
Qed.

Lemma dict_get_none_keys k d : dict_get k d = None <-> ~ In k (keys d).
Proof.
  induction d as [|[k0 v0] d IH]; simpl.
  - tauto.
  - destruct (String.eqb k k0) eqn:E.
    + apply String.eqb_eq in E. subst. split; [discriminate|tauto].
    + apply String.eqb_neq in E. rewrite IH. intuition congruence.
Qed.
End DictFacts.

Lemma filter_not_properties_set v (d : dict) :
filter SchemaUnflattener.not_properties (dict_set "properties" v d)
= filter SchemaUnflattener.not_properties d.
Proof.
induction d as [|[k0 v0] d IH]; [reflexivity|].
cbn [dict_set]. destruct (String.eqb "properties" k0) eqn:E.
- apply String.eqb_eq in E; subst. reflexivity.
- cbn [filter]. now rewrite IH.
Qed.

Lemma dict_get_filter_not_properties k (d : dict) :
k <> "properties" ->
dict_get k (filter SchemaUnflattener.not_properties d) = dict_get k d.
Proof.
intros Hne. induction d as [|[k0 v0] d IH]; [reflexivity|].
cbn [filter dict_get]. unfold SchemaUnflattener.not_properties at 1. cbn [fst].
destruct (String.eqb k0 "properties") eqn:E; cbn [negb].
- apply String.eqb_eq in E; subst.
  apply String.eqb_neq in Hne. now rewrite Hne.
- cbn [dict_get]. now rewrite IH.
Qed.

(** ** The fast paths *)

Section FastPaths.
Import SchemaFlattener SchemaUnflattener.

(** C5. When nested-detection answers false, [flatten_schema] returns the
    input document itself, key for key in the same order, and the empty
    path index. *)
Theorem flatten_schema_flat_identity (depth : nat) (D : dict) :
  is_nested_schema D = Ok false -> flatten_schema depth D = Ok (D, []).
Proof. unfold flatten_schema. intros ->. reflexivity. Qed.

Lemma flatten_schema_flat_identity_witness :
  flatten_schema 1 Examples.flat_doc = Ok (Examples.flat_doc, []).
Proof. apply (flatten_schema_flat_identity 1 Examples.flat_doc). reflexivity. Defined.

(** C6. With the empty path index [unflatten_schema] returns the document
    it was given, and [unflatten_from_optimization] returns the flat schema
    it was given whatever the unflattener would do: it is not called. *)
Theorem unflatten_empty_index_identity :
  (forall D : dict, unflatten_schema D [] = Ok D) /\
  (forall unflattener (self flat_schema : Schema.t),
      Schema.unflatten_from_optimization_with unflattener self flat_schema []
      = Ok flat_schema) /\
  (forall self flat_schema : Schema.t,
      Schema.unflatten_from_optimization self flat_schema [] = Ok flat_schema).
Proof. repeat split. Qed.

(** C10. For a fixed flat document, any two non-empty path indices give the
    same outcome of [unflatten_schema], be it a document or an exception:
    the index is only tested for emptiness. *)
Theorem unflatten_schema_index_irrelevant
        (F : dict) (m1 m2 : list (string * string)) :
  m1 <> [] -> m2 <> [] -> unflatten_schema F m1 = unflatten_schema F m2.
Proof.
  intros H1 H2. destruct m1 as [|e1 m1]; [congruence|].
  destruct m2 as [|e2 m2]; [congruence|]. reflexivity.
Qed.

Lemma unflatten_schema_index_irrelevant_witness :
  unflatten_schema Examples.compatible_doc [("total", "total")]
  = unflatten_schema Examples.compatible_doc [("x", "y"); ("z", "")].
Proof.
  apply (unflatten_schema_index_irrelevant Examples.compatible_doc); discriminate.
Defined.
End FastPaths.

(** ** Nested-detection *)

Section DetectionFacts.
Import SchemaFlattener Detection.

Lemma type_is d s :
  s <> "" ->
  json_is_str s (dict_get_default "type" (JStr "") d) = true
  <-> dict_get "type" d = Some (JStr s).
Proof.
  intros Hs. unfold dict_get_default.
  destruct (dict_get "type" d) as [[| | |s'| |]|]; simpl;
    try (split; [discriminate | congruence]).
  - rewrite String.eqb_eq. split; congruence.
  - destruct s; [congruence|]. split; discriminate.
Qed.

Lemma object_with_properties_dec d :
  json_is_str "object" (dict_get_default "type" (JStr "") d) && dict_mem "properties" d = true
  <-> object_with_properties (JObj d).
Proof.
  rewrite andb_true_iff, type_is by discriminate. split.
  - intros [H1 H2]. exists d. auto.
  - intros (d' & E & H1 & H2). injection E as <-. auto.
Qed.

Lemma nested_property_eligible v : nested_property v = true <-> eligible v.
Proof.
  unfold eligible. destruct v as [| | | | |d];
    try (split; [discriminate|];
         intros [(d & E & _)|[(d & E & _)|(d & it & E & _)]]; discriminate).
  unfold nested_property.
  destruct (dict_mem "$ref" d) eqn:R.
  { split; auto. intros _. left. exists d. auto. }
  destruct (json_is_str "object" (dict_get_default "type" (JStr "") d)
            && dict_mem "properties" d) eqn:O.
  { split; auto. intros _. right; left. now apply object_with_properties_dec. }
  assert (Hno : ~ has_ref (JObj d)).
  { intros (d' & E & H). injection E as <-. congruence. }
  assert (Hnob : ~ object_with_properties (JObj d)).
  { intros H. apply object_with_properties_dec in H. congruence. }
  destruct (json_is_str "array" (dict_get_default "type" (JStr "") d)
            && dict_mem "items" d) eqn:A.
  - apply andb_true_iff in A. destruct A as [A1 A2].
    apply type_is in A1; [|discriminate].
    destruct (dict_get "items" d) as [items|] eqn:I.
    + split.
      * intros H. right; right. exists d, items. repeat split; auto.
        destruct items as [| | | | |it]; try discriminate.
        now apply object_with_properties_dec.
      * intros [H|[H|(d' & items' & E & _ & I' & H)]]; try tauto.
        injection E as <-. rewrite I in I'. injection I' as <-.
        destruct H as (it & -> & H). apply object_with_properties_dec.
        exists it. auto.
    + apply dict_mem_get in A2. destruct A2 as [x A2]. congruence.
  - split; [discriminate|].
    intros [H|[H|(d' & items & E & T & I & H)]]; try tauto.
    injection E as <-. apply andb_false_iff in A. destruct A as [A|A].
    + apply (type_is d "array") in T; [congruence|discriminate].
    + apply dict_mem_false in A. congruence.
Qed.

Lemma has_nested_items_exists items :
  has_nested_items items = true
  <-> exists name prop_def, In (name, prop_def) items /\ nested_property prop_def = true.
Proof.
  induction items as [|[k v] items IH]; simpl.
  - split; [discriminate|]. intros (? & ? & [] & _).
  - destruct (nested_property v) eqn:N.
    + split; auto. intros _. exists k, v. auto.
    + rewrite IH. split.
      * intros (n & p & H & Hp). exists n, p. auto.
      * intros (n & p & [H|H] & Hp); [|eauto]. injection H as <- <-. congruence.
Qed.

Lemma opaque_not_eligible v : opaque v -> ~ eligible v.
Proof.
  intros (d & -> & R & H) [(d' & E & R')|[(d' & E & T & P)|(d' & it & E & T & I & O)]];
    injection E as <-; try congruence.
  - destruct H as [[_ H]|[H _]]; congruence.
  - destruct H as [[H _]|[_ H]]; [congruence|]. now apply (H it).
Qed.

Lemma eligible_strict v :
  properties_are_mappings v -> (eligible v <-> strictly_eligible v).
Proof.
  intros Hmap. unfold eligible, strictly_eligible. split.
  - intros [H|[(d & -> & T & P)|(d & items & -> & T & I & (it & -> & Ti & Pi))]]; auto.
    + right; left. apply dict_mem_get in P. destruct P as [x P].
      destruct (Hmap d eq_refl) as [H1 _]. specialize (H1 x P).
      destruct x; try discriminate. exists d, d0. auto.
    + right; right. apply dict_mem_get in Pi. destruct Pi as [x Pi].
      destruct (Hmap d eq_refl) as [_ H2]. specialize (H2 it x I Pi).
      destruct x; try discriminate. exists d, (JObj it). repeat split; auto.
      exists it, d0. auto.
  - intros [H|[(d & sub & -> & T & P)|(d & items & -> & T & I & (it & sub & -> & Ti & Pi))]];
      auto.
    + right; left. exists d. repeat split; auto. apply dict_mem_get. eauto.
    + right; right. exists d, (JObj it). repeat split; auto.
      exists it. repeat split; auto. apply dict_mem_get. eauto.
Qed.

(** C4. For every document, [is_nested_schema] returns true exactly when
    some top-level property carries a [$ref], or is an object with a
    [properties] entry, or is an array whose [items] is an object with a
    [properties] entry.  On a document without a [properties] key it
    returns false; on one whose [properties] is a mapping it answers, and
    answers false when the properties are all objects without
    [properties] or arrays of anything else; on one whose [properties] is
    not a mapping it raises [AttributeError].  The code tests the presence
    of the [properties] key; where every such entry is a mapping, "entry"
    can be read as "sub-mapping". *)
Theorem is_nested_schema_iff_eligible (schema : dict) :
  (is_nested_schema schema = Ok true
   <-> exists name prop_def,
       In (name, prop_def) (top_level_properties schema) /\ eligible prop_def)
  /\ (dict_get "properties" schema = None -> is_nested_schema schema = Ok false)
  /\ (forall v, dict_get "properties" schema = Some v -> is_dict v = false ->
                is_nested_schema schema = Raise AttributeError)
  /\ (forall props,
        dict_get "properties" schema = Some (JObj props) ->
        (exists b, is_nested_schema schema = Ok b) /\
        (is_nested_schema schema = Ok true
         <-> exists name prop_def, In (name, prop_def) props /\ eligible prop_def) /\
        ((forall name prop_def, In (name, prop_def) props -> opaque prop_def) ->
         is_nested_schema schema = Ok false) /\
        ((forall name prop_def, In (name, prop_def) props ->
                                properties_are_mappings prop_def) ->
         (is_nested_schema schema = Ok true
          <-> exists name prop_def,
              In (name, prop_def) props /\ strictly_eligible prop_def))).
Proof.
  assert (Hmap : forall props,
             dict_get "properties" schema = Some (JObj props) ->
             (exists b, is_nested_schema schema = Ok b) /\
             (is_nested_schema schema = Ok true
              <-> exists name prop_def, In (name, prop_def) props /\ eligible prop_def) /\
             ((forall name prop_def, In (name, prop_def) props -> opaque prop_def) ->
              is_nested_schema schema = Ok false) /\
             ((forall name prop_def, In (name, prop_def) props ->
                                     properties_are_mappings prop_def) ->
              (is_nested_schema schema = Ok true
               <-> exists name prop_def,
                   In (name, prop_def) props /\ strictly_eligible prop_def)));
    [|split; [|split; [|split; [|exact Hmap]]]].
  2:{ unfold top_level_properties.
      destruct (dict_get "properties" schema) as [[| | | | |props]|] eqn:Hp;
        try (unfold is_nested_schema; rewrite Hp; cbn [_has_nested_properties py_items bind];
             split; [discriminate|intros (? & ? & [] & _)]).
      exact (proj1 (proj2 (Hmap props eq_refl))). }
  2:{ intros Hp. unfold is_nested_schema. now rewrite Hp. }
  2:{ intros v Hp Hv. unfold is_nested_schema. rewrite Hp.
      destruct v; try reflexivity. discriminate. }
  intros props Hp. unfold is_nested_schema. rewrite Hp.
  unfold _has_nested_properties. cbn [py_items bind].
  assert (Hiff : has_nested_items props = true
                 <-> exists name prop_def, In (name, prop_def) props /\ eligible prop_def).
  { rewrite has_nested_items_exists. split; intros (n & p & H & E); exists n, p;
      split; auto; now apply nested_property_eligible. }
  assert (Hok : Ok (has_nested_items props) = Ok true
                <-> exists name prop_def, In (name, prop_def) props /\ eligible prop_def).
  { rewrite <- Hiff. split; congruence. }
  split; [eauto|]. split; [exact Hok|]. split.
  - intros Hall. destruct (has_nested_items props) eqn:E; auto.
    destruct (proj1 Hiff eq_refl) as (n & p & Hin & He).
    exfalso. exact (opaque_not_eligible p (Hall n p Hin) He).
  - intros Hmap. rewrite Hok.
    split; intros (n & p & Hin & He); exists n, p; split; auto;
      now apply (eligible_strict p (Hmap n p Hin)).
Qed.
End DetectionFacts.

(** ** Strings: splitting and the array marker *)

Section StringFacts.
Import PyStr.

Lemma append_assoc (a b c : string) : ((a ++ b) ++ c = a ++ (b ++ c))%string.
Proof. induction a; simpl; congruence. Qed.

Lemma prefix_empty s : String.prefix "" s = true.
Proof. now destruct s. Qed.

Lemma prefix_cons a p b s :
  String.prefix (String a p) (String b s) = Ascii.eqb a b && String.prefix p s.
Proof.
  cbn [String.prefix]. destruct (ascii_dec a b) as [->|Hne].
  - now rewrite Ascii.eqb_refl.
  - apply Ascii.eqb_neq in Hne. now rewrite Hne.
Qed.

Lemma dot_free_cons c s :
  contains "." (String c s) = false <-> c <> "."%char /\ contains "." s = false.
Proof.
  cbn [contains]. unfold startswith. cbn [String.prefix].
  destruct (ascii_dec "." c) as [<-|Hne].
  - rewrite prefix_empty. simpl. split; [discriminate|]. intros [H _]. congruence.
  - simpl. split; [split; auto|tauto].
Qed.

Lemma dot_free_app a b :
  contains "." a = false -> contains "." b = false -> contains "." (a ++ b) = false.
Proof.
  induction a as [|c a IH]; simpl append; auto.
  intros Ha Hb. apply dot_free_cons in Ha. destruct Ha as [Hc Ha].
  apply dot_free_cons. auto.
Qed.

Lemma split_dot_nonempty s : split_dot s <> [].
Proof.
  destruct s as [|c s]; simpl; [discriminate|].
  destruct (Ascii.eqb c "."); [discriminate|]. destruct (split_dot s); discriminate.
Qed.

Lemma split_dot_free s : contains "." s = false -> split_dot s = [s].
Proof.
  induction s as [|c s IH]; auto. intros H.
  apply dot_free_cons in H. destruct H as [Hc Hs].
  cbn [split_dot]. apply Ascii.eqb_neq in Hc. rewrite Hc, (IH Hs). reflexivity.
Qed.

Lemma split_dot_app s r :
  contains "." s = false -> split_dot (s ++ "." ++ r) = s :: split_dot r.
Proof.
  induction s as [|c s IH]; [reflexivity|]. intros H.
  apply dot_free_cons in H. destruct H as [Hc Hs].
  simpl append. cbn [split_dot]. apply Ascii.eqb_neq in Hc.
  rewrite Hc. simpl append in IH. rewrite (IH Hs). reflexivity.
Qed.

Lemma contains_marker_app s : contains "[*]" (s ++ "[*]") = true.
Proof.
  induction s as [|c s IH]; simpl append; [reflexivity|].
  cbn [contains]. rewrite IH. apply orb_true_r.
Qed.

Lemma marker_free_cons c s :
  contains "[*]" (String c s) = false ->
  startswith "[*]" (String c s) = false /\ contains "[*]" s = false.
Proof. cbn [contains]. apply orb_false_iff. Qed.

(** The marker cannot begin inside a name that does not start with it and
    end in the marker appended to that name. *)
Lemma startswith_marker_boundary s :
  s <> "" -> startswith "[*]" s = false -> startswith "[*]" (s ++ "[*]") = false.
Proof.
  unfold startswith. intros Hs H.
  destruct s as [|a s]; [congruence|]. cbn [append].
  rewrite prefix_cons in *.
  destruct (Ascii.eqb "[" a); [|reflexivity]. cbn [andb] in *.
  destruct s as [|b s]; [reflexivity|]. cbn [append]. rewrite prefix_cons in *.
  destruct (Ascii.eqb "*" b); [|reflexivity]. cbn [andb] in *.
  destruct s as [|c s]; [reflexivity|]. cbn [append]. rewrite prefix_cons in *.
  destruct (Ascii.eqb "]" c); [|reflexivity]. cbn [andb] in *.
  rewrite prefix_empty in H. discriminate.
Qed.

Lemma replace_marker_app s :
  contains "[*]" s = false -> replace "[*]" "" (s ++ "[*]") = s.
Proof.
  unfold replace. induction s as [|c s IH]; [reflexivity|]. intros H.
  apply marker_free_cons in H. destruct H as [H1 H2].
  assert (H3 := startswith_marker_boundary (String c s) ltac:(discriminate) H1).
  simpl append in *. cbn [replace_from]. rewrite H3. f_equal. auto.
Qed.

End StringFacts.

(** ** Flat paths: rendering and parsing *)

Section PathFacts.
Import PyStr SchemaFlattener SchemaUnflattener Nested.

Lemma good_name_spec n :
  good_name n = true ->
  n <> "" /\ contains "." n = false /\ contains "[*]" n = false.
Proof.
  unfold good_name. rewrite !andb_true_iff, !negb_true_iff.
  intros [[H1 H2] H3]. apply String.eqb_neq in H1. auto.
Qed.

Lemma parse_segment_segment a :
  good_name (part_name a) = true -> parse_segment (segment a) = a.
Proof.
  intros H. apply good_name_spec in H. destruct H as (_ & _ & H).
  destruct a as [n|n]; unfold parse_segment; cbn [segment part_name] in *.
  - now rewrite H.
  - now rewrite contains_marker_app, replace_marker_app.
Qed.

Lemma segment_dot_free a :
  good_name (part_name a) = true -> contains "." (segment a) = false.
Proof.
  intros H. apply good_name_spec in H. destruct H as (_ & H & _).
  destruct a as [n|n]; cbn [segment part_name] in *; auto.
  now apply dot_free_app.
Qed.

Lemma render_cons a p :
  p <> [] -> render (a :: p) = (segment a ++ "." ++ render p)%string.
Proof. destruct p; [congruence|reflexivity]. Qed.

Lemma parse_render p :
  good_path p = true -> _parse_flat_path (render p) = p.
Proof.
  unfold good_path, _parse_flat_path. rewrite andb_true_iff. intros [Hn Hg].
  induction p as [|a p IH]; [discriminate|].
  cbn [forallb] in Hg. apply andb_true_iff in Hg. destruct Hg as [Ha Hp].
  destruct p as [|b p].
  - cbn [render]. rewrite split_dot_free by now apply segment_dot_free.
    cbn [map]. now rewrite parse_segment_segment.
  - rewrite render_cons by discriminate.
    rewrite split_dot_app by now apply segment_dot_free.
    cbn [map]. rewrite parse_segment_segment by assumption.
    f_equal. now apply IH.
Qed.

Lemma render_injective p q :
  good_path p = true -> good_path q = true -> render p = render q -> p = q.
Proof.
  intros Hp Hq H. rewrite <- (parse_render p Hp), <- (parse_render q Hq).
  now rewrite H.
Qed.

Lemma join_path_empty s : join_path "" s = s.
Proof. reflexivity. Qed.

Lemma join_path_step prefix s r :
  s <> "" ->
  join_path (join_path prefix s) r = join_path prefix (s ++ "." ++ r).
Proof.
  intros Hs. destruct prefix as [|c prefix].
  - cbn [join_path]. destruct s; [congruence|reflexivity].
  - cbn [join_path append]. now rewrite append_assoc.
Qed.

Lemma join_path_step_array prefix s r :
  join_path (join_path prefix s ++ "[*]") r = join_path prefix ((s ++ "[*]") ++ "." ++ r).
Proof.
  destruct prefix as [|c prefix].
  - cbn [join_path]. destruct s; reflexivity.
  - cbn [join_path append]. now rewrite !append_assoc.
Qed.

Lemma props_leaves_cons k t ps :
  props_leaves ((k, t) :: ps) = map (push (part_of k t)) (leaves t) ++ props_leaves ps.
Proof. reflexivity. Qed.

Lemma props_leaves_paths_nonempty ps e : In e (props_leaves ps) -> fst e <> [].
Proof.
  induction ps as [|[k t] ps IH]; [intros []|].
  rewrite props_leaves_cons, in_app_iff, in_map_iff.
  intros [(e' & <- & _)|H]; [discriminate|auto].
Qed.
End PathFacts.

(** ** The flattener on trees *)

Section FlattenFacts.
Import PyStr SchemaFlattener SchemaUnflattener Nested.

Variable recurse : json -> string -> acc -> result acc.
Variable definitions : json.

Lemma flatten_property_leaf prefix name node st :
  is_leaf node = true ->
  flatten_property recurse definitions prefix name node st
  = Ok (add_leaf (join_path prefix name) node st).
Proof.
  unfold is_leaf. destruct node as [| | | | |d]; try discriminate.
  cbn [is_dict andb]. rewrite negb_true_iff. unfold nested_property, flatten_property.
  destruct (dict_mem "$ref" d) eqn:R; [discriminate|].
  apply dict_mem_false in R. rewrite R.
  destruct (json_is_str "object" _ && dict_mem "properties" d); [discriminate|].
  destruct (json_is_str "array" _ && dict_mem "items" d) eqn:A; [|reflexivity].
  apply andb_true_iff in A. destruct A as [_ A]. apply dict_mem_get in A.
  destruct A as [x A]. unfold dict_getitem. rewrite A. cbn [bind].
  destruct x as [| | | | |it]; try reflexivity.
  unfold dict_get_default.
  destruct (dict_get "type" it) as [[| | |ty| |]|]; cbn [json_is_str andb];
    try reflexivity.
  intros ->. reflexivity.
Qed.

Lemma flatten_property_object s prefix name props st :
  flatten_property recurse definitions prefix name (object_json s props) st
  = recurse (JObj props) (join_path prefix name) st.
Proof. now destruct s. Qed.

Lemma flatten_property_array s si prefix name props st :
  flatten_property recurse definitions prefix name (array_json s si props) st
  = recurse (JObj props) (join_path prefix name ++ "[*]")%string st.
Proof. now destruct s, si. Qed.
End FlattenFacts.

Section FlattenTree.
Import PyStr SchemaFlattener SchemaUnflattener Nested.

Lemma add_leaves_app e1 e2 st :
  add_leaves (e1 ++ e2) st = add_leaves e2 (add_leaves e1 st).
Proof. apply fold_left_app. Qed.

Lemma wf_node_props t props :
  node_props t = Some props ->
  wf t = true -> props <> [] /\ wf_props props = true.
Proof.
  destruct t as [node|s ps|s si ps]; cbn [node_props wf]; intros [= <-];
    rewrite !andb_true_iff; intros [[Hn Hd] Hf]; (split; [now destruct ps|]);
    unfold wf_props; now rewrite Hd, Hf.
Qed.

Lemma wf_props_cons k t ps :
  wf_props ((k, t) :: ps) = true ->
  good_name k = true /\ wf t = true /\ dict_get k ps = None /\ wf_props ps = true.
Proof.
  unfold wf_props. cbn [keys map fst distinct forallb].
  rewrite !andb_true_iff, negb_true_iff. intros [[Hk Hd] [[Hg Hw] Hf]].
  repeat split; auto. apply dict_get_none_keys. intros Hin.
  apply not_true_iff_false in Hk. apply Hk.
  apply existsb_exists. exists k. split; auto. apply String.eqb_refl.
Qed.

Lemma flat_entries_cons prefix k t ps :
  flat_entries prefix ((k, t) :: ps)
  = map (fun e => (join_path prefix (render (fst e)), snd e))
        (map (push (part_of k t)) (leaves t))
    ++ flat_entries prefix ps.
Proof. unfold flat_entries. now rewrite props_leaves_cons, map_app. Qed.

Lemma flat_entries_object prefix k sub :
  good_name k = true ->
  map (fun e => (join_path prefix (render (fst e)), snd e))
      (map (push (Property k)) (props_leaves sub))
  = flat_entries (join_path prefix k) sub.
Proof.
  intros Hk. apply good_name_spec in Hk. destruct Hk as [Hk _].
  unfold flat_entries. rewrite map_map. apply map_ext_in. intros e He.
  cbn [push fst snd]. rewrite render_cons by now apply (props_leaves_paths_nonempty sub).
  cbn [segment]. now rewrite join_path_step.
Qed.

Lemma flat_entries_array prefix k sub :
  map (fun e => (join_path prefix (render (fst e)), snd e))
      (map (push (Array k)) (props_leaves sub))
  = flat_entries (join_path prefix k ++ "[*]") sub.
Proof.
  unfold flat_entries. rewrite map_map. apply map_ext_in. intros e He.
  cbn [push fst snd]. rewrite render_cons by now apply (props_leaves_paths_nonempty sub).
  cbn [segment]. now rewrite join_path_step_array.
Qed.

(** The flattener records exactly the terminal nodes of the tree, in
    traversal order, under their rendered paths. *)
Lemma flatten_properties_tree depth definitions :
  forall props prefix st,
    props_height props < depth -> wf_props props = true ->
    _flatten_properties depth definitions (JObj (props_to_json props)) prefix st
    = Ok (add_leaves (flat_entries prefix props) st).
Proof.
  induction depth as [|d IHd]; intros props prefix st Hh Hwf; [lia|].
  cbn [_flatten_properties py_items bind].
  assert (Hle : props_height props <= d) by lia. clear Hh.
  revert st Hle Hwf. induction props as [|[k t] props IH]; intros st Hle Hwf.
  - reflexivity.
  - apply wf_props_cons in Hwf. destruct Hwf as (Hk & Ht & _ & Hps).
    change (props_height ((k, t) :: props))
      with (Nat.max (height t) (props_height props)) in Hle.
    change (props_to_json ((k, t) :: props))
      with ((k, to_json t) :: props_to_json props).
    cbn [flatten_loop]. rewrite flat_entries_cons, add_leaves_app.
    destruct t as [node|s sub|s si sub].
    + cbn [to_json]. rewrite flatten_property_leaf by exact Ht.
      cbn [bind]. rewrite IH by (auto; lia). reflexivity.
    + destruct (wf_node_props (Object s sub) sub eq_refl Ht) as [_ Hsub].
      change (to_json (Object s sub)) with (object_json s (props_to_json sub)).
      rewrite flatten_property_object.
      change (height (Object s sub)) with (S (props_height sub)) in Hle.
      rewrite IHd by (auto; lia). cbn [bind].
      rewrite IH by (auto; lia). cbn [part_of leaves].
      change (flat_map _ sub) with (props_leaves sub).
      now rewrite flat_entries_object.
    + destruct (wf_node_props (ArrayOf s si sub) sub eq_refl Ht) as [_ Hsub].
      change (to_json (ArrayOf s si sub)) with (array_json s si (props_to_json sub)).
      rewrite flatten_property_array.
      change (height (ArrayOf s si sub)) with (S (props_height sub)) in Hle.
      rewrite IHd by (auto; lia). cbn [bind].
      rewrite IH by (auto; lia). cbn [part_of leaves].
      change (flat_map _ sub) with (props_leaves sub).
      now rewrite flat_entries_array.
Qed.
End FlattenTree.

(** ** The terminal nodes of a well-formed tree *)

Section LeavesFacts.
Import PyStr SchemaFlattener SchemaUnflattener Nested.

(** Induction over a properties mapping and, below it, over the mappings
    of its object and array nodes. *)
Lemma props_induction (P : list (string * tree) -> Prop) :
  P [] ->
  (forall k node ps, P ps -> P ((k, Leaf node) :: ps)) ->
  (forall k s sub ps, P sub -> P ps -> P ((k, Object s sub) :: ps)) ->
  (forall k s si sub ps, P sub -> P ps -> P ((k, ArrayOf s si sub) :: ps)) ->
  forall ps, P ps.
Proof.
  intros H0 H1 H2 H3 ps.
  assert (H : forall n ps, props_height ps < n -> P ps).
  { clear ps. induction n as [|n IHn]; [intros; lia|].
    induction ps as [|[k t] ps IHps]; intros Hh; [exact H0|].
    change (props_height ((k, t) :: ps))
      with (Nat.max (height t) (props_height ps)) in Hh.
    destruct t as [node|s sub|s si sub].
    - apply H1. apply IHps. lia.
    - change (height (Object s sub)) with (S (props_height sub)) in Hh.
      apply H2; [apply IHn|apply IHps]; lia.
    - change (height (ArrayOf s si sub)) with (S (props_height sub)) in Hh.
      apply H3; [apply IHn|apply IHps]; lia. }
  apply (H (S (props_height ps))). lia.
Qed.

Lemma props_leaves_head ps e :
  In e (props_leaves ps) ->
  exists a r, fst e = a :: r /\ In (part_name a) (keys ps).
Proof.
  induction ps as [|[k t] ps IH]; [intros []|].
  rewrite props_leaves_cons, in_app_iff, in_map_iff.
  intros [(e' & <- & _)|H].
  - exists (part_of k t), (fst e'). split; auto. left. now destruct t.
  - destruct (IH H) as (a & r & E & Hin). exists a, r. split; auto. now right.
Qed.

Lemma props_leaves_good ps :
  wf_props ps = true ->
  forall e, In e (props_leaves ps) -> good_path (fst e) = true.
Proof.
  induction ps as [|k node ps IH|k s sub ps IHsub IH|k s si sub ps IHsub IH]
    using props_induction; intros Hwf e; [intros []| | |];
    apply wf_props_cons in Hwf; destruct Hwf as (Hk & Ht & _ & Hps);
    rewrite props_leaves_cons, in_app_iff, in_map_iff;
    (intros [(e' & <- & He')|He]; [|now apply IH]).
  - destruct He' as [<-|[]]. unfold good_path. cbn. now rewrite Hk.
  - apply wf_node_props with (props := sub) in Ht; [|reflexivity].
    apply IHsub in He'; [|tauto]. unfold good_path in *. cbn.
    rewrite Hk. apply andb_true_iff in He'. tauto.
  - apply wf_node_props with (props := sub) in Ht; [|reflexivity].
    apply IHsub in He'; [|tauto]. unfold good_path in *. cbn.
    rewrite Hk. apply andb_true_iff in He'. tauto.
Qed.

Lemma NoDup_map_cons {A} (a : A) (l : list (list A)) :
  NoDup l -> NoDup (map (cons a) l).
Proof.
  induction 1 as [|x l Hx Hl IH]; cbn [map]; constructor; auto.
  rewrite in_map_iff. intros (y & E & Hy). injection E as ->. auto.
Qed.

Lemma NoDup_app_disjoint {A} (l1 l2 : list A) :
  NoDup l1 -> NoDup l2 -> (forall x, In x l1 -> ~ In x l2) -> NoDup (l1 ++ l2).
Proof.
  induction 1 as [|x l1 Hx Hl IH]; intros H2 Hd; cbn [app]; auto.
  constructor.
  - rewrite in_app_iff. intros [H|H]; [auto|]. apply (Hd x); simpl; auto.
  - apply IH; auto. intros y Hy. apply Hd. now right.
Qed.

Lemma props_leaves_block_NoDup k t ps :
  dict_get k ps = None ->
  NoDup (map fst (leaves t)) -> NoDup (map fst (props_leaves ps)) ->
  NoDup (map fst (props_leaves ((k, t) :: ps))).
Proof.
  intros Hk Ht Hps. rewrite props_leaves_cons, map_app.
  apply NoDup_app_disjoint; auto.
  - rewrite map_map. cbn [push fst]. rewrite <- map_map with (g := cons (part_of k t)).
    now apply NoDup_map_cons.
  - intros p. rewrite !in_map_iff. intros (e1 & <- & H1) (e2 & E & H2).
    apply in_map_iff in H1. destruct H1 as (e0 & <- & _).
    destruct (props_leaves_head _ _ H2) as (a & r & Ea & Hin).
    apply dict_get_none_keys in Hk. apply Hk.
    rewrite E in Ea. cbn [push fst] in Ea. injection Ea as <- _.
    now destruct t.
Qed.

Lemma props_leaves_NoDup ps :
  wf_props ps = true -> NoDup (map fst (props_leaves ps)).
Proof.
  induction ps as [|k node ps IH|k s sub ps IHsub IH|k s si sub ps IHsub IH]
    using props_induction; intros Hwf; [constructor| | |];
    apply wf_props_cons in Hwf; destruct Hwf as (Hk & Ht & Hfresh & Hps);
    apply props_leaves_block_NoDup; auto.
  - repeat constructor. intros [].
  - apply wf_node_props with (props := sub) in Ht; [|reflexivity].
    cbn [leaves]. apply IHsub. tauto.
  - apply wf_node_props with (props := sub) in Ht; [|reflexivity].
    cbn [leaves]. apply IHsub. tauto.
Qed.

Lemma props_leaves_nonempty ps :
  wf_props ps = true -> ps <> [] -> props_leaves ps <> [].
Proof.
  induction ps as [|k node ps IH|k s sub ps IHsub IH|k s si sub ps IHsub IH]
    using props_induction; intros Hwf Hne0; [congruence| | |];
    apply wf_props_cons in Hwf; destruct Hwf as (Hk & Ht & Hfresh & Hps);
    rewrite props_leaves_cons.
  - discriminate.
  - apply wf_node_props with (props := sub) in Ht; [|reflexivity]. destruct Ht as [Hne Hsub].
    specialize (IHsub Hsub Hne). cbn [leaves].
    change (flat_map _ sub) with (props_leaves sub).
    destruct (props_leaves sub); [congruence|discriminate].
  - apply wf_node_props with (props := sub) in Ht; [|reflexivity]. destruct Ht as [Hne Hsub].
    specialize (IHsub Hsub Hne). cbn [leaves].
    change (flat_map _ sub) with (props_leaves sub).
    destruct (props_leaves sub); [congruence|discriminate].
Qed.
End LeavesFacts.

(** ** The unflattener on the terminal nodes of a tree *)

Section UnflattenFacts.
Import PyStr SchemaFlattener SchemaUnflattener Nested.

Lemma unflatten_paths_app e1 e2 level :
  unflatten_paths (e1 ++ e2) level
  = (level' <- unflatten_paths e1 level ;; unflatten_paths e2 level').
Proof.
  revert level. induction e1 as [|[p v] e1 IH]; intros level; [reflexivity|].
  cbn [app unflatten_paths]. destruct (walk p v level); cbn [bind]; auto.
Qed.

Lemma ensure_present name node L x :
  dict_get name L = Some x -> ensure name node L = L.
Proof. unfold ensure, dict_mem. now intros ->. Qed.

(** A segment that is not the last one, over a node already laid out. *)
Lemma walk_cons_present a p v L M :
  p <> [] -> dict_get (part_name a) L = Some (wrap a M) ->
  walk (a :: p) v (JObj L)
  = (x <- walk p v M ;; Ok (JObj (dict_set (part_name a) (wrap a x) L))).
Proof.
  intros Hp HL.
  assert (Hnil : is_nil p = false) by now destruct p.
  destruct a as [n|n]; cbn [walk part_name wrap] in *; rewrite Hnil;
    rewrite (ensure_present _ _ _ _ HL); unfold dict_getitem at 1; rewrite HL;
    simpl; destruct (walk p v M); reflexivity.
Qed.

(** A segment that is not the last one, over a name not yet present: the
    node is created empty first. *)
Lemma walk_cons_fresh a p v L :
  p <> [] -> dict_get (part_name a) L = None ->
  walk (a :: p) v (JObj L)
  = walk (a :: p) v (JObj (L ++ [(part_name a, wrap a (JObj []))])).
Proof.
  intros Hp HL.
  assert (Hnil : is_nil p = false) by now destruct p.
  assert (Hin : forall x, dict_get (part_name a) (L ++ [(part_name a, x)]) = Some x).
  { intros x. rewrite dict_get_app, HL. cbn. now rewrite String.eqb_refl. }
  destruct a as [n|n]; cbn [walk part_name wrap] in *; rewrite Hnil;
    rewrite (ensure_present _ _ _ _ (Hin _)); unfold ensure, dict_mem; rewrite HL;
    unfold object_node, array_node; now rewrite dict_set_fresh.
Qed.

Lemma block_present a entries :
  forall M L M',
    (forall e, In e entries -> fst e <> []) ->
    dict_get (part_name a) L = Some (wrap a M) ->
    unflatten_paths entries M = Ok M' ->
    unflatten_paths (map (push a) entries) (JObj L)
    = Ok (JObj (dict_set (part_name a) (wrap a M') L)).
Proof.
  induction entries as [|[p v] entries IH]; intros M L M' Hne HL HM.
  - injection HM as <-. cbn. now rewrite dict_set_same.
  - cbn [map push fst snd unflatten_paths] in *.
    rewrite walk_cons_present with (M := M); auto.
    2:{ apply (Hne (p, v)). now left. }
    destruct (walk p v M) as [x|]; [|discriminate]. cbn [bind] in *.
    rewrite IH with (M := x) (M' := M'); auto.
    + now rewrite dict_set_set.
    + intros e He. apply Hne. now right.
    + apply dict_get_set_same.
Qed.

Lemma block_fresh a entries L M' :
  entries <> [] -> (forall e, In e entries -> fst e <> []) ->
  dict_get (part_name a) L = None ->
  unflatten_paths entries (JObj []) = Ok M' ->
  unflatten_paths (map (push a) entries) (JObj L)
  = Ok (JObj (L ++ [(part_name a, wrap a M')])).
Proof.
  intros Hent Hne HL HM. destruct entries as [|[p v] entries]; [congruence|].
  assert (Hp : p <> []). { apply (Hne (p, v)). now left. }
  change (unflatten_paths (map (push a) ((p, v) :: entries)) (JObj L))
    with (level' <- walk (a :: p) v (JObj L) ;;
          unflatten_paths (map (push a) entries) level').
  rewrite walk_cons_fresh by assumption.
  change (unflatten_paths (map (push a) ((p, v) :: entries))
            (JObj (L ++ [(part_name a, wrap a (JObj []))]))
          = Ok (JObj (L ++ [(part_name a, wrap a M')]))).
  rewrite block_present with (M := JObj []) (M' := M'); auto.
  - now rewrite dict_set_app_last.
  - rewrite dict_get_app, HL. cbn. now rewrite String.eqb_refl.
Qed.

Lemma unflatten_paths_tree ps :
  wf_props ps = true ->
  forall L, (forall k, In k (keys ps) -> dict_get k L = None) ->
            unflatten_paths (props_leaves ps) (JObj L)
            = Ok (JObj (L ++ props_rebuilt ps)).
Proof.
  assert (Hnext : forall k (t : tree) (x : json) (ps : list (string * tree)) (L : dict),
             dict_get k ps = None ->
             (forall k', In k' (keys ((k, t) :: ps)) -> dict_get k' L = None) ->
             forall k', In k' (keys ps) -> dict_get k' (L ++ [(k, x)]) = None).
  { intros k t x ps0 L Hk HL k' Hin. rewrite dict_get_app, HL by now right.
    cbn. destruct (String.eqb_spec k' k) as [->|]; auto.
    apply dict_get_none_keys in Hk. tauto. }
  induction ps as [|k node ps IH|k s sub ps IHsub IH|k s si sub ps IHsub IH]
    using props_induction; intros Hwf L HL.
  - cbn. now rewrite app_nil_r.
  - apply wf_props_cons in Hwf. destruct Hwf as (Hk & Ht & Hfresh & Hps).
    rewrite props_leaves_cons. cbn [leaves map push fst snd part_of app].
    cbn [unflatten_paths walk is_nil bind push fst snd].
    rewrite dict_set_fresh by (apply HL; now left).
    rewrite IH; auto.
    + now rewrite <- app_assoc.
    + now apply (Hnext k (Leaf node)).
  - apply wf_props_cons in Hwf. destruct Hwf as (Hk & Ht & Hfresh & Hps).
    apply wf_node_props with (props := sub) in Ht; [|reflexivity]. destruct Ht as [Hne Hsub].
    rewrite props_leaves_cons, unflatten_paths_app. cbn [leaves part_of].
    change (flat_map _ sub) with (props_leaves sub).
    rewrite block_fresh with (M' := JObj (props_rebuilt sub)).
    + cbn [bind]. rewrite IH; auto.
      * now rewrite <- app_assoc.
      * now apply (Hnext k (Object s sub)).
    + now apply props_leaves_nonempty.
    + apply props_leaves_paths_nonempty.
    + apply HL. now left.
    + rewrite IHsub; auto.
  - apply wf_props_cons in Hwf. destruct Hwf as (Hk & Ht & Hfresh & Hps).
    apply wf_node_props with (props := sub) in Ht; [|reflexivity]. destruct Ht as [Hne Hsub].
    rewrite props_leaves_cons, unflatten_paths_app. cbn [leaves part_of].
    change (flat_map _ sub) with (props_leaves sub).
    rewrite block_fresh with (M' := JObj (props_rebuilt sub)).
    + cbn [bind]. rewrite IH; auto.
      * now rewrite <- app_assoc.
      * now apply (Hnext k (ArrayOf s si sub)).
    + now apply props_leaves_nonempty.
    + apply props_leaves_paths_nonempty.
    + apply HL. now left.
    + rewrite IHsub; auto.
Qed.

Lemma unflatten_items_paths entries :
  (forall e, In e entries -> good_path (fst e) = true) ->
  forall level,
    unflatten_items (map (fun e => (render (fst e), snd e)) entries) level
    = unflatten_paths entries level.
Proof.
  induction entries as [|[p v] entries IH]; intros Hg level; [reflexivity|].
  cbn [map fst snd unflatten_items unflatten_paths].
  unfold _unflatten_property. rewrite parse_render by (apply (Hg (p, v)); now left).
  destruct (walk p v level); cbn [bind]; auto.
  apply IH. intros e He. apply Hg. now right.
Qed.
End UnflattenFacts.

(** ** The round trip *)

Section RoundTrip.
Import PyStr SchemaFlattener SchemaUnflattener Nested Laws.

Lemma NoDup_map_injective_on {A B} (f : A -> B) (l : list A) :
  (forall x y, In x l -> In y l -> f x = f y -> x = y) ->
  NoDup l -> NoDup (map f l).
Proof.
  intros Hinj. induction 1 as [|x l Hx Hl IH]; cbn [map]; constructor.
  - rewrite in_map_iff. intros (y & E & Hy). apply Hx.
    rewrite (Hinj x y); simpl; auto.
  - apply IH. intros a b Ha Hb. apply Hinj; simpl; auto.
Qed.

Lemma add_leaves_fresh entries :
  forall st,
    NoDup (keys entries) ->
    (forall k, In k (keys entries) ->
               dict_get k (fst st) = None /\ dict_get k (snd st) = None) ->
    add_leaves entries st
    = (fst st ++ entries, snd st ++ map (fun e => (fst e, fst e)) entries).
Proof.
  induction entries as [|[k v] entries IH]; intros [f m] Hnd Hfresh.
  - cbn. now rewrite !app_nil_r.
  - cbn [add_leaves fold_left fst snd]. unfold add_leaf, _build_nested_path.
    cbn [fst snd keys map] in *. inversion Hnd as [|? ? Hk Hnd']; subst.
    destruct (Hfresh k (or_introl eq_refl)) as [Hf Hm].
    rewrite !dict_set_fresh by assumption.
    change (fold_left _ entries ?st) with (add_leaves entries st).
    rewrite IH; auto.
    + cbn [fst snd]. now rewrite <- !app_assoc.
    + intros k' Hin. cbn [fst snd]. rewrite !dict_get_app.
      destruct (Hfresh k' (or_intror Hin)) as [-> ->]. cbn.
      destruct (String.eqb_spec k' k) as [->|]; auto. contradiction.
Qed.

Lemma flat_entries_root props :
  flat_entries "" props = map (fun e => (render (fst e), snd e)) (props_leaves props).
Proof. reflexivity. Qed.

Lemma flat_entries_NoDup props :
  wf_props props = true -> NoDup (keys (flat_entries "" props)).
Proof.
  intros Hwf. rewrite flat_entries_root. unfold keys. rewrite map_map. cbn [fst].
  rewrite <- map_map with (f := fst) (g := render).
  apply NoDup_map_injective_on; [|now apply props_leaves_NoDup].
  intros p q Hp Hq. apply in_map_iff in Hp, Hq.
  destruct Hp as (e1 & <- & H1), Hq as (e2 & <- & H2).
  apply render_injective; now apply (props_leaves_good props).
Qed.

Lemma filter_idempotent {A} (f : A -> bool) l : filter f (filter f l) = filter f l.
Proof.
  induction l as [|x l IH]; [reflexivity|]. cbn [filter].
  destruct (f x) eqn:E; cbn [filter]; rewrite ?E, IH; reflexivity.
Qed.

(** The outcome of flattening a document whose properties are a
    well-formed tree with at least one nested node. *)
Lemma flatten_schema_tree depth D props :
  wf_props props = true -> props_height props < depth ->
  dict_get "properties" D = Some (JObj (props_to_json props)) ->
  has_nested_items (props_to_json props) = true ->
  flatten_schema depth D
  = Ok (dict_set "properties" (JObj (flat_entries "" props)) D,
        map (fun e => (fst e, fst e)) (flat_entries "" props)).
Proof.
  intros Hwf Hh HD Hn. unfold flatten_schema, is_nested_schema.
  rewrite HD. unfold _has_nested_properties. cbn [py_items bind]. rewrite Hn.
  rewrite flatten_properties_tree by assumption. cbn [bind].
  rewrite add_leaves_fresh; [reflexivity| |intros; split; reflexivity].
  now apply flat_entries_NoDup.
Qed.

Lemma py_equal_dict_inv d1 d2 :
  py_equal (JObj d1) (JObj d2) ->
  (forall k, dict_get k d1 = None <-> dict_get k d2 = None)
  /\ (forall k v1 v2, dict_get k d1 = Some v1 -> dict_get k d2 = Some v2 ->
                      py_equal v1 v2).
Proof.
  inversion 1 as [v|a b H1 H2]; subst; [|auto].
  split; [tauto|]. intros k v1 v2 -> [= <-]. constructor.
Qed.

Lemma py_equal_cons k v1 v2 d1 d2 :
  py_equal v1 v2 -> py_equal (JObj d1) (JObj d2) ->
  py_equal (JObj ((k, v1) :: d1)) (JObj ((k, v2) :: d2)).
Proof.
  intros Hv Hd. apply py_equal_dict_inv in Hd. destruct Hd as [H1 H2].
  apply py_equal_dict.
  - intros k'. cbn [dict_get]. destruct (String.eqb k' k); [|apply H1].
    split; discriminate.
  - intros k' x y. cbn [dict_get]. destruct (String.eqb k' k); [|apply H2].
    now intros [= <-] [= <-].
Qed.

Lemma py_equal_object s P' P :
  py_equal (JObj P') (JObj P) -> py_equal (obj P') (object_json s P).
Proof.
  intros H. destruct s; cbn [object_json]; unfold obj.
  - apply py_equal_dict.
    + intros k. cbn [dict_get].
      destruct (String.eqb k "type"), (String.eqb k "properties");
        split; try discriminate; auto.
    + intros k x y. cbn [dict_get].
      destruct (String.eqb_spec k "type") as [->|E1]; cbn.
      * intros [= <-] [= <-]. constructor.
      * destruct (String.eqb k "properties"); [|discriminate].
        now intros [= <-] [= <-].
  - repeat apply py_equal_cons; auto; constructor.
Qed.

Lemma py_equal_array s si P' P :
  py_equal (JObj P') (JObj P) -> py_equal (arr P') (array_json s si P).
Proof.
  intros H. apply (py_equal_object si) in H.
  destruct s; cbn [array_json]; unfold arr.
  - apply py_equal_dict.
    + intros k. cbn [dict_get].
      destruct (String.eqb k "type"), (String.eqb k "items");
        split; try discriminate; auto.
    + intros k x y. cbn [dict_get].
      destruct (String.eqb_spec k "type") as [->|E1]; cbn.
      * intros [= <-] [= <-]. constructor.
      * destruct (String.eqb k "items"); [|discriminate].
        now intros [= <-] [= <-].
  - repeat apply py_equal_cons; auto; constructor.
Qed.

(** What the unflattener lays out is the tree's document up to the order of
    the keys of intermediate nodes, and the document itself when no node
    has them swapped. *)
Lemma py_equal_rebuilt ps :
  py_equal (JObj (props_rebuilt ps)) (JObj (props_to_json ps)).
Proof.
  induction ps as [|k node ps IH|k s sub ps IHsub IH|k s si sub ps IHsub IH]
    using props_induction.
  - constructor.
  - apply py_equal_cons; [constructor|exact IH].
  - apply py_equal_cons; [|exact IH]. now apply py_equal_object.
  - apply py_equal_cons; [|exact IH]. now apply py_equal_array.
Qed.

Lemma rebuilt_in_order ps :
  props_in_order ps = true -> props_rebuilt ps = props_to_json ps.
Proof.
  induction ps as [|k node ps IH|k s sub ps IHsub IH|k s si sub ps IHsub IH]
    using props_induction; [reflexivity| | |].
  - change (props_in_order ((k, Leaf node) :: ps)) with (props_in_order ps).
    intros H. cbn [props_rebuilt props_to_json map]. f_equal. now apply IH.
  - change (props_in_order ((k, Object s sub) :: ps))
      with (negb s && props_in_order sub && props_in_order ps).
    rewrite !andb_true_iff. intros [[Hs Hsub] H].
    apply negb_true_iff in Hs. subst s.
    change (props_rebuilt ((k, Object false sub) :: ps))
      with ((k, obj (props_rebuilt sub)) :: props_rebuilt ps).
    change (props_to_json ((k, Object false sub) :: ps))
      with ((k, obj (props_to_json sub)) :: props_to_json ps).
    now rewrite IHsub, IH.
  - change (props_in_order ((k, ArrayOf s si sub) :: ps))
      with (negb s && negb si && props_in_order sub && props_in_order ps).
    rewrite !andb_true_iff. intros [[[Hs Hsi] Hsub] H].
    apply negb_true_iff in Hs, Hsi. subst s si.
    change (props_rebuilt ((k, ArrayOf false false sub) :: ps))
      with ((k, arr (props_rebuilt sub)) :: props_rebuilt ps).
    change (props_to_json ((k, ArrayOf false false sub) :: ps))
      with ((k, arr (props_to_json sub)) :: props_to_json ps).
    now rewrite IHsub, IH.
Qed.

(** C1, as amended.  Let the properties of [D] be a well-formed tree: its
    terminal nodes are mappings without [$ref] in which the flattener finds
    nothing to descend into, its other nodes are exactly
    [{"type": "object", "properties": P}] or
    [{"type": "array", "items": {"type": "object", "properties": P}}] with
    [P] not empty, and the names at each level are distinct, not empty and
    free of ['.'] and ["[*]"].  Then, given enough recursion depth,
    [flatten_schema] returns and [unflatten_schema] applied to its result
    returns a document that equals [D]: the entries other than [properties]
    are identical and in the same order, and the [properties] tree is the
    tree of [D] with the keys of each intermediate node in the order type,
    properties (or type, items), hence identical to that of [D] when [D]
    writes them so. *)
Theorem roundtrip_well_formed (depth : nat) (D : dict) (props : list (string * tree)) :
  wf_props props = true ->
  props_height props < depth ->
  dict_get "properties" D = Some (JObj (props_to_json props)) ->
  exists flat index R,
    flatten_schema depth D = Ok (flat, index)
    /\ unflatten_schema flat index = Ok R
    /\ filter not_properties R = filter not_properties D
    /\ (exists P, dict_get "properties" R = Some P
                  /\ py_equal P (JObj (props_to_json props)))
    /\ (props_in_order props = true ->
        dict_get "properties" R = Some (JObj (props_to_json props)))
    /\ dict_equal R D.
Proof.
  intros Hwf Hh HD.
  assert (Hfinish : forall R P,
             dict_get "properties" R = Some P ->
             py_equal P (JObj (props_to_json props)) ->
             filter not_properties R = filter not_properties D ->
             dict_equal R D).
  { intros R P HR HP HF. apply py_equal_dict.
    - intros k. destruct (String.eqb_spec k "properties") as [->|Hne].
      + rewrite HR, HD. split; discriminate.
      + rewrite <- (dict_get_filter_not_properties k R Hne), HF.
        now rewrite dict_get_filter_not_properties.
    - intros k v1 v2. destruct (String.eqb_spec k "properties") as [->|Hne].
      + rewrite HR, HD. now intros [= <-] [= <-].
      + rewrite <- (dict_get_filter_not_properties k R Hne), HF.
        rewrite dict_get_filter_not_properties by exact Hne.
        intros -> [= <-]. constructor. }
  destruct (has_nested_items (props_to_json props)) eqn:Hn.
  - rewrite (flatten_schema_tree depth D props Hwf Hh HD Hn).
    set (E := flat_entries "" props).
    assert (HE : E <> []).
    { unfold E. rewrite flat_entries_root.
      assert (props <> []) by (destruct props; [discriminate|discriminate]).
      pose proof (props_leaves_nonempty props Hwf H).
      destruct (props_leaves props); [congruence|discriminate]. }
    set (R := dict_set "properties" (JObj (props_rebuilt props))
                       (filter not_properties (dict_set "properties" (JObj E) D))).
    assert (HU : unflatten_schema (dict_set "properties" (JObj E) D)
                                  (map (fun e => (fst e, fst e)) E) = Ok R).
    { assert (Hidx : exists e idx, map (fun e => (fst e, fst e)) E = e :: idx).
      { destruct E as [|e E']; [congruence|]. cbn [map]. eauto. }
      destruct Hidx as (e & idx & ->).
      unfold unflatten_schema, dict_get_default.
      rewrite dict_get_set_same. cbn [py_items bind].
      unfold E at 1. rewrite flat_entries_root.
      rewrite unflatten_items_paths by (apply props_leaves_good; exact Hwf).
      rewrite (unflatten_paths_tree props Hwf []) by reflexivity.
      reflexivity. }
    exists (dict_set "properties" (JObj E) D), (map (fun e => (fst e, fst e)) E), R.
    assert (HR : dict_get "properties" R = Some (JObj (props_rebuilt props)))
      by apply dict_get_set_same.
    assert (HF : filter not_properties R = filter not_properties D).
    { unfold R. rewrite filter_not_properties_set, filter_idempotent.
      apply filter_not_properties_set. }
    pose proof (py_equal_rebuilt props) as HP.
    repeat split; auto.
    + eauto.
    + intros Hord. now rewrite HR, rebuilt_in_order.
    + now apply (Hfinish R (JObj (props_rebuilt props))).
  - exists D, [], D. unfold flatten_schema, is_nested_schema.
    rewrite HD. unfold _has_nested_properties. cbn [py_items bind]. rewrite Hn.
    repeat split; auto.
    + exists (JObj (props_to_json props)). split; auto. constructor.
    + constructor.
Qed.

Lemma roundtrip_well_formed_witness : roundtrips 4 Examples.order_doc.
Proof.
  destruct (roundtrip_well_formed 4 Examples.order_doc Examples.order_props)
    as (flat & index & R & H1 & H2 & _ & _ & _ & H3);
    [reflexivity | cbn; lia | reflexivity |].
  exists flat, index, R. auto.
Defined.

(** C1 as stated fails: a property that refers to a resolvable definition
    does not come back, since the flattener expands it and the unflattener
    lays out an object. *)
Lemma roundtrip_ref_counterexample : ~ roundtrips 3 Examples.ref_doc.
Proof.
  intros (flat & index & R & H1 & H2 & H3).
  vm_compute in H1. injection H1 as <- <-.
  vm_compute in H2. injection H2 as <-.
  apply py_equal_dict_inv in H3. destruct H3 as [_ H3].
  specialize (H3 "properties" _ _ eq_refl eq_refl).
  apply py_equal_dict_inv in H3. destruct H3 as [_ H3].
  specialize (H3 "billing" _ _ eq_refl eq_refl).
  apply py_equal_dict_inv in H3. destruct H3 as [H3 _].
  destruct (H3 "$ref") as [H _]. specialize (H eq_refl). discriminate.
Qed.
End RoundTrip.

(** ** Path grammar, and the index of a nested document without leaves *)

Section Grammar.
Import PyStr SchemaFlattener SchemaUnflattener Nested Detection.

(** What holds of the flattener's dicts before a call and is kept by every
    recorded leaf holds after the call. *)
Lemma flatten_properties_invariant (P : acc -> Prop) :
  (forall path v st, P st -> P (add_leaf path v st)) ->
  forall depth definitions properties prefix st st',
    P st ->
    _flatten_properties depth definitions properties prefix st = Ok st' -> P st'.
Proof.
  intros Hadd. induction depth as [|d IHd]; intros defs props prefix st st' Hst;
    [discriminate|].
  cbn [_flatten_properties]. destruct props as [| | | | |items]; try discriminate.
  cbn [py_items bind]. revert st Hst.
  induction items as [|[name v] items IH]; intros st Hst; cbn [flatten_loop].
  - now intros [= <-].
  - destruct (flatten_property (_flatten_properties d defs) defs prefix name v st)
      as [st1|] eqn:E; [|discriminate].
    cbn [bind]. apply IH. revert E.
    unfold flatten_property, bind, dict_getitem, py_getitem, py_in.
    repeat match goal with
           | |- context [match ?x with _ => _ end] => destruct x eqn:?
           end;
      try discriminate;
      try (intros [= <-]; auto);
      try (intros E; eapply IHd; eauto).
Qed.


Lemma flatten_loop_app recurse definitions prefix l1 l2 :
  forall st,
    flatten_loop recurse definitions prefix (l1 ++ l2) st
    = (st' <- flatten_loop recurse definitions prefix l1 st ;;
       flatten_loop recurse definitions prefix l2 st').
Proof.
  induction l1 as [|[k v] l1 IH]; intros st; [reflexivity|].
  cbn [app flatten_loop].
  destruct (flatten_property recurse definitions prefix k v st); cbn [bind]; auto.
Qed.

Lemma has_nested_items_app l1 l2 :
  has_nested_items (l1 ++ l2) = has_nested_items l1 || has_nested_items l2.
Proof.
  induction l1 as [|[k v] l1 IH]; [reflexivity|].
  cbn [app has_nested_items]. destruct (nested_property v); auto.
Qed.


















(** C3 at a nested document without terminal nodes: detection answers
    true, yet the path index comes back empty. *)
Lemma nested_document_with_empty_index :
  is_nested_schema Examples.empty_object_doc = Ok true
  /\ flatten_schema 2 Examples.empty_object_doc
     = Ok ([("class", JStr "invoice"); ("properties", JObj [])], []).
Proof. split; reflexivity. Qed.

(** C2 as stated fails: a path that is a proper prefix of another, and a
    name used both as a property and as an array, make [unflatten_schema]
    raise [KeyError]. *)
Lemma unflatten_collision_raises :
  unflatten_schema Examples.prefix_doc [("a", "a"); ("a.b", "a.b")] = Raise KeyError
  /\ unflatten_schema Examples.mixed_doc [("a.b", "a.b"); ("a[*].c", "a[*].c")]
     = Raise KeyError.
Proof. split; reflexivity. Qed.

Lemma is_nested_schema_iff_eligible_witness :
  (exists b, is_nested_schema Examples.flat_doc = Ok b)
  /\ is_nested_schema [("class", JStr "invoice")] = Ok false
  /\ is_nested_schema [("properties", JArr [])] = Raise AttributeError.
Proof.
  split; [|split].
  - apply (proj2 (proj2 (proj2 (is_nested_schema_iff_eligible Examples.flat_doc)))
             [("total", Examples.field "Extract total");
              ("tags", JObj [("type", JStr "array");
                             ("items", JObj [("type", JStr "string")])]);
              ("meta", JObj [("type", JStr "object")])]).
    reflexivity.
  - apply (proj1 (proj2 (is_nested_schema_iff_eligible [("class", JStr "invoice")]))).
    reflexivity.
  - apply (proj1 (proj2 (proj2 (is_nested_schema_iff_eligible [("properties", JArr [])])))
             (JArr [])); reflexivity.
Defined.
End Grammar.

(** ** Document-level flattening *)

Section Optimization.
Import SchemaFlattener SchemaUnflattener Laws.

Lemma dict_set_keys_NoDup {V} k (v : V) d : NoDup (keys d) -> NoDup (keys (dict_set k v d)).
Proof.
  intros Hd. destruct (dict_get k d) as [x|] eqn:E.
  - replace (keys (dict_set k v d)) with (keys d); auto.
    clear Hd. revert E. induction d as [|[k0 v0] d IH]; simpl; [discriminate|].
    destruct (String.eqb k k0) eqn:Ek; intros E; simpl; [reflexivity|].
    f_equal. now apply IH.
  - rewrite dict_set_fresh by assumption. unfold keys. rewrite map_app. cbn.
    apply NoDup_app_disjoint; auto.
    + repeat constructor. intros [].
    + intros x Hx [<-|[]]. now apply dict_get_none_keys in E.
Qed.

Lemma In_dict_set {V} k (v : V) d k' v' :
  In (k', v') (dict_set k v d) -> (k' = k /\ v' = v) \/ In (k', v') d.
Proof.
  induction d as [|[k0 v0] d IH]; simpl.
  - intros [H|[]]. injection H as <- <-. auto.
  - destruct (String.eqb k k0) eqn:E; simpl.
    + apply String.eqb_eq in E. subst. intros [H|H]; [injection H as <- <-|]; auto.
    + intros [H|H]; auto. destruct (IH H); auto.
Qed.

Lemma flatten_schema_properties depth D flat index props :
  dict_get "properties" D = Some (JObj props) -> NoDup (keys props) ->
  flatten_schema depth D = Ok (flat, index) ->
  (exists items, dict_get "properties" flat = Some (JObj items) /\ NoDup (keys items))
  /\ filter not_properties flat = filter not_properties D.
Proof.
  intros HD Hnd. unfold flatten_schema, is_nested_schema. rewrite HD.
  unfold _has_nested_properties. cbn [py_items bind].
  destruct (has_nested_items props).
  - destruct (_flatten_properties depth _ (JObj props) "" ([], [])) as [st|] eqn:E;
      [|discriminate].
    cbn [bind]. intros [= <- <-]. split.
    + exists (fst st). split; [apply dict_get_set_same|].
      revert E. apply (flatten_properties_invariant (fun st => NoDup (keys (fst st)))).
      * intros path v st0 H. cbn [add_leaf fst]. now apply dict_set_keys_NoDup.
      * constructor.
    + apply filter_not_properties_set.
  - intros [= <- <-]. split; eauto.
Qed.

Lemma convert_items_spec items :
  forall done log,
    NoDup (keys done ++ keys items) ->
    Schema.convert_items items done log
    = (done ++ well_formed_fields items, log ++ malformed_fields items).
Proof.
  induction items as [|[name v] items IH]; intros done log Hnd.
  - cbn. now rewrite !app_nil_r.
  - cbn [Schema.convert_items well_formed_fields malformed_fields flat_map].
    cbn [keys map fst] in Hnd.
    destruct (SchemaProperty.init v) as [p|e].
    + rewrite dict_set_fresh.
      * rewrite IH; [now rewrite <- app_assoc|].
        unfold keys in *. rewrite map_app, <- app_assoc. exact Hnd.
      * apply dict_get_none_keys. apply NoDup_remove_2 in Hnd.
        intros Hin. apply Hnd. apply in_or_app. now left.
    + rewrite IH; [now rewrite <- app_assoc|].
      now apply NoDup_remove_1 in Hnd.
Qed.

Lemma coercible_spec v :
  coercible v = true
  <-> exists d t i s,
      v = JObj d /\ dict_get "type" d = Some (JStr t)
      /\ dict_get "inferenceType" d = Some (JStr i)
      /\ dict_get "instruction" d = Some (JStr s).
Proof.
  unfold coercible, SchemaProperty.init. split.
  - destruct v as [| | | | |d]; try discriminate.
    unfold SchemaProperty.str_field.
    destruct (dict_get "type" d) as [[| | |t| |]|] eqn:Ht; try discriminate.
    destruct (dict_get "inferenceType" d) as [[| | |i| |]|] eqn:Hi; try discriminate.
    destruct (dict_get "instruction" d) as [[| | |s| |]|] eqn:Hs; try discriminate.
    intros _. exists d, t, i, s. auto.
  - intros (d & t & i & s & -> & Ht & Hi & Hs).
    unfold SchemaProperty.str_field. now rewrite Ht, Hi, Hs.
Qed.

Lemma init_source v p :
  SchemaProperty.init v = Ok p ->
  exists d, v = JObj d
            /\ dict_get "type" d = Some (JStr (SchemaProperty.type p))
            /\ dict_get "inferenceType" d = Some (JStr (SchemaProperty.inferenceType p))
            /\ dict_get "instruction" d = Some (JStr (SchemaProperty.instruction p)).
Proof.
  unfold SchemaProperty.init. destruct v as [| | | | |d]; try discriminate.
  unfold SchemaProperty.str_field.
  destruct (dict_get "type" d) as [[| | |t| |]|] eqn:Ht; try discriminate.
  destruct (dict_get "inferenceType" d) as [[| | |i| |]|] eqn:Hi; try discriminate.
  destruct (dict_get "instruction" d) as [[| | |s| |]|] eqn:Hs; try discriminate.
  cbn. intros [= <-]. exists d. auto.
Qed.

Lemma In_well_formed_fields items name x :
  In (name, x) (well_formed_fields items)
  <-> exists v p, In (name, v) items /\ SchemaProperty.init v = Ok p /\ x = Schema.Model p.
Proof.
  unfold well_formed_fields. rewrite in_flat_map. split.
  - intros ([n v] & Hin & H). destruct (SchemaProperty.init v) as [p|] eqn:E; [|destruct H].
    destruct H as [[= <- <-]|[]]. exists v, p. auto.
  - intros (v & p & Hin & E & ->). exists (name, v). split; auto.
    rewrite E. now left.
Qed.

Lemma In_malformed_fields items name :
  In name (malformed_fields items)
  <-> exists v, In (name, v) items /\ coercible v = false.
Proof.
  unfold malformed_fields, coercible. rewrite in_flat_map. split.
  - intros ([n v] & Hin & H). destruct (SchemaProperty.init v) as [p|] eqn:E; [destruct H|].
    destruct H as [<-|[]]. exists v. rewrite E. auto.
  - intros (v & Hin & E). exists (name, v). split; auto.
    destruct (SchemaProperty.init v); [discriminate|now left].
Qed.
End Optimization.

Section OptimizationClaims.
Import SchemaFlattener SchemaUnflattener Laws.

Lemma model_dump_properties self :
  dict_get "properties" (Schema.model_dump self) = Some (JObj (dumped_properties self)).
Proof. reflexivity. Qed.

Lemma init_of_dump self flat props :
  filter not_properties flat = filter not_properties (Schema.model_dump self) ->
  Schema.init (filter not_properties flat) props
  = Ok (Schema.mk (Schema.schema self) (Schema.description self) (Schema.class_ self)
                  (Schema.type self) (Schema.definitions self) props).
Proof. intros ->. reflexivity. Qed.

Lemma init_properties kwargs props out :
  Schema.init kwargs props = Ok out -> Schema.properties out = props.
Proof.
  unfold Schema.init, bind.
  repeat match goal with
         | |- context [match ?x with _ => _ end] => destruct x
         end; try discriminate.
  now intros [= <-].
Qed.

Lemma convert_items_models items :
  forall done log done' log',
    Schema.convert_items items done log = (done', log') ->
    forall name x, In (name, x) done' ->
      In (name, x) done
      \/ exists v p, In (name, v) items /\ SchemaProperty.init v = Ok p
                     /\ x = Schema.Model p.
Proof.
  induction items as [|[n v] items IH]; intros done log done' log' H name x Hin.
  - injection H as <- <-. auto.
  - cbn [Schema.convert_items] in H. destruct (SchemaProperty.init v) as [p|e] eqn:E.
    + destruct (IH _ _ _ _ H name x Hin) as [Hd|(v' & p' & H1 & H2 & H3)].
      * apply In_dict_set in Hd. destruct Hd as [[-> ->]|Hd]; auto.
        right. exists v, p. simpl. auto.
      * right. exists v', p'. simpl. auto.
    + destruct (IH _ _ _ _ H name x Hin) as [Hd|(v' & p' & H1 & H2 & H3)]; auto.
      right. exists v', p'. simpl. auto.
Qed.

(** C8, as amended.  [flatten_for_optimization] fails exactly when the
    core flattener fails on the held document, with the same exception (the
    call stands outside the [try]).  When the core flattener returns,
    [flatten_for_optimization] returns as well: it keeps, in order, exactly
    the flat leaves that are mappings with a string under each of [type],
    [inferenceType] and [instruction], each as the [SchemaProperty] of those
    three strings; it logs one warning for each of the others (a leaf that
    is not a mapping, lacks one of the three fields or holds something
    other than a string there) and drops it; and it copies the other fields
    of the document. *)
Theorem flatten_for_optimization_drops_malformed (depth : nat) (self : Schema.t) :
  NoDup (keys (Schema.properties self)) ->
  (forall e, flatten_schema depth (Schema.model_dump self) = Raise e ->
             Schema.flatten_for_optimization depth self = Raise e)
  /\
  (forall flat index,
      flatten_schema depth (Schema.model_dump self) = Ok (flat, index) ->
      exists items out log,
        dict_get "properties" flat = Some (JObj items)
        /\ Schema.flatten_for_optimization depth self = Ok (out, index, log)
        /\ out = Schema.mk (Schema.schema self) (Schema.description self)
                           (Schema.class_ self) (Schema.type self)
                           (Schema.definitions self) (well_formed_fields items)
        /\ log = malformed_fields items
        /\ (forall name x,
               In (name, x) (Schema.properties out)
               <-> exists v p, In (name, v) items /\ SchemaProperty.init v = Ok p
                               /\ x = Schema.Model p)
        /\ (forall name,
               In name log <-> exists v, In (name, v) items /\ coercible v = false)
        /\ (forall d f,
               In f ["type"; "inferenceType"; "instruction"] ->
               dict_get f d = None -> coercible (JObj d) = false)
        /\ (forall name x,
               In (name, x) (Schema.properties out)
               <-> exists d t i s,
                   In (name, JObj d) items
                   /\ dict_get "type" d = Some (JStr t)
                   /\ dict_get "inferenceType" d = Some (JStr i)
                   /\ dict_get "instruction" d = Some (JStr s)
                   /\ x = Schema.Model (SchemaProperty.mk t i s))
        /\ (forall name,
               In name log
               <-> exists v,
                   In (name, v) items
                   /\ ~ exists d t i s,
                         v = JObj d
                         /\ dict_get "type" d = Some (JStr t)
                         /\ dict_get "inferenceType" d = Some (JStr i)
                         /\ dict_get "instruction" d = Some (JStr s))).
Proof.
  intros Hnd. split.
  { intros e He. unfold Schema.flatten_for_optimization. now rewrite He. }
  intros flat index Hflat.
  destruct (flatten_schema_properties depth _ flat index _
              (model_dump_properties self)) as [(items & Hitems & Hni) Hmeta]; auto.
  { unfold dumped_properties, keys. rewrite map_map. exact Hnd. }
  exists items. eexists. eexists. split; [exact Hitems|].
  split; [|split; [reflexivity|split; [reflexivity|]]].
  - unfold Schema.flatten_for_optimization. rewrite Hflat. cbn [bind].
    unfold dict_get_default. rewrite Hitems. cbn [py_items bind].
    rewrite convert_items_spec by exact Hni. cbn [app].
    rewrite (init_of_dump self flat _ Hmeta). reflexivity.
  - cbn [Schema.properties]. split; [apply In_well_formed_fields|].
    split; [apply In_malformed_fields|].
    split; [|split].
    + intros d f Hf Hnone. destruct (coercible (JObj d)) eqn:E; [|reflexivity].
      apply coercible_spec in E.
      destruct E as (d' & t & i & s & [= <-] & Ht & Hi & Hs).
      destruct Hf as [<-|[<-|[<-|[]]]]; congruence.
    + intros name x. rewrite In_well_formed_fields. split.
      * intros (v & p & Hin & Hinit & ->).
        assert (Hc : coercible v = true) by (unfold coercible; now rewrite Hinit).
        apply coercible_spec in Hc. destruct Hc as (d & t & i & s & -> & Ht & Hi & Hs).
        exists d, t, i, s. repeat split; auto.
        revert Hinit. unfold SchemaProperty.init, SchemaProperty.str_field.
        rewrite Ht, Hi, Hs. cbn [bind]. now intros [= <-].
      * intros (d & t & i & s & Hin & Ht & Hi & Hs & ->).
        exists (JObj d), (SchemaProperty.mk t i s). repeat split; auto.
        unfold SchemaProperty.init, SchemaProperty.str_field. now rewrite Ht, Hi, Hs.
    + intros name. rewrite In_malformed_fields. split.
      * intros (v & Hin & Hc). exists v. split; [exact Hin|].
        intros H. apply coercible_spec in H. congruence.
      * intros (v & Hin & Hc). exists v. split; [exact Hin|].
        destruct (coercible v) eqn:E; [|reflexivity].
        exfalso. apply Hc. now apply coercible_spec.
Qed.

Lemma flatten_for_optimization_drops_malformed_witness :
  Schema.flatten_for_optimization 3 Examples.held
  = Ok (Schema.mk "http://json-schema.org/draft-07/schema#" "An invoice" "invoice"
                  "object" []
                  [("customer.name",
                    Schema.Model (SchemaProperty.mk "string" "explicit" "Extract name"));
                   ("total",
                    Schema.Model (SchemaProperty.mk "number" "explicit" "Extract total"))],
        [("customer.name", "customer.name"); ("customer.email", "customer.email");
         ("total", "total")],
        ["customer.email"]).
Proof.
  assert (Hnd : NoDup (keys (Schema.properties Examples.held)))
    by (repeat constructor; simpl; intuition discriminate).
  destruct (proj2 (flatten_for_optimization_drops_malformed 3 Examples.held Hnd)
              [("$schema", JStr "http://json-schema.org/draft-07/schema#");
               ("description", JStr "An invoice"); ("class", JStr "invoice");
               ("type", JStr "object"); ("definitions", JObj []);
               ("properties",
                JObj [("customer.name", Examples.field "Extract name");
                      ("customer.email",
                       JObj [("type", JStr "string");
                             ("instruction", JStr "Extract email")]);
                      ("total",
                       JObj [("type", JStr "number"); ("inferenceType", JStr "explicit");
                             ("instruction", JStr "Extract total");
                             ("description", JStr "grand total")])])]
              [("customer.name", "customer.name"); ("customer.email", "customer.email");
               ("total", "total")] eq_refl)
    as (items & out & log & H1 & H2 & H3 & H4 & _).
  injection H1 as <-. rewrite H2, H3, H4. reflexivity.
Defined.

(** C8 as stated fails: a held property whose [$ref] is not a string makes
    the core flattener raise [AttributeError] before any leaf is
    converted, and [flatten_for_optimization] raises it too. *)
Lemma flatten_for_optimization_raises_on_bad_ref :
  Schema.flatten_for_optimization 5 Examples.bad_ref
  = Raise AttributeError.
Proof. reflexivity. Qed.

(** C9. Every leaf of the schema returned by [flatten_for_optimization] is
    a [SchemaProperty]: dumped, it is a mapping with exactly the keys
    [type], [inferenceType] and [instruction], whose values are those of
    the flat leaf of that name; no other key of that leaf appears. *)
Theorem flattened_leaves_expose_three_fields
        (depth : nat) (self out : Schema.t) (index : list (string * string))
        (log : list string) :
  Schema.flatten_for_optimization depth self = Ok (out, index, log) ->
  forall name leaf,
    In (name, leaf) (dumped_properties out) ->
    exists t i s,
      leaf = JObj [("type", JStr t); ("inferenceType", JStr i); ("instruction", JStr s)]
      /\ exists flat items src,
          flatten_schema depth (Schema.model_dump self) = Ok (flat, index)
          /\ dict_get_default "properties" (JObj []) flat = JObj items
          /\ In (name, JObj src) items
          /\ dict_get "type" src = Some (JStr t)
          /\ dict_get "inferenceType" src = Some (JStr i)
          /\ dict_get "instruction" src = Some (JStr s).
Proof.
  unfold Schema.flatten_for_optimization.
  destruct (flatten_schema depth (Schema.model_dump self)) as [[flat idx]|] eqn:Hflat;
    [|discriminate].
  cbn [bind].
  destruct (dict_get_default "properties" (JObj []) flat) as [| | | | |items] eqn:Hitems;
    try discriminate.
  cbn [py_items bind].
  destruct (Schema.convert_items items [] []) as [done lg] eqn:Hconv.
  destruct (Schema.init (filter not_properties flat) done) as [o|] eqn:Hinit;
    [|discriminate].
  cbn [bind]. intros [= <- <- <-] name leaf Hin.
  apply init_properties in Hinit.
  unfold dumped_properties in Hin. rewrite Hinit in Hin.
  apply in_map_iff in Hin. destruct Hin as ([n x] & [= <- <-] & Hin).
  destruct (convert_items_models _ _ _ _ _ Hconv _ _ Hin)
    as [[]|(v & p & Hv & Hp & ->)].
  destruct (init_source v p Hp) as (src & -> & Ht & Hi & Hs).
  exists (SchemaProperty.type p), (SchemaProperty.inferenceType p),
    (SchemaProperty.instruction p).
  split; [reflexivity|]. exists flat, items, src. auto 10.
Qed.

Lemma flattened_leaves_expose_three_fields_witness :
  In ("total", JObj [("type", JStr "number"); ("inferenceType", JStr "explicit");
                     ("instruction", JStr "Extract total")])
     (dumped_properties
        (Schema.mk "http://json-schema.org/draft-07/schema#" "An invoice" "invoice"
                   "object" []
                   [("customer.name",
                     Schema.Model (SchemaProperty.mk "string" "explicit" "Extract name"));
                    ("total",
                     Schema.Model (SchemaProperty.mk "number" "explicit" "Extract total"))]))
  /\ exists t i s,
      JObj [("type", JStr "number"); ("inferenceType", JStr "explicit");
            ("instruction", JStr "Extract total")]
      = JObj [("type", JStr t); ("inferenceType", JStr i); ("instruction", JStr s)].
Proof.
  split; [right; left; reflexivity|].
  destruct (flattened_leaves_expose_three_fields
              3 Examples.held _ _ _ eq_refl "total" _ (or_intror (or_introl eq_refl)))
    as (t & i & s & H & _).
  exists t, i, s. exact H.
Defined.
End OptimizationClaims.

(** ** The unflattener on compatible paths *)

Section Compatible.
Import PyStr SchemaFlattener SchemaUnflattener Nested.

Lemma part_eqb_eq a b : part_eqb a b = true <-> a = b.
Proof.
  destruct a as [x|x], b as [y|y]; cbn; rewrite ?String.eqb_eq;
    split; congruence.
Qed.

Lemma part_eqb_refl a : part_eqb a a = true.
Proof. now apply part_eqb_eq. Qed.

Lemma compatible_cons b p a r :
  compatible (b :: p) (a :: r) = true -> part_name b = part_name a ->
  b = a /\ compatible p r = true.
Proof.
  cbn [compatible]. intros H E. rewrite E, String.eqb_refl in H.
  apply andb_true_iff in H. destruct H as [H1 H2]. apply part_eqb_eq in H1. auto.
Qed.

Lemma compatible_nil_r p : compatible p [] = true -> p = [].
Proof. destruct p; [reflexivity|discriminate]. Qed.

Lemma compatible_nil_l q : compatible [] q = true -> q = [].
Proof. destruct q; [reflexivity|discriminate]. Qed.

Lemma In_tails a r paths : In r (tails a paths) <-> In (a :: r) paths /\ r <> [].
Proof.
  induction paths as [|[|b p] paths IH]; cbn [tails In].
  - tauto.
  - rewrite IH. split; [tauto|]. intros [[H|H] Hr]; [discriminate|tauto].
  - destruct (part_eqb a b && negb (is_nil p)) eqn:E.
    + apply andb_true_iff in E. destruct E as [E1 E2]. apply part_eqb_eq in E1.
      subst b. cbn [In]. rewrite IH. split.
      * intros [<-|[H1 H2]]; [|tauto]. split; auto. now destruct p.
      * intros [[H|H] Hr]; [injection H as <-|]; tauto.
    + rewrite IH. split; [tauto|]. intros [[H|H] Hr]; [|tauto].
      injection H as -> ->. rewrite part_eqb_refl in E. now destruct r.
Qed.

Lemma tails_none a paths :
  (forall r, In (a :: r) paths -> r = []) -> tails a paths = [].
Proof.
  intros H. destruct (tails a paths) as [|r t] eqn:E; [reflexivity|].
  assert (Hin : In r (tails a paths)) by (rewrite E; now left).
  apply In_tails in Hin. destruct Hin as [Hin Hr]. now apply H in Hin.
Qed.

Lemma tails_cons_other a b r paths :
  part_eqb a b && negb (is_nil r) = false ->
  tails a ((b :: r) :: paths) = tails a paths.
Proof. cbn [tails]. now intros ->. Qed.

Lemma tails_cons_same a r paths :
  r <> [] -> tails a ((a :: r) :: paths) = r :: tails a paths.
Proof.
  intros Hr. cbn [tails]. rewrite part_eqb_refl. now destruct r.
Qed.

Lemma keys_dict_set {V} k (v : V) d k' :
  In k' (keys (dict_set k v d)) -> k' = k \/ In k' (keys d).
Proof.
  unfold keys. rewrite !in_map_iff. intros ([k0 v0] & <- & H).
  apply In_dict_set in H. destruct H as [[-> _]|H]; auto.
  right. exists (k0, v0). auto.
Qed.

Lemma shaped_empty : shaped (JObj []) [].
Proof. constructor; [intros k []|intros n []|intros a r []]. Qed.

(** The level after a final segment has been written. *)
Lemma shaped_last a L L' paths :
  shaped (JObj L) paths ->
  (forall p, In p paths -> compatible p [a] = true) ->
  (forall k, In k (keys L') -> k = part_name a \/ In k (keys L)) ->
  (forall m, m <> part_name a -> dict_get m L' = dict_get m L) ->
  (forall n, a = Array n -> exists d, dict_get n L' = Some (JObj d)) ->
  shaped (JObj L') ([a] :: paths).
Proof.
  intros Hsh Hc Hkeys Hother Harr'.
  inversion Hsh as [L0 P0 Hk Harr Hsub]; subst.
  assert (Hname : forall b r, In (b :: r) paths -> r <> [] -> part_name b <> part_name a).
  { intros b r Hin Hr E. apply Hc in Hin.
    apply compatible_cons in Hin; auto. destruct Hin as [_ Hin].
    now apply compatible_nil_r in Hin. }
  constructor.
  - intros k Hin. apply Hkeys in Hin. destruct Hin as [->|Hin].
    + exists a, []. split; auto. now left.
    + destruct (Hk k Hin) as (b & r & Hb & E). exists b, r. split; auto. now right.
  - intros n [H|H].
    + injection H as ->. now apply Harr'.
    + destruct (String.eqb_spec n (part_name a)) as [E|E].
      * assert (Hca := Hc _ H). apply compatible_cons in Hca; auto.
        destruct Hca as [<- _]. now apply Harr'.
      * rewrite Hother by exact E. now apply Harr.
  - intros b r [H|H] Hr; [injection H as <- <-; congruence|].
    destruct (Hsub b r H Hr) as (M & HM & HshM).
    exists M. rewrite Hother by now apply (Hname b r).
    split; auto. rewrite tails_cons_other; auto. apply andb_false_r.
Qed.

(** The level after a segment has been passed through. *)
Lemma shaped_inner a r x L L' paths :
  shaped (JObj L) paths ->
  (forall p, In p paths -> compatible p (a :: r) = true) ->
  r <> [] ->
  (forall k, In k (keys L') -> k = part_name a \/ In k (keys L)) ->
  (forall m, m <> part_name a -> dict_get m L' = dict_get m L) ->
  dict_get (part_name a) L' = Some (wrap a x) ->
  shaped x (r :: tails a paths) ->
  shaped (JObj L') ((a :: r) :: paths).
Proof.
  intros Hsh Hc Hr Hkeys Hother Hget Hx.
  inversion Hsh as [L0 P0 Hk Harr Hsub]; subst.
  constructor.
  - intros k Hin. apply Hkeys in Hin. destruct Hin as [->|Hin].
    + exists a, r. split; auto. now left.
    + destruct (Hk k Hin) as (b & r' & Hb & E). exists b, r'. split; auto. now right.
  - intros n [H|H]; [injection H as -> ->; congruence|].
    assert (E : n <> part_name a).
    { intros E. assert (Hca := Hc _ H). apply compatible_cons in Hca; auto.
      destruct Hca as [_ Hca]. now apply compatible_nil_l in Hca. }
    rewrite Hother by exact E. now apply Harr.
  - intros b r' Hin Hr'.
    destruct (String.eqb_spec (part_name b) (part_name a)) as [E|E].
    + assert (b = a) as ->.
      { destruct Hin as [H|H]; [now injection H|].
        apply Hc in H. now apply compatible_cons in H. }
      exists x. split; auto. now rewrite tails_cons_same.
    + destruct Hin as [H|H]; [injection H as <- _; congruence|].
      destruct (Hsub b r' H Hr') as (M & HM & HshM).
      exists M. rewrite Hother by exact E. split; auto.
      rewrite tails_cons_other; auto.
      destruct (part_eqb b a) eqn:Eb; auto.
      apply part_eqb_eq in Eb. congruence.
Qed.
End Compatible.

Section Totality.
Import PyStr SchemaFlattener SchemaUnflattener Nested.

Lemma dict_get_some_keys {V} k (d : list (string * V)) v :
  dict_get k d = Some v -> In k (keys d).
Proof.
  intros H. destruct (in_dec String.string_dec k (keys d)) as [Hin|Hin]; auto.
  apply dict_get_none_keys in Hin. congruence.
Qed.

(** Walking a path that is compatible with the paths laid out so far
    succeeds, and the level then agrees with the paths including it. *)
Lemma walk_shaped q :
  forall v level paths,
    q <> [] -> shaped level paths ->
    (forall p, In p paths -> compatible p q = true) ->
    exists level', walk q v level = Ok level' /\ shaped level' (q :: paths).
Proof.
  induction q as [|a r IH]; intros v level paths Hq Hsh Hc; [congruence|].
  inversion Hsh as [L P0 Hk Harr Hsub]; subst.
  destruct r as [|b r'].
  - destruct a as [n|n]; cbn [walk is_nil].
    + eexists; split; [reflexivity|]. apply shaped_last with (L := L); auto.
      * intros k. apply keys_dict_set.
      * intros m Hm. now apply dict_get_set_other.
      * intros n0 [=].
    + assert (Hnode : exists d, dict_get n (ensure n array_node L) = Some (JObj d)).
      { unfold ensure, dict_mem. destruct (dict_get n L) as [node|] eqn:E.
        - rewrite E. destruct (Hk n (dict_get_some_keys _ _ _ E)) as (a0 & r0 & Hin & En).
          assert (Hc0 := Hc _ Hin). apply compatible_cons in Hc0; auto.
          destruct Hc0 as [-> Hr0]. apply compatible_nil_r in Hr0. subst.
          destruct (Harr n Hin) as [d Hd]. exists d. congruence.
        - rewrite dict_get_set_same. unfold array_node. eauto. }
      destruct Hnode as [d Hd]. unfold dict_getitem. rewrite Hd.
      cbn [bind py_setitem]. eexists; split; [reflexivity|].
      apply shaped_last with (L := L); auto.
      * intros k Hin. apply keys_dict_set in Hin. destruct Hin as [->|Hin]; [now left|].
        unfold ensure in Hin. destruct (dict_mem n L); auto.
        apply keys_dict_set in Hin. cbn. tauto.
      * intros m Hm. cbn [part_name] in Hm. rewrite dict_get_set_other by auto.
        unfold ensure. destruct (dict_mem n L); auto. now apply dict_get_set_other.
      * intros n0 [= <-]. rewrite dict_get_set_same. eauto.
  - remember (b :: r') as r eqn:Er.
    assert (Hr : r <> []) by (subst; discriminate). clear Er b r'.
    destruct (dict_get (part_name a) L) as [node|] eqn:E.
    + destruct (Hk _ (dict_get_some_keys _ _ _ E)) as (a0 & r0 & Hin & En).
      assert (Hc0 := Hc _ Hin). apply compatible_cons in Hc0; auto.
      destruct Hc0 as [-> Hr0].
      assert (Hr0' : r0 <> []).
      { intros ->. apply compatible_nil_l in Hr0. contradiction. }
      destruct (Hsub a r0 Hin Hr0') as (M & HM & HshM).
      rewrite walk_cons_present with (M := M); auto.
      destruct (IH v M (tails a paths)) as (x & Hx & Hshx); auto.
      { intros p Hp. apply In_tails in Hp. destruct Hp as [Hp _].
        apply Hc in Hp. now apply compatible_cons in Hp. }
      rewrite Hx. cbn [bind]. eexists; split; [reflexivity|].
      apply shaped_inner with (x := x) (L := L); auto.
      * intros k. apply keys_dict_set.
      * intros m Hm. now apply dict_get_set_other.
      * apply dict_get_set_same.
    + rewrite walk_cons_fresh by auto.
      set (L0 := L ++ [(part_name a, wrap a (JObj []))]).
      assert (HL0 : dict_get (part_name a) L0 = Some (wrap a (JObj []))).
      { unfold L0. rewrite dict_get_app, E. cbn. now rewrite String.eqb_refl. }
      rewrite walk_cons_present with (M := JObj []); auto.
      destruct (IH v (JObj []) [] Hr shaped_empty
                   (fun p (H : In p []) => match H with end)) as (x & Hx & Hshx).
      rewrite Hx. cbn [bind]. eexists; split; [reflexivity|].
      apply shaped_inner with (x := x) (L := L); auto.
      * intros k Hin. apply keys_dict_set in Hin. destruct Hin as [->|Hin]; auto.
        unfold L0, keys in Hin. rewrite map_app, in_app_iff in Hin. cbn in Hin.
        unfold keys. destruct Hin as [Hin|[Hin|[]]]; auto.
      * intros m Hm. rewrite dict_get_set_other by auto.
        unfold L0. rewrite dict_get_app. destruct (dict_get m L); auto.
        cbn. apply String.eqb_neq in Hm. now rewrite Hm.
      * apply dict_get_set_same.
      * rewrite tails_none; auto. intros r0 Hin. destruct r0 as [|c r0]; auto.
        destruct (Hsub a (c :: r0) Hin) as (M & HM & _); [discriminate|congruence].
Qed.

Lemma parse_flat_path_nonempty k : _parse_flat_path k <> [].
Proof.
  unfold _parse_flat_path. pose proof (split_dot_nonempty k).
  destruct (split_dot k); [congruence|discriminate].
Qed.

Lemma unflatten_items_total items :
  forall level paths,
    shaped level paths ->
    (forall p k, In p paths -> In k (keys items) ->
                 compatible p (_parse_flat_path k) = true) ->
    pairwise_compatible (map _parse_flat_path (keys items)) = true ->
    exists level', unflatten_items items level = Ok level'.
Proof.
  induction items as [|[k v] items IH]; intros level paths Hsh Hc Hpw.
  - eexists. reflexivity.
  - cbn [keys map fst pairwise_compatible] in Hpw.
    apply andb_true_iff in Hpw. destruct Hpw as [Hk Hpw].
    rewrite forallb_forall in Hk.
    destruct (walk_shaped (_parse_flat_path k) v level paths) as (l1 & Hw & Hsh1); auto.
    { apply parse_flat_path_nonempty. }
    { intros p Hp. apply Hc; auto. now left. }
    cbn [unflatten_items]. unfold _unflatten_property. rewrite Hw. cbn [bind].
    apply (IH l1 (_parse_flat_path k :: paths)); auto.
    intros p k' [<-|Hp] Hk'.
    + apply Hk. now apply in_map.
    + apply Hc; auto. now right.
Qed.

(** C2, as amended.  On a flat document whose [properties] (if present) is
    a mapping from paths to arbitrary nodes, [unflatten_schema] returns a
    document, whatever the path index, provided any two of the parsed paths
    are compatible: segment for segment equal, or parting ways at a
    position where the two names differ.  (When one path is a proper prefix
    of another, or a name is written both as a property and as an array
    segment, the call can raise [KeyError].) *)
Theorem unflatten_schema_total_on_compatible_paths
        (flat : dict) (index : list (string * string)) (items : dict) :
  dict_get_default "properties" (JObj []) flat = JObj items ->
  pairwise_compatible (map _parse_flat_path (keys items)) = true ->
  exists R, unflatten_schema flat index = Ok R.
Proof.
  intros Hitems Hpw. unfold unflatten_schema.
  destruct index as [|e index]; [eauto|].
  rewrite Hitems. cbn [py_items bind].
  destruct (unflatten_items_total items (JObj []) [] shaped_empty
              (fun p k (H : In p []) _ => match H with end) Hpw) as (l & Hl).
  rewrite Hl. cbn [bind]. eauto.
Qed.

Lemma unflatten_schema_total_on_compatible_paths_witness :
  exists R, unflatten_schema Examples.compatible_doc [("total", "total")] = Ok R.
Proof.
  apply (unflatten_schema_total_on_compatible_paths
           Examples.compatible_doc [("total", "total")]
           [("order.lines[*].price", Examples.field "Extract price");
            ("order.lines[*].name", JStr "not a mapping");
            ("order.tags[*]", Examples.field "Extract tags");
            ("order..note", JNull);
            ("total", Examples.field "Extract total")]);
    reflexivity.
Defined.
End Totality.


(** * Further properties of the converter *)

(** ** The flattener on arbitrary documents *)

Section FlattenerFacts.
Import PyStr SchemaFlattener SchemaUnflattener Nested Rewrite.

Lemma mirror_dict_set k v (d : dict) :
  map (fun e => (fst e, fst e)) (dict_set k v d)
  = dict_set k k (map (fun e => (fst e, fst e)) d).
Proof.
  induction d as [|[k0 v0] d IH]; [reflexivity|].
  cbn [dict_set map fst]. destruct (String.eqb_spec k k0) as [->|]; cbn [map fst];
    [reflexivity|].
  now rewrite IH.
Qed.

(** Every entry of the path index maps a flat path to itself, and after a
    transformation the index lists exactly the paths of the flat properties,
    in their order. *)
Theorem flatten_index_mirrors_properties
        (depth : nat) (D flat : dict) (index : list (string * string)) :
  flatten_schema depth D = Ok (flat, index) ->
  (forall k v, In (k, v) index -> v = k)
  /\ (is_nested_schema D = Ok true ->
      exists items, dict_get "properties" flat = Some (JObj items)
                    /\ index = map (fun e => (fst e, fst e)) items).
Proof.
  unfold flatten_schema. destruct (is_nested_schema D) as [[|]|] eqn:N;
    cbn [bind]; try discriminate.
  - destruct (match dict_get "properties" D with
              | Some properties =>
                  _flatten_properties depth
                    (dict_get_default "definitions" (JObj []) D) properties "" ([], [])
              | None => Ok ([], [])
              end) as [st|] eqn:E; [|discriminate].
    cbn [bind]. intros [= <- <-].
    assert (Hst : snd st = map (fun e => (fst e, fst e)) (fst st)).
    { destruct (dict_get "properties" D) as [pv|]; [|now injection E as <-].
      revert E.
      apply (flatten_properties_invariant
               (fun st => snd st = map (fun e => (fst e, fst e)) (fst st)));
        [|reflexivity].
      intros path v st0 H. cbn [add_leaf fst snd]. unfold _build_nested_path.
      now rewrite H, mirror_dict_set. }
    split.
    + intros k v Hin. rewrite Hst in Hin. apply in_map_iff in Hin.
      now destruct Hin as (e & [= <- <-] & _).
    + intros _. exists (fst st). split; [apply dict_get_set_same|exact Hst].
  - intros [= <- <-]. split; [intros k v []|discriminate].
Qed.

Lemma flatten_index_mirrors_properties_witness :
  exists items,
    dict_get "properties"
      [("$schema", JStr "http://json-schema.org/draft-07/schema#");
       ("properties",
        JObj [("order.customer.contacts[*].value", Examples.field "Extract value");
              ("order.customer.name", Examples.field "Extract name");
              ("order.id", Examples.field "Extract id");
              ("total", Examples.field "Extract total")]);
       ("class", JStr "order")]
    = Some (JObj items)
    /\ [("order.customer.contacts[*].value", "order.customer.contacts[*].value");
        ("order.customer.name", "order.customer.name");
        ("order.id", "order.id"); ("total", "total")]
       = map (fun e => (fst e, fst e)) items.
Proof.
  exact (proj2 (flatten_index_mirrors_properties 4 Examples.order_doc _ _ eq_refl) eq_refl).
Defined.

Lemma keys_dict_set_present {V} k (v x : V) d :
  dict_get k d = Some x -> keys (dict_set k v d) = keys d.
Proof.
  induction d as [|[k0 v0] d IH]; cbn [dict_get dict_set]; [discriminate|].
  destruct (String.eqb k k0); intros E; cbn [keys map fst]; [reflexivity|].
  f_equal. now apply IH.
Qed.

(** [flatten_schema] returns a document with the keys of its input in the
    same order, and with every entry other than [properties] untouched. *)
Theorem flatten_schema_keeps_metadata
        (depth : nat) (D flat : dict) (index : list (string * string)) :
  flatten_schema depth D = Ok (flat, index) ->
  keys flat = keys D
  /\ (forall k, k <> "properties" -> dict_get k flat = dict_get k D).
Proof.
  unfold flatten_schema, is_nested_schema.
  destruct (dict_get "properties" D) as [pv|] eqn:HD; cbn [bind].
  - destruct (_has_nested_properties pv) as [[|]|]; cbn [bind]; try discriminate.
    + destruct (_flatten_properties depth _ pv "" ([], [])) as [st|];
        [|discriminate].
      cbn [bind]. intros [= <- <-]. split.
      * now apply keys_dict_set_present with (x := pv).
      * intros k Hk. now apply dict_get_set_other.
    + intros [= <- <-]. auto.
  - intros [= <- <-]. auto.
Qed.

Lemma flatten_schema_keeps_metadata_witness :
  keys [("$schema", JStr "http://json-schema.org/draft-07/schema#");
        ("properties",
         JObj [("order.customer.contacts[*].value", Examples.field "Extract value");
               ("order.customer.name", Examples.field "Extract name");
               ("order.id", Examples.field "Extract id");
               ("total", Examples.field "Extract total")]);
        ("class", JStr "order")]
  = keys Examples.order_doc.
Proof.
  exact (proj1 (flatten_schema_keeps_metadata 4 Examples.order_doc _ _ eq_refl)).
Defined.

Lemma flatten_loop_skips_non_mappings recurse definitions prefix items :
  forall st,
    flatten_loop recurse definitions prefix items st
    = flatten_loop recurse definitions prefix (filter is_mapping_entry items) st.
Proof.
  induction items as [|[k v] items IH]; intros st; [reflexivity|].
  cbn [filter]. unfold is_mapping_entry at 1. cbn [snd].
  destruct v as [| | | | |d]; cbn [is_dict flatten_loop];
    try (cbn [flatten_property bind]; apply IH).
  destruct (flatten_property recurse definitions prefix k (JObj d) st); cbn [bind];
    [apply IH|reflexivity].
Qed.

Lemma has_nested_items_mappings items :
  has_nested_items (filter is_mapping_entry items) = has_nested_items items.
Proof.
  induction items as [|[k v] items IH]; [reflexivity|].
  cbn [filter]. unfold is_mapping_entry at 1. cbn [snd].
  destruct v; cbn [is_dict has_nested_items nested_property]; auto.
  now rewrite IH.
Qed.

(** When the document is nested, a property whose value is not a mapping
    is skipped: the outcome is that of the document without such
    properties, so they are absent from the flat document. *)
Theorem flatten_schema_drops_non_mappings (depth : nat) (D props : dict) :
  dict_get "properties" D = Some (JObj props) ->
  is_nested_schema D = Ok true ->
  flatten_schema depth D
  = flatten_schema depth
      (dict_set "properties" (JObj (filter is_mapping_entry props)) D).
Proof.
  intros HD HN. unfold flatten_schema. rewrite HN. cbn [bind].
  unfold is_nested_schema in *. rewrite HD in HN. rewrite dict_get_set_same.
  unfold _has_nested_properties in *. cbn [py_items bind] in *.
  rewrite has_nested_items_mappings. injection HN as ->. cbn [bind].
  rewrite HD. unfold dict_get_default.
  rewrite dict_get_set_other by discriminate.
  destruct depth as [|d]; [reflexivity|].
  cbn [_flatten_properties py_items bind].
  rewrite <- flatten_loop_skips_non_mappings.
  destruct (flatten_loop _ _ "" props ([], [])) as [st|]; cbn [bind]; [|reflexivity].
  now rewrite dict_set_set.
Qed.

Lemma flatten_schema_drops_non_mappings_witness :
  flatten_schema 2 [("properties",
                     JObj [("count", JNum 3);
                           ("a", obj [("b", Examples.field "Extract b")]);
                           ("note", JStr "free text")])]
  = Ok ([("properties", JObj [("a.b", Examples.field "Extract b")])], [("a.b", "a.b")]).
Proof.
  rewrite (flatten_schema_drops_non_mappings
             2 _ [("count", JNum 3);
                  ("a", obj [("b", Examples.field "Extract b")]);
                  ("note", JStr "free text")]); reflexivity.
Defined.
End FlattenerFacts.

Section DepthAndDuplicates.
Import PyStr SchemaFlattener SchemaUnflattener Nested.

Lemma flatten_property_mono rec1 rec2 definitions prefix name v st r :
  (forall sub path st0 r0,
      rec1 sub path st0 = r0 -> r0 <> Raise RecursionError -> rec2 sub path st0 = r0) ->
  flatten_property rec1 definitions prefix name v st = r ->
  r <> Raise RecursionError ->
  flatten_property rec2 definitions prefix name v st = r.
Proof.
  intros Hrec. unfold flatten_property, bind, dict_getitem, py_getitem, py_in.
  repeat match goal with
         | |- context [match ?x with _ => _ end] => destruct x eqn:?
         end; auto.
Qed.

Lemma flatten_loop_mono rec1 rec2 definitions prefix items :
  (forall sub path st0 r0,
      rec1 sub path st0 = r0 -> r0 <> Raise RecursionError -> rec2 sub path st0 = r0) ->
  forall st r,
    flatten_loop rec1 definitions prefix items st = r ->
    r <> Raise RecursionError ->
    flatten_loop rec2 definitions prefix items st = r.
Proof.
  intros Hrec. induction items as [|[k v] items IH]; intros st r; [auto|].
  cbn [flatten_loop].
  destruct (flatten_property rec1 definitions prefix k v st) as [st1|e] eqn:E;
    cbn [bind]; intros Hr Hs.
  - rewrite (flatten_property_mono rec1 rec2 _ _ _ _ _ _ Hrec E) by discriminate.
    cbn [bind]. now apply IH.
  - subst r. now rewrite (flatten_property_mono rec1 rec2 _ _ _ _ _ _ Hrec E).
Qed.

Lemma flatten_properties_mono d :
  forall d' definitions properties prefix st r,
    d <= d' ->
    _flatten_properties d definitions properties prefix st = r ->
    r <> Raise RecursionError ->
    _flatten_properties d' definitions properties prefix st = r.
Proof.
  induction d as [|d IH]; intros d' defs props prefix st r Hle; cbn [_flatten_properties].
  - intros <- H. congruence.
  - destruct d' as [|d']; [lia|]. cbn [_flatten_properties].
    destruct (py_items props) as [items|e]; cbn [bind]; [|auto].
    apply flatten_loop_mono. intros sub path st0 r0. apply IH. lia.
Qed.

(** An outcome of [flatten_schema] other than [RecursionError] does not
    depend on the recursion depth available: with more depth the call
    returns the same document and index, or raises the same exception. *)
Theorem flatten_schema_depth_monotone (d d' : nat) (D : dict)
        (r : result (dict * list (string * string))) :
  d <= d' ->
  flatten_schema d D = r -> r <> Raise RecursionError ->
  flatten_schema d' D = r.
Proof.
  intros Hle. unfold flatten_schema.
  destruct (is_nested_schema D) as [[|]|]; cbn [bind]; auto.
  destruct (dict_get "properties" D) as [pv|]; auto.
  destruct (_flatten_properties d _ pv "" ([], [])) as [st|e] eqn:E; cbn [bind];
    intros <- Hs.
  - now rewrite (flatten_properties_mono d d' _ _ _ _ _ Hle E).
  - rewrite (flatten_properties_mono d d' _ _ _ _ _ Hle E); [reflexivity|].
    intros H. apply Hs. now injection H as ->.
Qed.

Lemma flatten_schema_depth_monotone_witness :
  flatten_schema 1000 Examples.order_doc = flatten_schema 4 Examples.order_doc.
Proof.
  apply (flatten_schema_depth_monotone 4 1000 Examples.order_doc);
    [lia|reflexivity|discriminate].
Defined.

(** Two properties that flatten to the same path leave a single flat entry:
    it stands where the first was recorded and holds the node recorded
    last, and the index has one entry for the path. *)
Theorem flatten_duplicate_path_last_wins
        (depth : nat) (D : dict) (a b : string) (first last : json) :
  a <> "" -> is_leaf first = true -> is_leaf last = true ->
  dict_get "properties" D
  = Some (JObj [((a ++ "." ++ b)%string, first); (a, obj [(b, last)])]) ->
  2 <= depth ->
  flatten_schema depth D
  = Ok (dict_set "properties" (JObj [((a ++ "." ++ b)%string, last)]) D,
        [((a ++ "." ++ b)%string, (a ++ "." ++ b)%string)]).
Proof.
  intros Ha Hf Hl HD Hd. unfold flatten_schema, is_nested_schema. rewrite HD.
  destruct depth as [|[|d]]; try lia.
  cbn [_has_nested_properties py_items bind has_nested_items].
  assert (Hnf : nested_property first = false).
  { unfold is_leaf in Hf. apply andb_true_iff in Hf. destruct Hf as [_ Hf].
    now apply negb_true_iff in Hf. }
  rewrite Hnf. change (nested_property (obj [(b, last)])) with true. cbv iota.
  cbn [_flatten_properties py_items bind flatten_loop].
  rewrite flatten_property_leaf by assumption. cbn [bind].
  rewrite (flatten_property_object _ _ false).
  cbn [_flatten_properties py_items bind flatten_loop].
  rewrite flatten_property_leaf by assumption. cbn [bind].
  rewrite !join_path_empty. destruct a as [|ch a]; [congruence|].
  cbn [join_path add_leaf fst snd dict_set _build_nested_path].
  rewrite !String.eqb_refl. reflexivity.
Qed.

Lemma flatten_duplicate_path_last_wins_witness :
  flatten_schema 2 [("properties",
                     JObj [("a.b", Examples.field "first");
                           ("a", obj [("b", Examples.field "last")])])]
  = Ok ([("properties", JObj [("a.b", Examples.field "last")])], [("a.b", "a.b")]).
Proof.
  apply (flatten_duplicate_path_last_wins
           2 [("properties",
               JObj [("a.b", Examples.field "first");
                     ("a", obj [("b", Examples.field "last")])])]
           "a" "b" (Examples.field "first") (Examples.field "last"));
    [discriminate|reflexivity|reflexivity|reflexivity|lia].
Defined.
End DepthAndDuplicates.

(** ** References to definitions *)

Section References.
Import PyStr SchemaFlattener SchemaUnflattener Nested.








End References.

Section ReferenceEdges.
Import PyStr SchemaFlattener SchemaUnflattener Nested.

(** A reference that does not point into the definitions, names a
    definition that is not there, or names one without [properties] leaves
    the referring node a terminal leaf, recorded verbatim under its path. *)
Theorem unresolved_ref_is_terminal
        (depth : nat) (definitions : json) (name ref prefix : string) (d : dict) (st : acc) :
  dict_get "$ref" d = Some (JStr ref) ->
  (startswith "#/definitions/" ref = false
   \/ exists defs,
      definitions = JObj defs
      /\ (dict_get (replace "%20" " " (replace "#/definitions/" "" ref)) defs = None
          \/ exists v,
             dict_get (replace "%20" " " (replace "#/definitions/" "" ref)) defs = Some v
             /\ forall dd, v = JObj dd -> dict_get "properties" dd = None)) ->
  _flatten_properties (S depth) definitions (JObj [(name, JObj d)]) prefix st
  = Ok (add_leaf (join_path prefix name) (JObj d) st).
Proof.
  intros Href H. cbn [_flatten_properties py_items bind flatten_loop].
  unfold flatten_property. rewrite Href.
  destruct (startswith "#/definitions/" ref) eqn:S; [|reflexivity].
  destruct H as [H|(defs & -> & H)]; [discriminate|].
  cbn [py_in py_getitem bind]. unfold dict_mem, dict_getitem.
  destruct H as [->|(v & -> & Hv)]; [reflexivity|].
  cbn [bind]. destruct v as [| | | | |dd]; try reflexivity.
  now rewrite (Hv dd eq_refl).
Qed.

Lemma unresolved_ref_is_terminal_witness :
  _flatten_properties 1 (JObj [("Address", JObj [("type", JStr "object")])])
    (JObj [("billing", JObj [("$ref", JStr "#/definitions/Address")])]) "order" ([], [])
  = Ok ([("order.billing", JObj [("$ref", JStr "#/definitions/Address")])],
        [("order.billing", "order.billing")]).
Proof.
  apply (unresolved_ref_is_terminal
           0 (JObj [("Address", JObj [("type", JStr "object")])])
           "billing" "#/definitions/Address" "order"
           [("$ref", JStr "#/definitions/Address")] ([], []));
    [reflexivity|].
  right. exists [("Address", JObj [("type", JStr "object")])]. split; [reflexivity|].
  right. exists (JObj [("type", JStr "object")]). split; [reflexivity|].
  now intros dd [= <-].
Defined.

Lemma flatten_loop_terminal recurse definitions prefix pre :
  forallb (fun e => negb (is_dict (snd e)) || is_leaf (snd e)) pre = true ->
  forall st, exists st', flatten_loop recurse definitions prefix pre st = Ok st'.
Proof.
  induction pre as [|[k v] pre IH]; intros H st; [now exists st|].
  cbn [forallb snd] in H. apply andb_true_iff in H. destruct H as [Hv Hpre].
  cbn [flatten_loop]. destruct (is_leaf v) eqn:L.
  - rewrite flatten_property_leaf by assumption. cbn [bind]. now apply IH.
  - rewrite orb_false_r in Hv. apply negb_true_iff in Hv.
    destruct v; try discriminate; cbn [flatten_property bind]; now apply IH.
Qed.

Lemma has_nested_with_ref pre name d rest v :
  dict_get "$ref" d = Some v ->
  has_nested_items (pre ++ (name, JObj d) :: rest) = true.
Proof.
  intros H. rewrite has_nested_items_app. cbn [has_nested_items].
  unfold nested_property, dict_mem. rewrite H. apply orb_true_r.
Qed.

(** A [$ref] whose value is not a string makes [flatten_schema] raise
    [AttributeError] (the properties before it being terminal). *)
Theorem non_string_ref_raises
        (depth : nat) (D pre rest d : dict) (name : string) (v : json) :
  dict_get "properties" D = Some (JObj (pre ++ (name, JObj d) :: rest)) ->
  forallb (fun e => negb (is_dict (snd e)) || is_leaf (snd e)) pre = true ->
  dict_get "$ref" d = Some v ->
  (forall s, v <> JStr s) ->
  flatten_schema (S depth) D = Raise AttributeError.
Proof.
  intros HD Hpre Href Hv. unfold flatten_schema, is_nested_schema. rewrite HD.
  unfold _has_nested_properties. cbn [py_items bind].
  rewrite (has_nested_with_ref pre name d rest v Href). cbn [bind].
  cbn [_flatten_properties py_items bind]. rewrite flatten_loop_app.
  destruct (flatten_loop_terminal
              (_flatten_properties depth (dict_get_default "definitions" (JObj []) D))
              (dict_get_default "definitions" (JObj []) D) "" pre Hpre ([], []))
    as [st ->].
  cbn [bind flatten_loop]. unfold flatten_property. rewrite Href.
  destruct v; try reflexivity. now destruct (Hv s).
Qed.

Lemma non_string_ref_raises_witness :
  flatten_schema 5 [("properties",
                     JObj [("total", Examples.field "Extract total");
                           ("count", JNum 2);
                           ("billing", JObj [("$ref", JObj [("to", JStr "Address")])])])]
  = Raise AttributeError.
Proof.
  apply (non_string_ref_raises
           4 _ [("total", Examples.field "Extract total"); ("count", JNum 2)] []
           [("$ref", JObj [("to", JStr "Address")])] "billing"
           (JObj [("to", JStr "Address")]));
    [reflexivity|reflexivity|reflexivity|discriminate].
Defined.



End ReferenceEdges.

(** ** The unflattener: metadata, plain keys, rewritten leaves *)

Section UnflattenerFacts.
Import PyStr SchemaFlattener SchemaUnflattener Nested Rewrite.

Lemma dict_get_properties_filtered (d : dict) :
  dict_get "properties" (filter not_properties d) = None.
Proof.
  induction d as [|[k v] d IH]; [reflexivity|].
  cbn [filter]. unfold not_properties at 1. cbn [fst].
  destruct (String.eqb k "properties") eqn:E; cbn [negb]; auto.
  cbn [dict_get]. now rewrite String.eqb_sym, E.
Qed.

Lemma unflatten_schema_nonempty flat index :
  index <> [] ->
  unflatten_schema flat index
  = (items <- py_items (dict_get_default "properties" (JObj []) flat) ;;
     nested_properties <- unflatten_items items (JObj []) ;;
     Ok (filter not_properties flat ++ [("properties", nested_properties)])).
Proof.
  intros H. destruct index as [|e index]; [congruence|].
  unfold unflatten_schema, bind.
  destruct (py_items _); auto. destruct (unflatten_items _ _); auto.
  now rewrite dict_set_fresh by apply dict_get_properties_filtered.
Qed.

(** With a non-empty index, on a flat document whose parsed paths are
    pairwise compatible (so that every node written through is one the
    call has created itself), [unflatten_schema] returns the entries of
    the flat document other than [properties], unchanged and in their
    order, followed by the rebuilt [properties]. *)
Theorem unflatten_schema_keeps_metadata
        (flat items : dict) (index : list (string * string)) :
  index <> [] ->
  dict_get_default "properties" (JObj []) flat = JObj items ->
  pairwise_compatible (map _parse_flat_path (keys items)) = true ->
  exists nested_properties,
    unflatten_schema flat index
    = Ok (filter not_properties flat ++ [("properties", nested_properties)]).
Proof.
  intros Hi Hitems Hpw. rewrite unflatten_schema_nonempty by assumption.
  rewrite Hitems. cbn [py_items bind].
  destruct (unflatten_items_total items (JObj []) [] shaped_empty
              (fun p k (H : In p []) _ => match H with end) Hpw) as (np & ->).
  cbn [bind]. now exists np.
Qed.

Lemma unflatten_schema_keeps_metadata_witness :
  exists nested_properties,
    unflatten_schema Examples.compatible_doc [("total", "total")]
    = Ok (filter not_properties Examples.compatible_doc
          ++ [("properties", nested_properties)]).
Proof.
  apply (unflatten_schema_keeps_metadata
           Examples.compatible_doc
           [("order.lines[*].price", Examples.field "Extract price");
            ("order.lines[*].name", JStr "not a mapping");
            ("order.tags[*]", Examples.field "Extract tags");
            ("order..note", JNull);
            ("total", Examples.field "Extract total")]
           [("total", "total")]);
    [discriminate|reflexivity|reflexivity].
Defined.

Lemma fold_dict_set_fresh {V} (items : list (string * V)) :
  forall done,
    NoDup (keys done ++ keys items) ->
    fold_left (fun d e => dict_set (fst e) (snd e) d) items done = done ++ items.
Proof.
  induction items as [|[k v] items IH]; intros done Hnd.
  - cbn. now rewrite app_nil_r.
  - cbn [fold_left fst snd]. cbn [keys map fst] in Hnd.
    rewrite dict_set_fresh.
    + rewrite IH; [now rewrite <- app_assoc|].
      unfold keys in *. rewrite map_app, <- app_assoc. exact Hnd.
    + apply dict_get_none_keys. apply NoDup_remove_2 in Hnd.
      intros Hin. apply Hnd. apply in_or_app. now left.
Qed.

Lemma parse_plain_key k :
  contains "." k = false -> contains "[*]" k = false ->
  _parse_flat_path k = [Property k].
Proof.
  intros H1 H2. unfold _parse_flat_path. rewrite split_dot_free by assumption.
  cbn [map]. unfold parse_segment. now rewrite H2.
Qed.

Lemma unflatten_items_plain items :
  forallb (fun e => negb (contains "." (fst e)) && negb (contains "[*]" (fst e))) items
  = true ->
  forall L,
    unflatten_items items (JObj L)
    = Ok (JObj (fold_left (fun d e => dict_set (fst e) (snd e) d) items L)).
Proof.
  induction items as [|[k v] items IH]; intros H L; [reflexivity|].
  cbn [forallb fst] in H. rewrite !andb_true_iff, !negb_true_iff in H.
  destruct H as [[H1 H2] H].
  cbn [unflatten_items]. unfold _unflatten_property.
  rewrite parse_plain_key by assumption. cbn [walk is_nil bind fold_left fst snd].
  now apply IH.
Qed.

(** On a flat document whose paths have neither ['.'] nor ["[*]"],
    [unflatten_schema] with a non-empty index leaves the properties as they
    are; only the [properties] entry moves to the end of the document. *)
Theorem unflatten_plain_keys_identity
        (flat items : dict) (index : list (string * string)) :
  index <> [] ->
  dict_get "properties" flat = Some (JObj items) ->
  NoDup (keys items) ->
  forallb (fun e => negb (contains "." (fst e)) && negb (contains "[*]" (fst e))) items
  = true ->
  unflatten_schema flat index
  = Ok (filter not_properties flat ++ [("properties", JObj items)]).
Proof.
  intros Hi Hp Hnd Hplain. rewrite unflatten_schema_nonempty by assumption.
  unfold dict_get_default. rewrite Hp. cbn [py_items bind].
  rewrite unflatten_items_plain by assumption. cbn [bind].
  now rewrite fold_dict_set_fresh.
Qed.

Lemma unflatten_plain_keys_identity_witness :
  unflatten_schema Examples.flat_doc [("total", "total")]
  = Ok [("description", JStr "invoice");
        ("properties",
         JObj [("total", Examples.field "Extract total");
               ("tags", JObj [("type", JStr "array");
                              ("items", JObj [("type", JStr "string")])]);
               ("meta", JObj [("type", JStr "object")])])].
Proof.
  apply (unflatten_plain_keys_identity
           Examples.flat_doc
           [("total", Examples.field "Extract total");
            ("tags", JObj [("type", JStr "array");
                           ("items", JObj [("type", JStr "string")])]);
            ("meta", JObj [("type", JStr "object")])]
           [("total", "total")]);
    [discriminate|reflexivity| |reflexivity].
  repeat constructor; simpl; intuition discriminate.
Defined.

(** Flattening a nested well-formed tree gives one flat entry for each
    terminal node, in traversal order and under distinct keys; each key is
    parsed by [_parse_flat_path] into the segments that lead to its node,
    which is stored verbatim. *)
Theorem flat_keys_parse_to_leaf_paths
        (depth : nat) (D : dict) (props : list (string * tree)) :
  wf_props props = true ->
  props_height props < depth ->
  dict_get "properties" D = Some (JObj (props_to_json props)) ->
  is_nested_schema D = Ok true ->
  exists flat index items,
    flatten_schema depth D = Ok (flat, index)
    /\ dict_get "properties" flat = Some (JObj items)
    /\ NoDup (keys items)
    /\ map (fun e => (_parse_flat_path (fst e), snd e)) items = props_leaves props.
Proof.
  intros Hwf Hh HD HN.
  assert (Hn : has_nested_items (props_to_json props) = true).
  { unfold is_nested_schema in HN. rewrite HD in HN.
    unfold _has_nested_properties in HN. cbn [py_items bind] in HN. congruence. }
  rewrite (flatten_schema_tree depth D props Hwf Hh HD Hn).
  eexists. eexists. exists (flat_entries "" props).
  split; [reflexivity|]. split; [apply dict_get_set_same|].
  split; [now apply flat_entries_NoDup|].
  rewrite flat_entries_root, map_map. cbn [fst snd].
  rewrite <- (map_id (props_leaves props)) at 2. apply map_ext_in.
  intros [p v] Hin. cbn [fst snd].
  now rewrite parse_render by apply (props_leaves_good props Hwf _ Hin).
Qed.

Lemma flat_keys_parse_to_leaf_paths_witness :
  map (fun e => (_parse_flat_path (fst e), snd e))
      [("order.customer.contacts[*].value", Examples.field "Extract value");
       ("order.customer.name", Examples.field "Extract name");
       ("order.id", Examples.field "Extract id");
       ("total", Examples.field "Extract total")]
  = props_leaves Examples.order_props.
Proof.
  destruct (flat_keys_parse_to_leaf_paths 4 Examples.order_doc Examples.order_props)
    as (flat & index & items & H1 & H2 & _ & H3);
    [reflexivity|cbn; lia|reflexivity|reflexivity|].
  injection H1 as <- <-. injection H2 as <-. exact H3.
Defined.
End UnflattenerFacts.

Section RewrittenLeaves.
Import PyStr SchemaFlattener SchemaUnflattener Nested Rewrite.

Lemma relabel_props_cons g prefix k t ps :
  relabel_props g prefix ((k, t) :: ps)
  = (k, relabel_at g (prefix ++ [part_of k t]) t) :: relabel_props g prefix ps.
Proof. reflexivity. Qed.

Lemma part_of_relabel g prefix k t : part_of k (relabel_at g prefix t) = part_of k t.
Proof. now destruct t. Qed.

Lemma keys_relabel g prefix ps : keys (relabel_props g prefix ps) = keys ps.
Proof.
  unfold relabel_props, keys. rewrite map_map. apply map_ext. now intros [k t].
Qed.

Lemma props_leaves_relabel g ps :
  forall prefix,
    props_leaves (relabel_props g prefix ps)
    = map (fun e => (fst e, g (render (prefix ++ fst e)) (snd e))) (props_leaves ps).
Proof.
  assert (Hpush : forall a prefix (l : list (list part * json)),
             map (push a) (map (fun e => (fst e, g (render ((prefix ++ [a]) ++ fst e)) (snd e))) l)
             = map (fun e => (fst e, g (render (prefix ++ fst e)) (snd e))) (map (push a) l)).
  { intros a prefix l. rewrite !map_map. apply map_ext. intros [p v].
    cbn [push fst snd]. now rewrite <- app_assoc. }
  induction ps as [|k node ps IH|k s sub ps IHsub IH|k s si sub ps IHsub IH]
    using props_induction; intros prefix; [reflexivity| | |];
    rewrite relabel_props_cons, !props_leaves_cons, map_app, part_of_relabel, IH;
    f_equal; try reflexivity.
  - cbn [relabel_at leaves part_of].
    change (flat_map _ sub) with (props_leaves sub).
    change (flat_map _ (map _ sub))
      with (props_leaves (relabel_props g (prefix ++ [Property k]) sub)).
    now rewrite IHsub, Hpush.
  - cbn [relabel_at leaves part_of].
    change (flat_map _ sub) with (props_leaves sub).
    change (flat_map _ (map _ sub))
      with (props_leaves (relabel_props g (prefix ++ [Array k]) sub)).
    now rewrite IHsub, Hpush.
Qed.

Lemma flat_entries_relabel g ps :
  flat_entries "" (relabel_props g [] ps) = relabel_flat g (flat_entries "" ps).
Proof.
  rewrite !flat_entries_root, props_leaves_relabel. unfold relabel_flat.
  rewrite !map_map. apply map_ext. now intros [p v].
Qed.

Lemma wf_props_intro k t ps :
  good_name k = true -> wf t = true -> dict_get k ps = None -> wf_props ps = true ->
  wf_props ((k, t) :: ps) = true.
Proof.
  intros Hk Ht Hf H. unfold wf_props, keys in *.
  apply andb_true_iff in H. destruct H as [Hd Hall].
  cbn [map fst distinct forallb].
  rewrite Hk, Ht, Hd, Hall. cbn [andb]. rewrite !andb_true_r. apply negb_true_iff.
  apply not_true_iff_false. intros Hex. apply existsb_exists in Hex.
  destruct Hex as (x & Hin & E). apply String.eqb_eq in E. subst x.
  now apply dict_get_none_keys in Hf.
Qed.

Lemma wf_node_intro t props :
  node_props t = Some props -> props <> [] -> wf_props props = true -> wf t = true.
Proof.
  destruct t as [node|s ps|s si ps]; cbn [node_props wf]; intros [= <-] Hne H;
    unfold wf_props in H; apply andb_true_iff in H; destruct H as [-> ->];
    now destruct ps.
Qed.

Lemma wf_relabel g ps :
  (forall k x, is_leaf x = true -> is_leaf (g k x) = true) ->
  wf_props ps = true -> forall prefix, wf_props (relabel_props g prefix ps) = true.
Proof.
  intros Hg.
  induction ps as [|k node ps IH|k s sub ps IHsub IH|k s si sub ps IHsub IH]
    using props_induction; intros Hwf prefix; [reflexivity| | |];
    apply wf_props_cons in Hwf; destruct Hwf as (Hk & Ht & Hfresh & Hps);
    rewrite relabel_props_cons; apply wf_props_intro; auto;
    try (apply dict_get_none_keys; rewrite keys_relabel;
         now apply dict_get_none_keys).
  - cbn [relabel_at wf] in *. now apply Hg.
  - apply wf_node_props with (props := sub) in Ht; [|reflexivity].
    destruct Ht as [Hne Hsub].
    apply wf_node_intro with (props := relabel_props g (prefix ++ [Property k]) sub);
      [reflexivity| |now apply IHsub].
    destruct sub; [congruence|discriminate].
  - apply wf_node_props with (props := sub) in Ht; [|reflexivity].
    destruct Ht as [Hne Hsub].
    apply wf_node_intro with (props := relabel_props g (prefix ++ [Array k]) sub);
      [reflexivity| |now apply IHsub].
    destruct sub; [congruence|discriminate].
Qed.

Lemma set_instruction_leaf field_name instruction k x :
  is_leaf x = true -> is_leaf (set_instruction field_name instruction k x) = true.
Proof.
  unfold set_instruction. destruct (String.eqb k field_name); auto.
  destruct x as [| | | | |d]; auto. unfold is_leaf. cbn [is_dict andb].
  unfold nested_property, dict_mem, dict_get_default.
  now rewrite !dict_get_set_other by discriminate.
Qed.

(** Rewriting the leaves of the flat document between flattening and
    unflattening rewrites the terminal nodes of the tree and nothing else:
    for a nested well-formed tree and a rewriting [g] of leaves (by flat
    path) that keeps them terminal, unflattening the rewritten flat
    document gives the metadata of [D] followed by the tree of [D] with [g]
    applied at each terminal node. *)
Theorem unflatten_carries_rewritten_leaves
        (depth : nat) (D : dict) (props : list (string * tree))
        (g : string -> json -> json) :
  wf_props props = true ->
  props_height props < depth ->
  dict_get "properties" D = Some (JObj (props_to_json props)) ->
  is_nested_schema D = Ok true ->
  (forall k x, is_leaf x = true -> is_leaf (g k x) = true) ->
  exists flat index items,
    flatten_schema depth D = Ok (flat, index)
    /\ dict_get "properties" flat = Some (JObj items)
    /\ unflatten_schema (dict_set "properties" (JObj (relabel_flat g items)) flat) index
       = Ok (filter not_properties D
             ++ [("properties", JObj (props_rebuilt (relabel_props g [] props)))]).
Proof.
  intros Hwf Hh HD HN Hg.
  assert (Hn : has_nested_items (props_to_json props) = true).
  { unfold is_nested_schema in HN. rewrite HD in HN.
    unfold _has_nested_properties in HN. cbn [py_items bind] in HN. congruence. }
  rewrite (flatten_schema_tree depth D props Hwf Hh HD Hn).
  eexists. eexists. exists (flat_entries "" props).
  split; [reflexivity|]. split; [apply dict_get_set_same|].
  assert (Hwf' := wf_relabel g props Hg Hwf []).
  rewrite unflatten_schema_nonempty.
  - unfold dict_get_default. rewrite dict_get_set_same. cbn [py_items bind].
    rewrite <- flat_entries_relabel, flat_entries_root.
    rewrite unflatten_items_paths by (apply props_leaves_good; exact Hwf').
    rewrite (unflatten_paths_tree _ Hwf' []) by reflexivity.
    cbn [bind app]. now rewrite !filter_not_properties_set.
  - assert (Hne : props <> []) by (destruct props; discriminate).
    pose proof (props_leaves_nonempty props Hwf Hne) as Hl.
    rewrite flat_entries_root. destruct (props_leaves props); [congruence|discriminate].
Qed.

Lemma unflatten_carries_rewritten_leaves_witness :
  unflatten_schema
    [("$schema", JStr "http://json-schema.org/draft-07/schema#");
     ("properties",
      JObj [("order.customer.contacts[*].value", Examples.field "Extract value");
            ("order.customer.name", Examples.field "Full legal name");
            ("order.id", Examples.field "Extract id");
            ("total", Examples.field "Extract total")]);
     ("class", JStr "order")]
    [("order.customer.contacts[*].value", "order.customer.contacts[*].value");
     ("order.customer.name", "order.customer.name");
     ("order.id", "order.id"); ("total", "total")]
  = Ok [("$schema", JStr "http://json-schema.org/draft-07/schema#");
        ("class", JStr "order");
        ("properties",
         JObj [("order",
                obj [("customer",
                      obj [("contacts", arr [("value", Examples.field "Extract value")]);
                           ("name", Examples.field "Full legal name")]);
                     ("id", Examples.field "Extract id")]);
               ("total", Examples.field "Extract total")])].
Proof.
  destruct (unflatten_carries_rewritten_leaves
              4 Examples.order_doc Examples.order_props
              (set_instruction "order.customer.name" "Full legal name"))
    as (flat & index & items & H1 & H2 & H3);
    [reflexivity|cbn; lia|reflexivity|reflexivity|apply set_instruction_leaf|].
  injection H1 as <- <-. injection H2 as <-. exact H3.
Defined.
End RewrittenLeaves.

(** ** The schema value object *)

Section SchemaObject.
Import PyStr SchemaFlattener SchemaUnflattener Nested Rewrite Laws.

(** [update_instruction] changes one instruction and nothing else (the
    values of distinct fields being distinct objects, as every constructor
    of this module builds them): the field names and their order, the
    other fields and the metadata stay;
    a [SchemaProperty] keeps its type and inference type, a plain mapping
    with an [instruction] has that entry replaced in place, and on an
    unknown field, a mapping without [instruction] or a value that is not a
    mapping the call does nothing. *)
Theorem update_instruction_changes_one_instruction
        (self : Schema.t) (field_name instruction : string) :
  let updated := Schema.update_instruction self field_name instruction in
  keys (Schema.properties updated) = keys (Schema.properties self)
  /\ updated = Schema.with_properties self (Schema.properties updated)
  /\ (forall k, k <> field_name ->
                dict_get k (Schema.properties updated) = dict_get k (Schema.properties self))
  /\ match dict_get field_name (Schema.properties self) with
     | Some (Schema.Model p) =>
         dict_get field_name (Schema.properties updated)
         = Some (Schema.Model (SchemaProperty.mk (SchemaProperty.type p)
                                                 (SchemaProperty.inferenceType p)
                                                 instruction))
     | Some (Schema.Raw (JObj d)) =>
         if dict_mem "instruction" d
         then dict_get field_name (Schema.properties updated)
              = Some (Schema.Raw (JObj (dict_set "instruction" (JStr instruction) d)))
         else updated = self
     | _ => updated = self
     end.
Proof.
  cbv zeta. unfold Schema.update_instruction.
  destruct (dict_get field_name (Schema.properties self)) as [[p|[| | | | |d]]|] eqn:E;
    try (destruct self; repeat split; reflexivity).
  - cbn [Schema.with_properties Schema.properties]. repeat split.
    + now apply keys_dict_set_present with (x := Schema.Model p).
    + intros k Hk. now apply dict_get_set_other.
    + apply dict_get_set_same.
  - destruct (dict_mem "instruction" d);
      [|destruct self; repeat split; reflexivity].
    cbn [Schema.with_properties Schema.properties]. repeat split.
    + now apply keys_dict_set_present with (x := Schema.Raw (JObj d)).
    + intros k Hk. now apply dict_get_set_other.
    + apply dict_get_set_same.
Qed.

(** Two updates of the same field compose to the later one. *)
Theorem update_instruction_last_wins (self : Schema.t) (field_name i1 i2 : string) :
  Schema.update_instruction (Schema.update_instruction self field_name i1) field_name i2
  = Schema.update_instruction self field_name i2.
Proof.
  unfold Schema.update_instruction at 2 3.
  destruct (dict_get field_name (Schema.properties self)) as [[p|[| | | | |d]]|] eqn:E;
    try (unfold Schema.update_instruction; now rewrite E).
  - unfold Schema.update_instruction, Schema.with_properties.
    cbn [Schema.properties Schema.schema Schema.description Schema.class_ Schema.type
         Schema.definitions].
    rewrite dict_get_set_same. cbn [SchemaProperty.type SchemaProperty.inferenceType].
    now rewrite dict_set_set.
  - destruct (dict_mem "instruction" d) eqn:M.
    + unfold Schema.update_instruction, Schema.with_properties.
      cbn [Schema.properties Schema.schema Schema.description Schema.class_ Schema.type
           Schema.definitions].
      rewrite dict_get_set_same. unfold dict_mem at 1. rewrite dict_get_set_same.
      now rewrite !dict_set_set.
    + unfold Schema.update_instruction. now rewrite E, M.
Qed.

Lemma walk_returns_mapping path v :
  forall L x, walk path v (JObj L) = Ok x -> exists L', x = JObj L'.
Proof.
  destruct path as [|a rest]; intros L x; cbn [walk]; [intros [= <-]; eauto|].
  destruct a as [n|n]; unfold bind;
    repeat match goal with
           | |- context [match ?y with _ => _ end] => destruct y
           end; try discriminate; intros [= <-]; eauto.
Qed.

Lemma unflatten_items_returns_mapping items :
  forall L x, unflatten_items items (JObj L) = Ok x -> exists L', x = JObj L'.
Proof.
  induction items as [|[k v] items IH]; intros L x; cbn [unflatten_items].
  - intros [= <-]. eauto.
  - unfold _unflatten_property.
    destruct (walk (_parse_flat_path k) v (JObj L)) as [y|] eqn:E; [|discriminate].
    cbn [bind]. destruct (walk_returns_mapping _ _ _ _ E) as [L' ->]. apply IH.
Qed.

Lemma init_after_dump (s : Schema.t) properties nested_properties :
  Schema.init
    (filter not_properties
       (filter not_properties (Schema.model_dump s) ++ [("properties", nested_properties)]))
    properties
  = Ok (Schema.with_properties s properties).
Proof. reflexivity. Qed.

(** With a non-empty index, once the core unflattener has returned on the
    dumped flat schema the document-level operation returns too: the
    result carries the metadata of the flat schema it was given (not of the
    schema it is called on) and holds the rebuilt properties as plain
    nested structures. *)
Theorem unflatten_from_optimization_wraps
        (self flat_schema : Schema.t) (index : list (string * string)) (R : dict) :
  index <> [] ->
  unflatten_schema (Schema.model_dump flat_schema) index = Ok R ->
  exists props,
    dict_get "properties" R = Some (JObj props)
    /\ Schema.unflatten_from_optimization self flat_schema index
       = Ok (Schema.with_properties flat_schema
               (map (fun kv => (fst kv, Schema.Raw (snd kv))) props)).
Proof.
  intros Hi HR. unfold Schema.unflatten_from_optimization,
                  Schema.unflatten_from_optimization_with.
  destruct index as [|e index]; [congruence|]. rewrite HR. cbn [bind].
  rewrite unflatten_schema_nonempty in HR by discriminate.
  unfold dict_get_default in HR. rewrite model_dump_properties in HR.
  cbn [py_items bind] in HR.
  destruct (unflatten_items (dumped_properties flat_schema) (JObj [])) as [x|] eqn:E;
    [|discriminate].
  destruct (unflatten_items_returns_mapping _ _ _ E) as [props ->].
  cbn [bind] in HR. injection HR as <-.
  exists props. split; [reflexivity|].
  unfold Schema.of_dict.
  change (dict_get "properties"
            (filter not_properties (Schema.model_dump flat_schema)
             ++ [("properties", JObj props)]))
    with (Some (JObj props)).
  apply init_after_dump.
Qed.

Lemma unflatten_from_optimization_wraps_witness :
  Schema.unflatten_from_optimization
    Examples.held
    (Schema.mk "s" "A flat order" "order" "object" []
       [("customer.name",
         Schema.Model (SchemaProperty.mk "string" "explicit" "Full legal name"))])
    [("customer.name", "customer.name")]
  = Ok (Schema.mk "s" "A flat order" "order" "object" []
          [("customer",
            Schema.Raw (obj [("name", JObj [("type", JStr "string");
                                            ("inferenceType", JStr "explicit");
                                            ("instruction", JStr "Full legal name")])]))]).
Proof.
  destruct (unflatten_from_optimization_wraps
              Examples.held
              (Schema.mk "s" "A flat order" "order" "object" []
                 [("customer.name",
                   Schema.Model (SchemaProperty.mk "string" "explicit" "Full legal name"))])
              [("customer.name", "customer.name")] _ ltac:(discriminate) eq_refl)
    as (props & H1 & H2).
  injection H1 as <-. exact H2.
Defined.
End SchemaObject.

(** ** Loading and saving *)

Section LoadSave.
Import PyStr SchemaFlattener SchemaUnflattener Nested Rewrite Laws.

Lemma init_model_dump p : SchemaProperty.init (SchemaProperty.model_dump p) = Ok p.
Proof. now destruct p. Qed.

Lemma to_file_is_model_dump self :
  NoDup (keys (Schema.properties self)) -> Schema.to_file self = Schema.model_dump self.
Proof.
  intros Hnd. unfold Schema.to_file. rewrite model_dump_properties.
  rewrite fold_dict_set_fresh.
  - now apply dict_set_same.
  - unfold dumped_properties, keys. rewrite map_map. exact Hnd.
Qed.

Lemma load_dumped_properties props :
  (forall k d, In (k, Schema.Raw (JObj d)) props -> Schema.has_all_three d = false) ->
  forall done,
    NoDup (keys done ++ keys props) ->
    Schema.load_properties
      (map (fun kv => (fst kv, Schema.dump_value (snd kv))) props) done
    = Ok (done ++ props).
Proof.
  induction props as [|[k v] props IH]; intros Hraw done Hnd.
  - cbn. now rewrite app_nil_r.
  - cbn [keys map fst snd] in *.
    assert (Hfresh : dict_get k done = None).
    { apply dict_get_none_keys. apply NoDup_remove_2 in Hnd.
      intros Hin. apply Hnd. apply in_or_app. now left. }
    assert (Hnext : NoDup (keys (done ++ [(k, v)]) ++ keys props)).
    { unfold keys in *. rewrite map_app, <- app_assoc. exact Hnd. }
    assert (Hrest : Schema.load_properties
                      (map (fun kv => (fst kv, Schema.dump_value (snd kv))) props)
                      (dict_set k v done) = Ok (done ++ (k, v) :: props)).
    { rewrite dict_set_fresh by assumption. rewrite IH; auto.
      - now rewrite <- app_assoc.
      - intros k' d' Hin. apply (Hraw k' d'). now right. }
    cbn [Schema.load_properties]. destruct v as [p|x].
    + cbn [Schema.dump_value]. unfold SchemaProperty.model_dump at 1.
      change (Schema.has_all_three _) with true. cbv iota.
      fold (SchemaProperty.model_dump p). rewrite init_model_dump. exact Hrest.
    + cbn [Schema.dump_value]. destruct x as [| | | | |d]; try exact Hrest.
      rewrite (Hraw k d) by now left. exact Hrest.
Qed.

(** Saving and loading again gives the schema back, provided no plain
    mapping among its properties carries all three of [type],
    [inferenceType] and [instruction] (such a mapping is loaded as a
    [SchemaProperty]). *)
Theorem save_then_load (self : Schema.t) :
  NoDup (keys (Schema.properties self)) ->
  (forall k d, In (k, Schema.Raw (JObj d)) (Schema.properties self) ->
               Schema.has_all_three d = false) ->
  Schema.from_file (Schema.to_file self) = Ok self.
Proof.
  intros Hnd Hraw. rewrite to_file_is_model_dump by assumption.
  unfold Schema.from_file. rewrite model_dump_properties. cbn [py_items bind].
  unfold dumped_properties. rewrite load_dumped_properties by assumption.
  cbn [bind app]. now destruct self.
Qed.

Lemma save_then_load_witness :
  Schema.from_file (Schema.to_file Examples.loaded) = Ok Examples.loaded.
Proof.
  apply (save_then_load Examples.loaded).
  - repeat constructor; simpl; intuition discriminate.
  - intros k d [H|[H|[H|[]]]]; inversion H; subst; reflexivity.
Defined.

Lemma load_properties_classifies items :
  forall done props,
    Schema.load_properties items done = Ok props ->
    forall k x, In (k, x) props ->
      In (k, x) done
      \/ exists v, In (k, v) items
           /\ ((exists p, x = Schema.Model p /\ SchemaProperty.init v = Ok p
                          /\ exists d, v = JObj d /\ Schema.has_all_three d = true)
               \/ (x = Schema.Raw v
                   /\ forall d, v = JObj d -> Schema.has_all_three d = false)).
Proof.
  induction items as [|[n v] items IH]; intros done props H k x Hin.
  - injection H as <-. auto.
  - cbn [Schema.load_properties] in H.
    assert (Hraw : (forall d, v = JObj d -> Schema.has_all_three d = false) ->
                   Schema.load_properties items (dict_set n (Schema.Raw v) done) = Ok props ->
                   In (k, x) done
                   \/ exists v0, In (k, v0) ((n, v) :: items)
                        /\ ((exists p, x = Schema.Model p /\ SchemaProperty.init v0 = Ok p
                                       /\ exists d, v0 = JObj d
                                                    /\ Schema.has_all_three d = true)
                            \/ (x = Schema.Raw v0
                                /\ forall d, v0 = JObj d -> Schema.has_all_three d = false))).
    { intros Hv H'. destruct (IH _ _ H' k x Hin) as [Hd|(v0 & Hv0 & Hcase)].
      - apply In_dict_set in Hd. destruct Hd as [[-> ->]|Hd]; auto.
        right. exists v. split; [now left|]. right. auto.
      - right. exists v0. split; [now right|exact Hcase]. }
    destruct v as [| | | | |d]; try (apply Hraw; [discriminate|exact H]).
    destruct (Schema.has_all_three d) eqn:T.
    + destruct (SchemaProperty.init (JObj d)) as [p|] eqn:E; [|discriminate].
      cbn [bind] in H. destruct (IH _ _ H k x Hin) as [Hd|(v0 & Hv0 & Hcase)].
      * apply In_dict_set in Hd. destruct Hd as [[-> ->]|Hd]; auto.
        right. exists (JObj d). split; [now left|]. left. exists p. eauto.
      * right. exists v0. split; [now right|exact Hcase].
    + apply Hraw; [|exact H]. now intros d' [= <-].
Qed.

(** After loading, a property is a [SchemaProperty] exactly when the
    document gave it as a mapping with all three of [type],
    [inferenceType] and [instruction], whose values it then holds (any
    other key of that mapping is gone); every other property is kept as
    the document gave it. *)
Theorem from_file_classifies_properties (data : dict) (self : Schema.t) :
  Schema.from_file data = Ok self ->
  exists items,
    dict_get "properties" data = Some (JObj items)
    /\ forall k x, In (k, x) (Schema.properties self) ->
         exists v, In (k, v) items
           /\ ((exists p, x = Schema.Model p /\ SchemaProperty.init v = Ok p
                          /\ exists d, v = JObj d /\ Schema.has_all_three d = true)
               \/ (x = Schema.Raw v
                   /\ forall d, v = JObj d -> Schema.has_all_three d = false)).
Proof.
  unfold Schema.from_file.
  destruct (dict_get "properties" data) as [[| | | | |items]|]; try discriminate.
  cbn [py_items bind].
  destruct (Schema.load_properties items []) as [props|] eqn:L; [|discriminate].
  cbn [bind]. intros Hinit. apply init_properties in Hinit.
  exists items. split; [reflexivity|]. intros k x Hin. rewrite Hinit in Hin.
  destruct (load_properties_classifies items [] props L k x Hin) as [[]|H]. exact H.
Qed.

Lemma from_file_classifies_properties_witness :
  exists items,
    dict_get "properties" (Schema.to_file Examples.loaded) = Some (JObj items).
Proof.
  destruct (from_file_classifies_properties
              (Schema.to_file Examples.loaded) Examples.loaded eq_refl) as (items & H & _).
  now exists items.
Defined.

Lemma init_mapping_error d e :
  SchemaProperty.init (JObj d) = Raise e -> e = ValidationError.
Proof.
  unfold SchemaProperty.init, SchemaProperty.str_field.
  destruct (dict_get "type" d) as [[| | |t| |]|]; cbn [bind]; try congruence;
    destruct (dict_get "inferenceType" d) as [[| | |i| |]|]; cbn [bind]; try congruence;
    destruct (dict_get "instruction" d) as [[| | |s| |]|]; cbn [bind]; congruence.
Qed.

Lemma load_properties_app pre rest :
  forall done,
    forallb (fun e => match snd e with
                      | JObj d => negb (Schema.has_all_three d) || coercible (JObj d)
                      | _ => true
                      end) pre = true ->
    exists done',
      Schema.load_properties (pre ++ rest) done = Schema.load_properties rest done'.
Proof.
  induction pre as [|[k v] pre IH]; intros done H; [now exists done|].
  cbn [forallb snd] in H. apply andb_true_iff in H. destruct H as [Hv Hpre].
  cbn [app Schema.load_properties]. destruct v as [| | | | |d]; try now apply IH.
  destruct (Schema.has_all_three d); [|now apply IH].
  cbn [negb orb] in Hv. unfold coercible in Hv.
  destruct (SchemaProperty.init (JObj d)); [|discriminate]. cbn [bind]. now apply IH.
Qed.

(** Loading raises [ValidationError] on a document in which a property
    carries all three of [type], [inferenceType] and [instruction] but not
    all of them as strings (the properties before it being loadable). *)
Theorem from_file_rejects_non_string_field (data pre rest d : dict) (k : string) :
  dict_get "properties" data = Some (JObj (pre ++ (k, JObj d) :: rest)) ->
  forallb (fun e => match snd e with
                    | JObj d => negb (Schema.has_all_three d) || coercible (JObj d)
                    | _ => true
                    end) pre = true ->
  Schema.has_all_three d = true -> coercible (JObj d) = false ->
  Schema.from_file data = Raise ValidationError.
Proof.
  intros H Hpre Ht Hc. unfold Schema.from_file. rewrite H.
  cbn [py_items bind].
  destruct (load_properties_app pre ((k, JObj d) :: rest) [] Hpre) as [done ->].
  cbn [Schema.load_properties]. rewrite Ht. unfold coercible in Hc.
  destruct (SchemaProperty.init (JObj d)) as [p|e] eqn:E; [discriminate|].
  cbn [bind]. f_equal. now apply (init_mapping_error d).
Qed.

Lemma from_file_rejects_non_string_field_witness :
  Schema.from_file
    [("description", JStr "An invoice"); ("class", JStr "invoice");
     ("properties",
      JObj [("customer", obj [("name", Examples.field "Extract name")]);
            ("total", JObj [("type", JStr "number"); ("inferenceType", JStr "explicit");
                            ("instruction", JNull)])])]
  = Raise ValidationError.
Proof.
  apply (from_file_rejects_non_string_field
           _ [("customer", obj [("name", Examples.field "Extract name")])] []
           [("type", JStr "number"); ("inferenceType", JStr "explicit");
            ("instruction", JNull)] "total");
    reflexivity.
Defined.
End LoadSave.

(** ** The optimization pipeline *)

Section Pipeline.
Import PyStr SchemaFlattener SchemaUnflattener Nested Rewrite Laws.

Lemma well_formed_fields_exact items :
  (forall e, In e items -> exists p, snd e = SchemaProperty.model_dump p) ->
  map (fun kv => (fst kv, Schema.dump_value (snd kv))) (well_formed_fields items) = items
  /\ malformed_fields items = []
  /\ (forall k x, In (k, x) (well_formed_fields items) -> exists p, x = Schema.Model p).
Proof.
  induction items as [|[k v] items IH]; intros H.
  - repeat split. intros k x [].
  - destruct (H (k, v) (or_introl eq_refl)) as [p Hp]. cbn [snd] in Hp. subst v.
    destruct IH as (IH1 & IH2 & IH3); [intros e He; apply H; now right|].
    cbn [well_formed_fields malformed_fields flat_map]. rewrite init_model_dump.
    cbn [app map fst snd Schema.dump_value].
    fold (well_formed_fields items). fold (malformed_fields items).
    rewrite IH1, IH2. repeat split.
    intros k' x [[= <- <-]|Hin]; eauto.
Qed.

Lemma map_dict_set {A B} (f : A -> B) k x (d : list (string * A)) :
  map (fun kv => (fst kv, f (snd kv))) (dict_set k x d)
  = dict_set k (f x) (map (fun kv => (fst kv, f (snd kv))) d).
Proof.
  induction d as [|[k0 v0] d IH]; [reflexivity|].
  cbn [dict_set map fst snd]. destruct (String.eqb k k0); cbn [map fst snd]; congruence.
Qed.

Lemma relabel_flat_absent g (items : dict) :
  (forall k x, In (k, x) items -> g k x = x) -> relabel_flat g items = items.
Proof.
  intros H. unfold relabel_flat. rewrite <- (map_id items) at 2.
  apply map_ext_in. intros [k x] Hin. cbn [fst snd]. now rewrite H.
Qed.

Lemma relabel_flat_set_instruction f i (items : dict) :
  NoDup (keys items) ->
  relabel_flat (set_instruction f i) items
  = match dict_get f items with
    | Some x => dict_set f (set_instruction f i f x) items
    | None => items
    end.
Proof.
  induction items as [|[k x] items IH]; intros Hnd; [reflexivity|].
  cbn [keys map fst] in Hnd. inversion Hnd as [|? ? Hk Hnd']; subst.
  change (relabel_flat (set_instruction f i) ((k, x) :: items))
    with ((k, set_instruction f i k x) :: relabel_flat (set_instruction f i) items).
  cbn [dict_get]. destruct (String.eqb_spec f k) as [->|Hne].
  - cbn [dict_set]. rewrite String.eqb_refl. f_equal.
    apply relabel_flat_absent. intros k' x' Hin. unfold set_instruction.
    destruct (String.eqb_spec k' k) as [->|]; auto.
    exfalso. apply Hk. apply (in_map fst) in Hin. exact Hin.
  - rewrite (IH Hnd'). unfold set_instruction at 1.
    assert (E : String.eqb k f = false) by (apply String.eqb_neq; congruence).
    rewrite E. destruct (dict_get f items) as [y|]; [|reflexivity].
    cbn [dict_set]. apply String.eqb_neq in Hne. now rewrite Hne.
Qed.

Lemma dict_get_map {A B} (h : A -> B) f (l : list (string * A)) :
  dict_get f (map (fun kv => (fst kv, h (snd kv))) l) = option_map h (dict_get f l).
Proof.
  induction l as [|[k0 v0] l IHl]; [reflexivity|].
  cbn [map fst snd dict_get]. now destruct (String.eqb f k0).
Qed.

Lemma dict_get_In {A} f (x : A) (l : list (string * A)) :
  dict_get f l = Some x -> In (f, x) l.
Proof.
  induction l as [|[k0 v0] l IHl]; [discriminate|].
  cbn [dict_get]. destruct (String.eqb_spec f k0) as [->|]; [|right; auto].
  intros [= ->]. now left.
Qed.

Lemma dumped_after_update (s : Schema.t) f i :
  NoDup (keys (Schema.properties s)) ->
  (forall k x, In (k, x) (Schema.properties s) -> exists p, x = Schema.Model p) ->
  dumped_properties (Schema.update_instruction s f i)
  = relabel_flat (set_instruction f i) (dumped_properties s).
Proof.
  intros Hnd Hall. rewrite relabel_flat_set_instruction.
  2:{ unfold dumped_properties, keys. rewrite map_map. exact Hnd. }
  unfold Schema.update_instruction, dumped_properties.
  rewrite dict_get_map.
  destruct (dict_get f (Schema.properties s)) as [x|] eqn:E; [|reflexivity].
  assert (Hin : In (f, x) (Schema.properties s)) by now apply dict_get_In.
  destruct (Hall f x Hin) as [p ->].
  cbn [option_map Schema.with_properties Schema.properties].
  rewrite map_dict_set. f_equal.
  unfold set_instruction. rewrite String.eqb_refl. now destruct p.
Qed.

Lemma unflatten_relabelled flat index props g :
  wf_props props = true -> props <> [] ->
  (forall k x, is_leaf x = true -> is_leaf (g k x) = true) ->
  index <> [] ->
  dict_get "properties" flat = Some (JObj (relabel_flat g (flat_entries "" props))) ->
  unflatten_schema flat index
  = Ok (filter not_properties flat
        ++ [("properties", JObj (props_rebuilt (relabel_props g [] props)))]).
Proof.
  intros Hwf Hne Hg Hi Hp. assert (Hwf' := wf_relabel g props Hg Hwf []).
  rewrite unflatten_schema_nonempty by assumption.
  unfold dict_get_default. rewrite Hp. cbn [py_items bind].
  rewrite <- flat_entries_relabel, flat_entries_root.
  rewrite unflatten_items_paths by (apply props_leaves_good; exact Hwf').
  now rewrite (unflatten_paths_tree _ Hwf' []) by reflexivity.
Qed.

Lemma is_leaf_model_dump p : is_leaf (SchemaProperty.model_dump p) = true.
Proof.
  destruct p as [t i s]. unfold is_leaf, SchemaProperty.model_dump.
  cbn [is_dict andb SchemaProperty.type SchemaProperty.inferenceType
       SchemaProperty.instruction].
  unfold nested_property, dict_mem, dict_get_default. cbn [dict_get String.eqb Ascii.eqb
    Bool.eqb andb]. cbn.
  now rewrite !andb_false_r.
Qed.

(** The pipeline of the optimizer on a nested schema whose terminal nodes
    are exactly [type], [inferenceType], [instruction]:
    [flatten_for_optimization] drops nothing; after [update_instruction] on
    the flat schema, [unflatten_from_optimization] returns the schema it
    started from with the properties rebuilt, where the terminal node at
    the flat path [field_name] (if there is one) has the new instruction
    and every other node is as before. *)
Theorem optimized_instruction_reaches_nested_field
        (depth : nat) (self : Schema.t) (props : list (string * tree))
        (field_name instruction : string) :
  dumped_properties self = props_to_json props ->
  wf_props props = true ->
  props_height props < depth ->
  Schema.is_nested self = Ok true ->
  (forall e, In e (props_leaves props) -> exists p, snd e = SchemaProperty.model_dump p) ->
  exists flat index,
    Schema.flatten_for_optimization depth self = Ok (flat, index, [])
    /\ Schema.unflatten_from_optimization
         self (Schema.update_instruction flat field_name instruction) index
       = Ok (Schema.with_properties self
               (map (fun kv => (fst kv, Schema.Raw (snd kv)))
                    (props_rebuilt
                       (relabel_props (set_instruction field_name instruction) [] props)))).
Proof.
  intros Hprops Hwf Hh HN Hleaves.
  assert (HD : dict_get "properties" (Schema.model_dump self)
               = Some (JObj (props_to_json props))).
  { rewrite model_dump_properties. now rewrite Hprops. }
  assert (Hn : has_nested_items (props_to_json props) = true).
  { unfold Schema.is_nested, is_nested_schema in HN. rewrite HD in HN.
    unfold _has_nested_properties in HN. cbn [py_items bind] in HN. congruence. }
  assert (Hne : props <> []) by (destruct props; discriminate).
  set (E := flat_entries "" props).
  assert (HE : forall e, In e E -> exists p, snd e = SchemaProperty.model_dump p).
  { intros e He. unfold E in He. rewrite flat_entries_root in He.
    apply in_map_iff in He. destruct He as (e0 & <- & He0). now apply Hleaves. }
  destruct (well_formed_fields_exact E HE) as (Hdump & Hlog & Hmodels).
  assert (HndE : NoDup (keys E)) by now apply flat_entries_NoDup.
  assert (HEne : E <> []).
  { unfold E. rewrite flat_entries_root.
    pose proof (props_leaves_nonempty props Hwf Hne).
    destruct (props_leaves props); [congruence|discriminate]. }
  set (flat := Schema.with_properties self (well_formed_fields E)).
  assert (Hflat : Schema.flatten_for_optimization depth self
                  = Ok (flat, map (fun e => (fst e, fst e)) E, [])).
  { unfold Schema.flatten_for_optimization.
    rewrite (flatten_schema_tree depth _ props Hwf Hh HD Hn). cbn [bind].
    unfold dict_get_default. rewrite dict_get_set_same. cbn [py_items bind].
    fold E. rewrite convert_items_spec by exact HndE. cbn [app].
    rewrite (init_of_dump self) by apply filter_not_properties_set.
    cbn [bind]. now rewrite Hlog. }
  exists flat, (map (fun e => (fst e, fst e)) E). split; [exact Hflat|].
  set (g := set_instruction field_name instruction).
  set (flat' := Schema.update_instruction flat field_name instruction).
  assert (Hkeys : keys (well_formed_fields E) = keys E).
  { rewrite <- Hdump at 2. unfold keys. now rewrite map_map. }
  assert (Hd' : dumped_properties flat' = relabel_flat g E).
  { unfold flat'. rewrite dumped_after_update.
    - unfold dumped_properties, flat. cbn [Schema.with_properties Schema.properties].
      now rewrite Hdump.
    - unfold flat. cbn [Schema.with_properties Schema.properties]. now rewrite Hkeys.
    - exact Hmodels. }
  assert (Hmeta : forall P, Schema.with_properties flat' P = Schema.with_properties self P).
  { intros P. unfold flat', Schema.update_instruction.
    destruct (dict_get field_name (Schema.properties flat)) as [[p|[| | | | |d]]|];
      try reflexivity.
    now destruct (dict_mem "instruction" d). }
  unfold Schema.unflatten_from_optimization, Schema.unflatten_from_optimization_with.
  destruct (map (fun e => (fst e, fst e)) E) as [|e0 idx] eqn:Eidx.
  { destruct E; [congruence|discriminate]. }
  rewrite (unflatten_relabelled (Schema.model_dump flat') (e0 :: idx) props g);
    auto; try discriminate.
  - cbn [bind]. unfold Schema.of_dict.
    change (dict_get "properties"
              (filter not_properties (Schema.model_dump flat')
               ++ [("properties", JObj (props_rebuilt (relabel_props g [] props)))]))
      with (Some (JObj (props_rebuilt (relabel_props g [] props)))).
    cbv iota beta. rewrite init_after_dump. now rewrite Hmeta.
  - intros k x. apply set_instruction_leaf.
  - rewrite model_dump_properties. now rewrite Hd'.
Qed.

Lemma optimized_instruction_reaches_nested_field_witness :
  exists flat index,
    Schema.flatten_for_optimization 3 Examples.nested_schema = Ok (flat, index, [])
    /\ Schema.unflatten_from_optimization
         Examples.nested_schema
         (Schema.update_instruction flat "customer.contacts[*].value" "Phone or email")
         index
       = Ok (Schema.mk "http://json-schema.org/draft-07/schema#" "An order" "order"
                       "object" []
                       [("customer",
                         Schema.Raw
                           (obj [("contacts",
                                  arr [("value", Examples.field "Phone or email")]);
                                 ("name", Examples.field "Extract name")]));
                        ("total", Schema.Raw (Examples.field "Extract total"))]).
Proof.
  apply (optimized_instruction_reaches_nested_field
           3 Examples.nested_schema Examples.nested_props
           "customer.contacts[*].value" "Phone or email");
    [reflexivity|reflexivity|cbn; lia|reflexivity|].
  intros e [<-|[<-|[<-|[]]]]; cbn [snd];
    [exists (SchemaProperty.mk "string" "explicit" "Extract value")
    |exists (SchemaProperty.mk "string" "explicit" "Extract name")
    |exists (SchemaProperty.mk "string" "explicit" "Extract total")];
    reflexivity.
Defined.
End Pipeline.

(** ** Flattening twice *)

Section Idempotence.
Import PyStr SchemaFlattener SchemaUnflattener Nested Rewrite.

Lemma flatten_property_cases recurse definitions prefix name v st st' :
  flatten_property recurse definitions prefix name v st = Ok st' ->
  st' = st
  \/ (exists path, st' = add_leaf path v st /\ terminal definitions v)
  \/ (exists sub path, recurse sub path st = Ok st').
Proof.
  destruct v as [| | | | |d]; try (intros [= <-]; now left).
  unfold flatten_property.
  destruct (dict_get "$ref" d) as [r|] eqn:R.
  - destruct r as [| | |ref| |]; try discriminate.
    destruct (startswith "#/definitions/" ref) eqn:S.
    + destruct (py_in (replace "%20" " " (replace "#/definitions/" "" ref)) definitions)
        as [[|]|] eqn:I; cbn [bind]; try discriminate.
      * destruct (py_getitem (replace "%20" " " (replace "#/definitions/" "" ref))
                             definitions) as [[| | | | |dd]|] eqn:G;
          cbn [bind]; try discriminate;
          try (intros [= <-]; right; left; eexists; split; [reflexivity|];
               intros rec' prefix' name' st0; unfold flatten_property;
               rewrite R, S, I; cbn [bind]; rewrite G; reflexivity).
        destruct (dict_get "properties" dd) as [sub|] eqn:P.
        -- intros H. right; right. eauto.
        -- intros [= <-]. right; left. eexists. split; [reflexivity|].
           intros rec' prefix' name' st0. unfold flatten_property.
           rewrite R, S, I. cbn [bind]. rewrite G. cbn [bind]. now rewrite P.
      * intros [= <-]. right; left. eexists. split; [reflexivity|].
        intros rec' prefix' name' st0. unfold flatten_property.
        now rewrite R, S, I.
    + intros [= <-]. right; left. eexists. split; [reflexivity|].
      intros rec' prefix' name' st0. unfold flatten_property. now rewrite R, S.
  - destruct (json_is_str "object" (dict_get_default "type" (JStr "") d)
              && dict_mem "properties" d) eqn:O.
    { destruct (dict_getitem "properties" d); cbn [bind]; [|discriminate].
      intros H. right; right. eauto. }
    destruct (json_is_str "array" (dict_get_default "type" (JStr "") d)
              && dict_mem "items" d) eqn:A.
    + destruct (dict_getitem "items" d) as [[| | | | |it]|] eqn:G;
        cbn [bind]; try discriminate;
        try (intros [= <-]; right; left; eexists; split; [reflexivity|];
             intros rec' prefix' name' st0; unfold flatten_property;
             rewrite R, O, A, G; reflexivity).
      destruct (json_is_str "object" (dict_get_default "type" JNull it)
                && dict_mem "properties" it) eqn:T.
      * destruct (dict_getitem "properties" it); cbn [bind]; [|discriminate].
        intros H. right; right. eauto.
      * intros [= <-]. right; left. eexists. split; [reflexivity|].
        intros rec' prefix' name' st0. unfold flatten_property.
        rewrite R, O, A, G. cbn [bind]. now rewrite T.
    + intros [= <-]. right; left. eexists. split; [reflexivity|].
      intros rec' prefix' name' st0. unfold flatten_property. now rewrite R, O, A.
Qed.

Lemma flatten_properties_terminal definitions :
  forall depth properties prefix st st',
    (forall k v, In (k, v) (fst st) -> terminal definitions v) ->
    _flatten_properties depth definitions properties prefix st = Ok st' ->
    forall k v, In (k, v) (fst st') -> terminal definitions v.
Proof.
  induction depth as [|d IHd]; intros props prefix st st' Hst; [discriminate|].
  cbn [_flatten_properties]. destruct props as [| | | | |items]; try discriminate.
  cbn [py_items bind]. revert st Hst.
  induction items as [|[name v] items IH]; intros st Hst; cbn [flatten_loop].
  - now intros [= <-].
  - destruct (flatten_property (_flatten_properties d definitions) definitions
                               prefix name v st) as [st1|] eqn:E; [|discriminate].
    cbn [bind]. apply IH.
    destruct (flatten_property_cases _ _ _ _ _ _ _ E)
      as [->|[(path & -> & Ht)|(sub & path & Hrec)]]; auto.
    + intros k x Hin. cbn [add_leaf fst] in Hin. apply In_dict_set in Hin.
      destruct Hin as [[_ ->]|Hin]; eauto.
    + now apply (IHd sub path st st1).
Qed.

Lemma flatten_loop_of_terminals recurse definitions items :
  (forall k v, In (k, v) items -> terminal definitions v) ->
  forall done index,
    NoDup (keys done ++ keys items) ->
    index = map (fun e => (fst e, fst e)) done ->
    flatten_loop recurse definitions "" items (done, index)
    = Ok (done ++ items, map (fun e => (fst e, fst e)) (done ++ items)).
Proof.
  induction items as [|[k v] items IH]; intros Ht done index Hnd ->.
  - cbn [flatten_loop]. now rewrite app_nil_r.
  - cbn [flatten_loop]. rewrite (Ht k v) by now left. cbn [bind].
    rewrite join_path_empty. unfold add_leaf, _build_nested_path. cbn [fst snd].
    cbn [keys map fst] in Hnd.
    assert (Hfresh : dict_get k done = None).
    { apply dict_get_none_keys. apply NoDup_remove_2 in Hnd.
      intros Hin. apply Hnd. apply in_or_app. now left. }
    rewrite <- (mirror_dict_set k v). rewrite dict_set_fresh by assumption.
    rewrite IH.
    + now rewrite <- app_assoc.
    + intros k' v' Hin. apply (Ht k' v'). now right.
    + unfold keys in *. rewrite map_app, <- app_assoc. exact Hnd.
    + reflexivity.
Qed.

(** Flattening is idempotent on documents: flattening the flat document
    again returns the same flat document.  The second index is the first
    one again when a terminal node still counts as nested (it holds a
    [$ref] that was not resolved), and empty otherwise. *)
Theorem flatten_schema_idempotent
        (depth : nat) (D flat : dict) (index : list (string * string)) :
  flatten_schema depth D = Ok (flat, index) ->
  exists index',
    flatten_schema depth flat = Ok (flat, index')
    /\ (index' = index \/ index' = []).
Proof.
  intros H. pose proof H as H0. revert H. unfold flatten_schema at 1.
  destruct (is_nested_schema D) as [[|]|] eqn:N; cbn [bind]; try discriminate.
  - unfold is_nested_schema in N.
    destruct (dict_get "properties" D) as [pv|] eqn:HD; [|discriminate].
    destruct (_flatten_properties depth _ pv "" ([], [])) as [st|] eqn:E;
      [|discriminate].
    cbn [bind]. intros [= <- <-].
    destruct depth as [|d]; [discriminate|].
    assert (Hnd : NoDup (keys (fst st))).
    { revert E. apply (flatten_properties_invariant (fun st => NoDup (keys (fst st)))).
      - intros path v st0 Hst. cbn [add_leaf fst]. now apply dict_set_keys_NoDup.
      - constructor. }
    assert (Hm : snd st = map (fun e => (fst e, fst e)) (fst st)).
    { revert E. apply (flatten_properties_invariant
                         (fun st => snd st = map (fun e => (fst e, fst e)) (fst st)));
        [|reflexivity].
      intros path v st0 Hst. cbn [add_leaf fst snd]. unfold _build_nested_path.
      now rewrite Hst, mirror_dict_set. }
    assert (Ht : forall k v, In (k, v) (fst st) ->
                             terminal (dict_get_default "definitions" (JObj []) D) v).
    { apply (flatten_properties_terminal _ (S d) pv "" ([], []) st); [|exact E].
      intros k v []. }
    unfold flatten_schema, is_nested_schema. rewrite dict_get_set_same.
    unfold _has_nested_properties. cbn [py_items bind].
    destruct (has_nested_items (fst st)); cbn [bind].
    + unfold dict_get_default. rewrite dict_get_set_other by discriminate.
      cbn [_flatten_properties py_items bind].
      rewrite (flatten_loop_of_terminals _ _ (fst st) Ht [] []); try reflexivity;
        [|exact Hnd].
      cbn [app bind fst snd]. rewrite dict_set_set, <- Hm. eauto.
    + eauto.
  - intros [= <- <-]. exists []. split; [exact H0|now left].
Qed.

Lemma flatten_schema_idempotent_witness :
  exists index',
    flatten_schema 4
      [("$schema", JStr "http://json-schema.org/draft-07/schema#");
       ("properties",
        JObj [("order.customer.contacts[*].value", Examples.field "Extract value");
              ("order.customer.name", Examples.field "Extract name");
              ("order.id", Examples.field "Extract id");
              ("total", Examples.field "Extract total")]);
       ("class", JStr "order")]
    = Ok ([("$schema", JStr "http://json-schema.org/draft-07/schema#");
           ("properties",
            JObj [("order.customer.contacts[*].value", Examples.field "Extract value");
                  ("order.customer.name", Examples.field "Extract name");
                  ("order.id", Examples.field "Extract id");
                  ("total", Examples.field "Extract total")]);
           ("class", JStr "order")], index')
    /\ (index'
        = [("order.customer.contacts[*].value", "order.customer.contacts[*].value");
           ("order.customer.name", "order.customer.name");
           ("order.id", "order.id"); ("total", "total")]
        \/ index' = []).
Proof.
  exact (flatten_schema_idempotent 4 Examples.order_doc _ _ eq_refl).
Defined.
End Idempotence.
